(** * Hydrophone viewer: tab system, analysis/filter/annotation tabs, project state

    A shallow embedding of the Python sources
      - [ui_tab_system.py]  (TabBase, TabManager)
      - [ui_layout.py]      (create_modern_layout)
      - [ui_tabs.py]        (AnalysisTab, FilterTab, AnnotationsTab, ExportTab)
      - [state.py]          (module variables, save_project, load_project,
                             reset_state)
    Python objects that are mutated in place are modelled by explicit state
    passing; a Python exception is the [Raise] outcome of a computation, and
    the state reached when it was raised is kept, as in Python. *)

From Stdlib Require Import ZArith QArith Qround List String Ascii Bool Lia.
From stdpp Require Import base gmap strings list pretty sorting.

Open Scope string_scope.
Open Scope list_scope.
#[local] Set Warnings "-register-all".

(** ** Python exceptions and outcomes *)

Inductive exn : Type :=
| TypeError (msg : string)
| IndexError (msg : string)
| ValueError (msg : string)
| OSError (msg : string)
| UnpicklingError (msg : string)
| AttributeError (msg : string)
| OverflowError (msg : string)
| KeyError (msg : string).

Definition exn_str (e : exn) : string :=
  match e with
  | TypeError m | IndexError m | ValueError m | OSError m
  | UnpicklingError m | AttributeError m | OverflowError m | KeyError m => m
  end.

Inductive result (A : Type) : Type :=
| Ok (a : A)
| Raise (e : exn).
Arguments Ok {A} a.
Arguments Raise {A} e.

(** A computation over a mutable object of type [S]: the object after the
    call is returned whether the call returned or raised. *)
Definition M (S A : Type) : Type := S -> result A * S.

Definition ret {S A} (a : A) : M S A := fun s => (Ok a, s).
Definition raise {S A} (e : exn) : M S A := fun s => (Raise e, s).
Definition bind {S A B} (c : M S A) (k : A -> M S B) : M S B :=
  fun s => match c s with
           | (Ok a, s') => k a s'
           | (Raise e, s') => (Raise e, s')
           end.
Definition modify {S} (f : S -> S) : M S unit := fun s => (Ok tt, f s).
Definition gets {S A} (f : S -> A) : M S A := fun s => (Ok (f s), s).

(** The outcome of an expression that touches no object. *)
Definition lift {S A} (r : result A) : M S A := fun s => (r, s).

(** A callback works on two objects, the tab ([self]) and the module
    [state]: a computation on one of them leaves the other alone. *)
Definition on_fst {S T A} (c : M S A) : M (S * T) A :=
  fun w => let '(r, s) := c (fst w) in (r, (s, snd w)).
Definition on_snd {S T A} (c : M T A) : M (S * T) A :=
  fun w => let '(r, t) := c (snd w) in (r, (fst w, t)).

Notation "'let*' x ':=' c 'in' k" := (bind c (fun x => k))
  (at level 10, x name, c at level 100, k at level 200).
Notation "c ';;' k" := (bind c (fun _ => k))
  (at level 100, k at level 200, right associativity).

(** ** Strings: [str.lower()] and [str.replace(' ', '_')] on ASCII text *)

Fixpoint string_map (f : ascii -> ascii) (s : string) : string :=
  match s with
  | EmptyString => EmptyString
  | String c s' => String (f c) (string_map f s')
  end.

Definition lower_ascii (c : ascii) : ascii :=
  let n := nat_of_ascii c in
  if (65 <=? n)%nat && (n <=? 90)%nat then ascii_of_nat (n + 32) else c.

Definition lower (s : string) : string := string_map lower_ascii s.

Definition space_to_underscore (c : ascii) : ascii :=
  if Ascii.eqb c " "%char then "_"%char else c.

(** [title.lower().replace(' ', '_')] *)
Definition slug (s : string) : string :=
  string_map space_to_underscore (lower s).

(** Truth value of [x] in [if x and ...] for [x] a [str] or [None]. *)
Definition truthy_name (o : option string) : bool :=
  match o with
  | None => false
  | Some s => negb (String.eqb s "")
  end.

(** ** Numbers, indexing and formatting as Python has them

    Amplitudes, frequencies and slider values are Python floats; they are
    taken as exact rationals here, so rounding of sums is not represented. *)

Definition nl : string := String (ascii_of_nat 10) "".

(** [int(x)] truncates toward zero. *)
Definition py_int (q : Q) : Z := Z.quot (Qnum q) (Zpos (Qden q)).

(** [l[i]] for a list or a one-dimensional array: a negative index counts
    from the end, an index outside [-len, len) raises IndexError. *)
Definition py_index {A} (l : list A) (i : Z) : result A :=
  let n := Z.of_nat (length l) in
  let j := if (i <? 0)%Z then (i + n)%Z else i in
  if (0 <=? j)%Z && (j <? n)%Z then
    match l !! Z.to_nat j with
    | Some x => Ok x
    | None => Raise (IndexError "index out of range")
    end
  else Raise (IndexError "index out of range").

(** [range(start, stop)] *)
Definition py_range (start stop : Z) : list Z :=
  map (fun k => (start + Z.of_nat k)%Z) (seq 0 (Z.to_nat (stop - start))).

(** Nearest integer of a non-negative rational [n/d], ties to even. *)
Definition round_half_even (n : Z) (d : positive) : Z :=
  let fl := (n / Zpos d)%Z in
  let r := (n mod Zpos d)%Z in
  if (2 * r <? Zpos d)%Z then fl
  else if (Zpos d <? 2 * r)%Z then (fl + 1)%Z
  else if Z.even fl then fl else (fl + 1)%Z.

Fixpoint zero_pad (width : nat) (s : string) : string :=
  match width with
  | O => s
  | S w => if (String.length s <? width)%nat then zero_pad w ("0" +:+ s) else s
  end.

(** [f"{q:.<d>f}"] *)
Definition fmt_fixed (d : nat) (q : Q) : string :=
  let scale := (10 ^ Z.of_nat d)%Z in
  let t := round_half_even (Z.abs (Qnum q) * scale) (Qden q) in
  (if (Qnum q <? 0)%Z then "-" else "") +:+
  pretty (t / scale)%Z +:+ "." +:+ zero_pad d (pretty (t mod scale)%Z).

(** [float(n)] for an [int]: the nearest double, ties to even. A double of
    magnitude 2^53 or more is an integer, so the value is given as an
    integer; beyond the largest double the conversion raises. *)
Definition float_of_int (n : Z) : result Z :=
  let a := Z.abs n in
  if (a <? 2 ^ 53)%Z then Ok n
  else
    let e := (Z.log2 a - 52)%Z in
    let m := round_half_even a (Z.to_pos (2 ^ e)) in
    let r := (m * 2 ^ e)%Z in
    if (r <? 2 ^ 1024)%Z then Ok (Z.sgn n * r)%Z
    else Raise (OverflowError "int too large to convert to float").

(** [f"{n:.<d>f}"] for an [int]: the number is converted to a float, and the
    float is printed. *)
Definition fmt_fixed_int (d : nat) (n : Z) : result string :=
  match float_of_int n with
  | Ok r => Ok (fmt_fixed d (inject_Z r))
  | Raise e => Raise e
  end.

(** ** The [state] module as ui_tabs.py reads and writes it *)

(** A matplotlib Line2D: what [get_xdata()] returns. *)
Record Line2D : Type := mkLine2D { xdata : list Q }.

(** [state.data_global]: a two-dimensional array of FFT frames, one row
    per time index, every row with [nbins] amplitudes. *)
Record Frames : Type := mkFrames {
  nbins : nat;
  rows : list (list Q);
  rows_rect : forallb (fun r => (length r =? nbins)%nat) rows = true
}.

Record State : Type := mkState {
  data_global : option Frames;
  freqs_global : option (list Q);
  time_labels_all : option (list string);
  selected_range : option (Z * Z);
  spec_click_line : option Line2D;
  ax_fft : option (Z * Z);   (* the FFT axes, by the limits set_ylim stored *)
  fft_ymin : Z;
  fft_ymax : Z;
  log_entries : list string
}.

(** Modelled from the spec: [utils.add_log_entry] is not among the sources;
    the spec speaks of operations that are "logged only", and the message is
    taken to be appended to [state.log_entries]. *)
Definition add_log_entry (msg : string) (st : State) : State :=
  {| data_global := data_global st; freqs_global := freqs_global st;
     time_labels_all := time_labels_all st; selected_range := selected_range st;
     spec_click_line := spec_click_line st; ax_fft := ax_fft st;
     fft_ymin := fft_ymin st; fft_ymax := fft_ymax st;
     log_entries := log_entries st ++ [msg] |}.

(** [state.fft_ymin = v] *)
Definition set_fft_ymin (v : Z) (st : State) : State :=
  {| data_global := data_global st; freqs_global := freqs_global st;
     time_labels_all := time_labels_all st; selected_range := selected_range st;
     spec_click_line := spec_click_line st; ax_fft := ax_fft st;
     fft_ymin := v; fft_ymax := fft_ymax st;
     log_entries := log_entries st |}.

(** [state.fft_ymax = v] *)
Definition set_fft_ymax (v : Z) (st : State) : State :=
  {| data_global := data_global st; freqs_global := freqs_global st;
     time_labels_all := time_labels_all st; selected_range := selected_range st;
     spec_click_line := spec_click_line st; ax_fft := ax_fft st;
     fft_ymin := fft_ymin st; fft_ymax := v;
     log_entries := log_entries st |}.

(** [Axes.set_ylim] is matplotlib code. It checks its two arguments before
    it stores anything and raises for the ones it does not take as axis
    limits (an integer too large for a machine number among them);
    [set_ylim_error lo hi] is that exception, if any. *)
Class PlotLib : Type := {
  set_ylim_error : Z -> Z -> option exn
}.

(** [state.ax_fft.set_ylim(lo, hi)] *)
Definition set_ylim `{PlotLib} (lo hi : Z) : M State unit :=
  fun st =>
    match set_ylim_error lo hi with
    | Some e => (Raise e, st)
    | None =>
        (Ok tt,
         {| data_global := data_global st; freqs_global := freqs_global st;
            time_labels_all := time_labels_all st;
            selected_range := selected_range st;
            spec_click_line := spec_click_line st; ax_fft := Some (lo, hi);
            fft_ymin := fft_ymin st; fft_ymax := fft_ymax st;
            log_entries := log_entries st |})
    end.

(** [int(state.spec_click_line.get_xdata()[0])] *)
Definition click_index (ln : Line2D) : result Z :=
  match py_index (xdata ln) 0 with
  | Ok x => Ok (py_int x)
  | Raise e => Raise e
  end.

(** ** Library calls of ui_tabs.py

    [scipy.signal.find_peaks] and [numpy.argsort] are third-party code; they
    enter as operations of a class, with what their documentation promises
    as laws. *)
Class NumLib : Type := {
  (** [find_peaks(x, height=h, distance=d)[0]]: indices of the peaks kept *)
  find_peaks : list Q -> Q -> Z -> list nat;
  (** [np.argsort(a)] *)
  argsort : list Q -> list nat
}.

Class NumLibLaws (L : NumLib) : Prop := {
  (** every reported peak is a sample of [x] at least as high as [height] *)
  find_peaks_height : forall x h d i,
    In i (find_peaks x h d) -> exists v, x !! i = Some v /\ (h <= v)%Q;
  (** [argsort] returns a permutation of the positions ... *)
  argsort_perm : forall a, Permutation (argsort a) (seq 0 (length a));
  (** ... that lists the elements in ascending order *)
  argsort_sorted : forall a,
    StronglySorted Qle (map (fun i => nth i a 0%Q) (argsort a))
}.

(** [a[idx]] with an integer index array. *)
Fixpoint fancy_index (a : list Q) (idx : list nat) : result (list Q) :=
  match idx with
  | [] => Ok []
  | i :: idx' =>
      match a !! i with
      | None => Raise (IndexError "index out of bounds")
      | Some x =>
          match fancy_index a idx' with
          | Ok xs => Ok (x :: xs)
          | Raise e => Raise e
          end
      end
  end.

(** ** ui_tabs.py: AnalysisTab *)

Module Analysis.

Record AnalysisTab : Type := mkAnalysisTab {
  fft_min_val : Z;
  fft_max_val : Z;
  range_text : string;
  results_text : string
}.

(** [AnalysisTab.__init__] followed by the texts [build] creates. *)
Definition init : AnalysisTab :=
  {| fft_min_val := 0; fft_max_val := 120;
     range_text := "Range: 0.0 - 120.0"; results_text := "No measurements" |}.

Definition set_min (v : Z) (self : AnalysisTab) : AnalysisTab :=
  {| fft_min_val := v; fft_max_val := fft_max_val self;
     range_text := range_text self; results_text := results_text self |}.

Definition set_max (v : Z) (self : AnalysisTab) : AnalysisTab :=
  {| fft_min_val := fft_min_val self; fft_max_val := v;
     range_text := range_text self; results_text := results_text self |}.

Definition set_range_text (txt : string) (self : AnalysisTab) : AnalysisTab :=
  {| fft_min_val := fft_min_val self; fft_max_val := fft_max_val self;
     range_text := txt; results_text := results_text self |}.

Definition set_results (txt : string) (self : AnalysisTab) : AnalysisTab :=
  {| fft_min_val := fft_min_val self; fft_max_val := fft_max_val self;
     range_text := range_text self; results_text := txt |}.

(** [AnalysisTab.update_range_display]; on a built tab [range_text] exists.
    The two numbers are formatted before [set_text] is called. *)
Definition update_range_display : M AnalysisTab unit :=
  let* lo := gets fft_min_val in
  let* hi := gets fft_max_val in
  let* lo_txt := lift (fmt_fixed_int 1 lo) in
  let* hi_txt := lift (fmt_fixed_int 1 hi) in
  modify (set_range_text ("Range: " +:+ lo_txt +:+ " - " +:+ hi_txt)).

(** [AnalysisTab.adjust_fft_min] *)
Definition adjust_fft_min `{PlotLib} (delta : Z) : M (AnalysisTab * State) unit :=
  let* old_min := gets (fun w => fft_min_val (fst w)) in
  let* cur_max := gets (fun w => fft_max_val (fst w)) in
  let new_min := Z.max (old_min + delta) (-20) in
  let new_min := Z.min new_min (cur_max - 10) in
  on_fst (modify (set_min new_min));;
  let* ax := gets (fun w => ax_fft (snd w)) in
  (match ax with
   | Some _ =>
       on_snd (modify (set_fft_ymin new_min));;
       let* lo := gets (fun w => fft_ymin (snd w)) in
       let* hi := gets (fun w => fft_ymax (snd w)) in
       on_snd (set_ylim lo hi)
   | None => ret tt
   end);;
  on_fst update_range_display;;
  let* txt := lift (fmt_fixed_int 1 new_min) in
  on_snd (modify (add_log_entry ("Adjusted FFT minimum to " +:+ txt))).

(** [AnalysisTab.adjust_fft_max] *)
Definition adjust_fft_max `{PlotLib} (delta : Z) : M (AnalysisTab * State) unit :=
  let* old_max := gets (fun w => fft_max_val (fst w)) in
  let* cur_min := gets (fun w => fft_min_val (fst w)) in
  let new_max := Z.max (old_max + delta) (cur_min + 10) in
  on_fst (modify (set_max new_max));;
  let* ax := gets (fun w => ax_fft (snd w)) in
  (match ax with
   | Some _ =>
       on_snd (modify (set_fft_ymax new_max));;
       let* lo := gets (fun w => fft_ymin (snd w)) in
       let* hi := gets (fun w => fft_ymax (snd w)) in
       on_snd (set_ylim lo hi)
   | None => ret tt
   end);;
  on_fst update_range_display;;
  let* txt := lift (fmt_fixed_int 1 new_max) in
  on_snd (modify (add_log_entry ("Adjusted FFT maximum to " +:+ txt))).

(** [AnalysisTab.on_reset_fft] *)
Definition on_reset_fft `{PlotLib} : M (AnalysisTab * State) unit :=
  on_fst (modify (set_min 0));;
  on_fst (modify (set_max 120));;
  let* ax := gets (fun w => ax_fft (snd w)) in
  (match ax with
   | Some _ =>
       let* new_min := gets (fun w => fft_min_val (fst w)) in
       on_snd (modify (set_fft_ymin new_min));;
       let* new_max := gets (fun w => fft_max_val (fst w)) in
       on_snd (modify (set_fft_ymax new_max));;
       let* lo := gets (fun w => fft_ymin (snd w)) in
       let* hi := gets (fun w => fft_ymax (snd w)) in
       on_snd (set_ylim lo hi)
   | None => ret tt
   end);;
  on_fst update_range_display;;
  on_snd (modify (add_log_entry "Reset FFT range to defaults")).

(** The three range callbacks, as the buttons of the tab fire them. *)
Inductive range_call : Type :=
| AdjustMin (delta : Z)
| AdjustMax (delta : Z)
| ResetFft.

(** The tab and the module state after a callback, whether it returned or
    raised. *)
Definition run_call `{PlotLib} (w : AnalysisTab * State) (c : range_call)
  : AnalysisTab * State :=
  snd (match c with
       | AdjustMin d => adjust_fft_min d w
       | AdjustMax d => adjust_fft_max d w
       | ResetFft => on_reset_fft w
       end).

(** The pairs [(freq, amp)] the loop of [on_find_peaks] prints: the peaks
    of the frame sorted by amplitude, largest first, cut to five. *)
Definition top_peaks `{NumLib} (freqs fft_data : list Q) (height : Q)
  : result (list (Q * Q)) :=
  let peaks := find_peaks fft_data height 5 in
  match fancy_index freqs peaks with
  | Raise e => Raise e
  | Ok peak_freqs =>
  match fancy_index fft_data peaks with
  | Raise e => Raise e
  | Ok peak_amps =>
      let sort_idx := rev (argsort peak_amps) in
      match fancy_index peak_freqs sort_idx with
      | Raise e => Raise e
      | Ok peak_freqs =>
      match fancy_index peak_amps sort_idx with
      | Raise e => Raise e
      | Ok peak_amps =>
          let '(peak_freqs, peak_amps) :=
            if (5 <? length peak_freqs)%nat
            then (take 5 peak_freqs, take 5 peak_amps)
            else (peak_freqs, peak_amps) in
          Ok (zip peak_freqs peak_amps)
      end end
  end end.

(** Non-increasing amplitude along the printed list. *)
Definition amplitude_descending (ps : list (Q * Q)) : Prop :=
  StronglySorted (fun p q => (snd q <= snd p)%Q) ps.

(** All peaks [find_peaks] reports for the frame, as pairs [(freq, amp)]. *)
Definition reported_peaks `{NumLib} (freqs fft_data : list Q) (height : Q)
  : list (Q * Q) :=
  map (fun i => (nth i freqs 0%Q, nth i fft_data 0%Q))
      (find_peaks fft_data height 5).

(** A printed pair is a peak [find_peaks] reported for the frame, with its
    frequency, and it reaches the height threshold. *)
Definition is_reported_peak `{NumLib} (freqs fft_data : list Q) (height : Q) (p : Q * Q)
  : Prop :=
  exists i, In i (find_peaks fft_data height 5) /\
            freqs !! i = Some (fst p) /\ fft_data !! i = Some (snd p) /\
            (height <= snd p)%Q.

(** [results_text] as the loop builds it, line [i+1] for the [i]-th pair. *)
Fixpoint peak_lines (i : nat) (ps : list (Q * Q)) : string :=
  match ps with
  | [] => ""
  | (freq, amp) :: ps' =>
      pretty (i + 1)%nat +:+ ". " +:+ fmt_fixed 1 freq +:+ " Hz: "
      +:+ fmt_fixed 1 amp +:+ " dB" +:+ nl +:+ peak_lines (S i) ps'
  end.

(** [AnalysisTab.on_find_peaks] *)
Definition on_find_peaks `{NumLib} (w : AnalysisTab * State)
  : result unit * (AnalysisTab * State) :=
  let '(self, st) := w in
  match freqs_global st, data_global st with
  | Some freqs, Some data =>
      match spec_click_line st with
      | None => (Ok tt, w)
      | Some ln =>
          match click_index ln with
          | Raise e => (Raise e, w)
          | Ok idx =>
              if (0 <=? idx)%Z && (idx <? Z.of_nat (length (rows data)))%Z then
                match py_index (rows data) idx with
                | Raise e => (Raise e, w)
                | Ok fft_data =>
                    let height := inject_Z (fft_min_val self + 10) in
                    if (0 <? length (find_peaks fft_data height 5))%nat then
                      match top_peaks freqs fft_data height with
                      | Raise e => (Raise e, w)
                      | Ok ps =>
                          (Ok tt,
                           (set_results ("Top peaks:" +:+ nl +:+ peak_lines 0 ps) self,
                            add_log_entry ("Found " +:+ pretty (length ps)
                                           +:+ " peaks in FFT data") st))
                      end
                    else
                      (Ok tt,
                       (set_results "No peaks found above threshold" self,
                        add_log_entry "No peaks found in FFT data" st))
                end
              else (Ok tt, w)
          end
      end
  | _, _ => (Ok tt, w)
  end.

(** The range invariant: the minimum is at least -20 and the maximum stays
    at least 10 above the minimum. *)
Definition fft_range_inv (self : AnalysisTab) : Prop :=
  (-20 <= fft_min_val self)%Z /\ (fft_min_val self + 10 <= fft_max_val self)%Z.

End Analysis.

(** ** ui_tabs.py: FilterTab *)

Module Filter.

(** A noise-profile dictionary. [p_obj] stands for the identity of the
    dictionary object (and of the array in its 'data' entry): two profiles
    built by two clicks are different objects even when their entries agree. *)
Record Profile : Type := mkProfile {
  p_obj : nat;
  p_name : string;
  p_range : Z * Z;
  p_data : list Q;
  p_time : string
}.

Record FilterTab : Type := mkFilterTab {
  noise_profiles : list Profile;
  active_profile : option Profile;
  filter_intensity : Q;
  name_input : string;        (* the text of the TextBox *)
  metadata_text : string;
  profiles_text : string;
  status_light : string;      (* colour of the status circle *)
  status_text : string;
  next_obj : nat              (* objects allocated so far *)
}.

(** [FilterTab.__init__] followed by the widgets [build] creates. *)
Definition init : FilterTab :=
  {| noise_profiles := []; active_profile := None; filter_intensity := 1 # 2;
     name_input := "Background Profile"; metadata_text := "Selection: None";
     profiles_text := "No profiles available";
     status_light := "gray"; status_text := "OFF"; next_obj := 0 |}.

(** [np.vstack(rows)]: needs at least one row and rows of one length. *)
Definition vstack (rows : list (list Q)) : result (list (list Q)) :=
  match rows with
  | [] => Raise (ValueError "need at least one array to concatenate")
  | r :: rs =>
      if forallb (fun r' => (length r' =? length r)%nat) rs then Ok rows
      else Raise (ValueError "all the input array dimensions must match")
  end.

(** Element-wise sum of two rows. *)
Fixpoint row_add (a b : list Q) : list Q :=
  match a, b with
  | x :: a', y :: b' => (x + y)%Q :: row_add a' b'
  | _, _ => []
  end.

(** [np.mean(m, axis=0)] of a stacked, non-empty matrix: the rows are summed
    in order, bin by bin, and each sum is divided by the number of rows. *)
Definition mean_axis0 (m : list (list Q)) : list Q :=
  match m with
  | [] => []
  | r :: rs =>
      map (fun s => (s / inject_Z (Z.of_nat (length m)))%Q)
          (fold_left row_add rs r)
  end.

(** [state.time_labels_all[i] if i < len(state.time_labels_all) else "N/A"] *)
Definition label_or_na (labels : list string) (i : Z) : result string :=
  if (i <? Z.of_nat (length labels))%Z then py_index labels i else Ok "N/A".

(** Truth value of [profile == other] for two profile dictionaries. Entries
    are compared in insertion order, identical objects count as equal, and
    the comparison stops at the first difference. For two different arrays
    numpy compares element by element, and the truth value of the outcome is
    defined for a single bin only. *)
Definition profile_eq (p q : Profile) : result bool :=
  if (p_obj p =? p_obj q)%nat then Ok true
  else if negb (String.eqb (p_name p) (p_name q)) then Ok false
  else if negb (bool_decide (p_range p = p_range q)) then Ok false
  else
    match p_data p, p_data q with
    | [x], [y] =>
        if Qeq_bool x y then Ok (String.eqb (p_time p) (p_time q)) else Ok false
    | _, _ =>
        Raise (ValueError "The truth value of an array with more than one element is ambiguous")
    end.

(** The text of one profile in the list display. *)
Definition profile_block (i : nat) (marker : string) (p : Profile) : string :=
  marker +:+ pretty (i + 1)%nat +:+ ". " +:+ p_name p +:+ nl +:+
  "    Range: " +:+ pretty (fst (p_range p)) +:+ " - " +:+ pretty (snd (p_range p))
  +:+ nl +:+
  (if String.eqb (p_time p) "" then ""
   else "    Time: " +:+ p_time p +:+ nl) +:+ nl.

Fixpoint profiles_blocks (active : option Profile) (i : nat) (ps : list Profile)
  : result string :=
  match ps with
  | [] => Ok ""
  | p :: ps' =>
      match match active with
            | Some a => profile_eq p a
            | None => Ok false
            end with
      | Raise e => Raise e
      | Ok is_active =>
          match profiles_blocks active (S i) ps' with
          | Raise e => Raise e
          | Ok rest =>
              Ok (profile_block i (if is_active then "→ " else "  ") p +:+ rest)
          end
      end
  end.

Definition set_profiles_text (txt : string) (self : FilterTab) : FilterTab :=
  {| noise_profiles := noise_profiles self; active_profile := active_profile self;
     filter_intensity := filter_intensity self; name_input := name_input self;
     metadata_text := metadata_text self; profiles_text := txt;
     status_light := status_light self; status_text := status_text self;
     next_obj := next_obj self |}.

(** [FilterTab.update_profiles_display] *)
Definition update_profiles_display (self : FilterTab) : result unit * FilterTab :=
  match noise_profiles self with
  | [] => (Ok tt, set_profiles_text "No profiles available" self)
  | _ =>
      match profiles_blocks (active_profile self) 0 (noise_profiles self) with
      | Raise e => (Raise e, self)
      | Ok body =>
          (Ok tt, set_profiles_text ("Available Profiles:" +:+ nl +:+ nl +:+ body) self)
      end
  end.

Definition append_profile (p : Profile) (self : FilterTab) : FilterTab :=
  {| noise_profiles := noise_profiles self ++ [p];
     active_profile := active_profile self;
     filter_intensity := filter_intensity self; name_input := name_input self;
     metadata_text := metadata_text self; profiles_text := profiles_text self;
     status_light := status_light self; status_text := status_text self;
     next_obj := S (next_obj self) |}.

Definition set_name_input (txt : string) (self : FilterTab) : FilterTab :=
  {| noise_profiles := noise_profiles self; active_profile := active_profile self;
     filter_intensity := filter_intensity self; name_input := txt;
     metadata_text := metadata_text self; profiles_text := profiles_text self;
     status_light := status_light self; status_text := status_text self;
     next_obj := next_obj self |}.

Definition set_status (light txt : string) (self : FilterTab) : FilterTab :=
  {| noise_profiles := noise_profiles self; active_profile := active_profile self;
     filter_intensity := filter_intensity self; name_input := name_input self;
     metadata_text := metadata_text self; profiles_text := profiles_text self;
     status_light := light; status_text := txt;
     next_obj := next_obj self |}.

Definition set_intensity (v : Q) (self : FilterTab) : FilterTab :=
  {| noise_profiles := noise_profiles self; active_profile := active_profile self;
     filter_intensity := v; name_input := name_input self;
     metadata_text := metadata_text self; profiles_text := profiles_text self;
     status_light := status_light self; status_text := status_text self;
     next_obj := next_obj self |}.

(** The loop [for i in range(start, end + 1): profile_data.append(data[i])]. *)
Fixpoint collect_frames (data : list (list Q)) (idxs : list Z)
  : result (list (list Q)) :=
  match idxs with
  | [] => Ok []
  | i :: idxs' =>
      match py_index data i with
      | Raise e => Raise e
      | Ok row =>
          match collect_frames data idxs' with
          | Raise e => Raise e
          | Ok rows => Ok (row :: rows)
          end
      end
  end.

(** The ['time'] entry: [f"{start_time} - {end_time}"] when labels exist. *)
Definition profile_time (labels : option (list string)) (start end_ : Z)
  : result string :=
  match labels with
  | None => Ok ""
  | Some tl =>
      match label_or_na tl start with
      | Raise e => Raise e
      | Ok start_time =>
          match label_or_na tl end_ with
          | Raise e => Raise e
          | Ok end_time => Ok (start_time +:+ " - " +:+ end_time)
          end
      end
  end.

(** [FilterTab.on_save_profile] *)
Definition on_save_profile (w : FilterTab * State)
  : result unit * (FilterTab * State) :=
  let '(self, st) := w in
  match selected_range st with
  | None => (Ok tt, (self, add_log_entry "Cannot save profile - no selection" st))
  | Some (start, end_) =>
      let profile_name :=
        if String.eqb (name_input self) ""
        then "Background Profile " +:+ pretty (length (noise_profiles self) + 1)%nat
        else name_input self in
      match data_global st with
      | Some data =>
          if (start <? Z.of_nat (length (rows data)))%Z
             && (end_ <? Z.of_nat (length (rows data)))%Z
          then
            match collect_frames (rows data) (py_range start (end_ + 1)) with
            | Raise e => (Raise e, w)
            | Ok profile_data =>
            match vstack profile_data with
            | Raise e => (Raise e, w)
            | Ok profile_data =>
                let mean_profile := mean_axis0 profile_data in
                match profile_time (time_labels_all st) start end_ with
                | Raise e => (Raise e, w)
                | Ok time =>
                    let profile :=
                      {| p_obj := next_obj self; p_name := profile_name;
                         p_range := (start, end_); p_data := mean_profile;
                         p_time := time |} in
                    let self := append_profile profile self in
                    match update_profiles_display self with
                    | (Raise e, self) => (Raise e, (self, st))
                    | (Ok _, self) =>
                        let st := add_log_entry
                          ("Saved background profile '" +:+ profile_name +:+ "'") st in
                        (Ok tt, (set_name_input "" self, st))
                    end
                end
            end end
          else (Ok tt, (self, add_log_entry "Cannot save profile - invalid data range" st))
      | None =>
          (Ok tt, (self, add_log_entry "Cannot save profile - invalid data range" st))
      end
  end.

(** [FilterTab.on_intensity_change] *)
Definition on_intensity_change (val : Q) (w : FilterTab * State)
  : FilterTab * State :=
  let '(self, st) := w in
  (set_intensity val self,
   add_log_entry ("Filter intensity set to " +:+ fmt_fixed 2 val) st).

(** [FilterTab.on_toggle_filter]; a profile dictionary is never empty, so
    [if self.active_profile:] asks whether a profile is loaded. *)
Definition on_toggle_filter (w : FilterTab * State) : FilterTab * State :=
  let '(self, st) := w in
  match active_profile self with
  | Some _ =>
      if String.eqb (status_text self) "ON" then
        (set_status "orange" "READY" self, add_log_entry "Filtering turned off" st)
      else
        (set_status "green" "ON" self,
         add_log_entry ("Filtering turned on (intensity: "
                        +:+ fmt_fixed 2 (filter_intensity self) +:+ ")") st)
  | None => (self, add_log_entry "Cannot apply filter - no profile loaded" st)
  end.

(** The per-bin arithmetic mean the glossary speaks of: for bin [j], the sum
    of the values [frame[j]] over the given frames, divided by their number. *)
Definition bin_mean (frames : list (list Q)) (j : nat) : Q :=
  match frames with
  | [] => 0
  | f :: fs =>
      (fold_left Qplus (map (fun r => nth j r 0) fs) (nth j f 0)
       / inject_Z (Z.of_nat (length frames)))%Q
  end.

(** The frames of the selection [start..end], both ends included. *)
Definition selected_frames (data : list (list Q)) (start end_ : Z)
  : list (list Q) :=
  take (Z.to_nat (end_ - start + 1)) (drop (Z.to_nat start) data).

End Filter.

(** ** ui_tabs.py: AnnotationsTab *)

Module Annotations.

(** An annotation dictionary; ['time_range'] is present only when the time
    labels cover the selection. *)
Record Annotation : Type := mkAnnotation {
  a_id : nat;
  a_range : Z * Z;
  a_classification : string;
  a_comment : string;
  a_time_created : string;
  a_color : string;
  a_time_range : option string
}.

#[export] Instance Annotation_eq_dec : EqDecision Annotation.
Proof. solve_decision. Defined.

(** An AnnotationsTab instance. The two Text widgets are attributes that
    only [build] assigns (lines 909 and 928): [None] stands for an instance
    without the attribute. *)
Record AnnotationsTab : Type := mkAnnotationsTab {
  annotations : list Annotation;
  current_annotation : option Annotation;
  annotations_text : option string;
  selection_text : option string
}.

(** [AnnotationsTab.__init__]. [build] raises at line 860, before it creates
    the two texts, so this is also the instance [add_tab] leaves behind. *)
Definition init : AnnotationsTab :=
  {| annotations := []; current_annotation := None;
     annotations_text := None; selection_text := None |}.

(** [UIColors.ACCENT_YELLOW] *)
Definition ACCENT_YELLOW : string := "#DCDCAA".

(** The optional ['time_range'] entry of a new annotation. *)
Definition annotation_time_range (labels : option (list string)) (start end_ : Z)
  : result (option string) :=
  match labels with
  | None => Ok None
  | Some tl =>
      if (start <? Z.of_nat (length tl))%Z && (end_ <? Z.of_nat (length tl))%Z then
        match py_index tl start with
        | Raise e => Raise e
        | Ok ls =>
            match py_index tl end_ with
            | Raise e => Raise e
            | Ok le => Ok (Some (ls +:+ " - " +:+ le))
            end
        end
      else Ok None
  end.

(** The text of one annotation in the list display. *)
Definition annotation_block (current : option Annotation) (a : Annotation) : string :=
  let marker := if bool_decide (Some a = current) then "→ " else "  " in
  marker +:+ pretty (a_id a) +:+ ". Range: " +:+ pretty (fst (a_range a)) +:+ "-"
  +:+ pretty (snd (a_range a)) +:+ nl +:+
  "    Type: " +:+ a_classification a +:+ nl +:+
  match a_time_range a with
  | Some tr => "    Time: " +:+ tr +:+ nl
  | None => ""
  end +:+
  (if String.eqb (a_comment a) "" then ""
   else
     let comment :=
       if (30 <? String.length (a_comment a))%nat
       then substring 0 27 (a_comment a) +:+ "..."
       else a_comment a in
     "    Comment: " +:+ comment +:+ nl) +:+ nl.

Definition no_annotations_text : exn :=
  AttributeError "'AnnotationsTab' object has no attribute 'annotations_text'".

(** [self.annotations_text.set_text(txt)] *)
Definition set_annotations_text (txt : string) : M AnnotationsTab unit :=
  fun self =>
    match annotations_text self with
    | Some _ =>
        (Ok tt,
         {| annotations := annotations self;
            current_annotation := current_annotation self;
            annotations_text := Some txt;
            selection_text := selection_text self |})
    | None => (Raise no_annotations_text, self)
    end.

(** [self.selection_text.set_text(txt)] *)
Definition set_selection_text (txt : string) : M AnnotationsTab unit :=
  fun self =>
    match selection_text self with
    | Some _ =>
        (Ok tt,
         {| annotations := annotations self;
            current_annotation := current_annotation self;
            annotations_text := annotations_text self;
            selection_text := Some txt |})
    | None =>
        (Raise (AttributeError
                  "'AnnotationsTab' object has no attribute 'selection_text'"),
         self)
    end.

(** [AnnotationsTab.update_annotations_display] *)
Definition update_annotations_display : M AnnotationsTab unit :=
  let* anns := gets annotations in
  let* cur := gets current_annotation in
  match anns with
  | [] => set_annotations_text "No annotations"
  | _ =>
      set_annotations_text
        (fold_left (fun acc a => acc +:+ annotation_block cur a) anns "")
  end.

Definition set_current (c : option Annotation) (self : AnnotationsTab)
  : AnnotationsTab :=
  {| annotations := annotations self;
     current_annotation := c;
     annotations_text := annotations_text self;
     selection_text := selection_text self |}.

(** [AnnotationsTab.highlight_annotation] *)
Definition highlight_annotation (a : Annotation) : M AnnotationsTab unit :=
  modify (set_current (Some a));;
  set_selection_text
    ("Selection: " +:+ pretty (fst (a_range a)) +:+ "-" +:+ pretty (snd (a_range a))
     +:+ nl +:+ "Type: " +:+ a_classification a).

Definition append_annotation (a : Annotation) (self : AnnotationsTab)
  : AnnotationsTab :=
  {| annotations := annotations self ++ [a];
     current_annotation := current_annotation self;
     annotations_text := annotations_text self;
     selection_text := selection_text self |}.

(** [AnnotationsTab.on_add_annotation]; [now] is what
    [time.strftime("%Y-%m-%d %H:%M:%S")] returns at the click. *)
Definition on_add_annotation (now : string) : M (AnnotationsTab * State) unit :=
  let* sel := gets (fun w => selected_range (snd w)) in
  match sel with
  | Some (start, end_) =>
      let* n := gets (fun w => length (annotations (fst w))) in
      let* labels := gets (fun w => time_labels_all (snd w)) in
      let* tr := lift (annotation_time_range labels start end_) in
      let annotation :=
        {| a_id := n + 1;
           a_range := (start, end_);
           a_classification := "General";
           a_comment := "";
           a_time_created := now;
           a_color := ACCENT_YELLOW;
           a_time_range := tr |} in
      on_fst (modify (append_annotation annotation));;
      on_fst update_annotations_display;;
      on_fst (highlight_annotation annotation);;
      on_snd (modify (add_log_entry ("Added annotation at range " +:+ pretty start
                                     +:+ "-" +:+ pretty end_)))
  | None =>
      on_snd (modify (add_log_entry "Cannot add annotation - no selection"))
  end.

(** The label lookup of [on_add_annotation] is defined for the selection:
    when both ends pass the test [< len(time_labels_all)], neither lies
    before the first label counted from the end. *)
Definition label_lookup_defined (st : State) (start end_ : Z) : Prop :=
  match time_labels_all st with
  | None => True
  | Some tl =>
      (start < Z.of_nat (length tl))%Z -> (end_ < Z.of_nat (length tl))%Z ->
      (- Z.of_nat (length tl) <= start)%Z /\ (- Z.of_nat (length tl) <= end_)%Z
  end.

(** A selection that starts two frames before the first one, with a
    single time label loaded. *)
Definition negative_selection : State :=
  {| data_global := None; freqs_global := None;
     time_labels_all := Some ["00:00:00"];
     selected_range := Some ((-2)%Z, 0%Z);
     spec_click_line := None; ax_fft := None; fft_ymin := 0; fft_ymax := 120;
     log_entries := [] |}.

(** A selection of frames 1 to 2 with three time labels loaded. *)
Definition labelled_selection : State :=
  {| data_global := None; freqs_global := None;
     time_labels_all := Some ["00:00:00"; "00:00:01"; "00:00:02"];
     selected_range := Some (1%Z, 2%Z);
     spec_click_line := None; ax_fft := None; fft_ymin := 0; fft_ymax := 120;
     log_entries := [] |}.

(** Three time labels loaded, nothing selected. *)
Definition nothing_selected : State :=
  {| data_global := None; freqs_global := None;
     time_labels_all := Some ["00:00:00"; "00:00:01"; "00:00:02"];
     selected_range := None;
     spec_click_line := None; ax_fft := None; fft_ymin := 0; fft_ymax := 120;
     log_entries := [] |}.

End Annotations.

(** ** state.py *)

(** Python values as they occur in the module variables of state.py and in
    the pickled project dictionary. A dictionary keeps its insertion order. *)
Inductive pyval : Type :=
| VNone
| VBool (b : bool)
| VInt (z : Z)
| VFloat (q : Q)
| VStr (s : string)
| VList (l : list pyval)
| VTuple (l : list pyval)
| VDict (kvs : list (string * pyval))
| VObj (label : string).     (* a library object, e.g. pytz.UTC *)

(** [d[k]] for reading, [None] of the option when the key is absent. *)
Fixpoint dict_get (kvs : list (string * pyval)) (k : string) : option pyval :=
  match kvs with
  | [] => None
  | (k', v) :: kvs' => if String.eqb k' k then Some v else dict_get kvs' k
  end.

(** [d[k] = v]: replaces the value of an existing key in place, appends a
    new key. *)
Fixpoint dict_set (kvs : list (string * pyval)) (k : string) (v : pyval)
  : list (string * pyval) :=
  match kvs with
  | [] => [(k, v)]
  | (k', v') :: kvs' =>
      if String.eqb k' k then (k', v) :: kvs' else (k', v') :: dict_set kvs' k v
  end.

(** *** save_project / load_project *)

(** The pickle module and the file system are the environment of state.py:
    [pickle_dumps]/[pickle_loads] stand for [pickle.dump]/[pickle.load] on
    the content of a file, [fs_open_wb] for [open(path, 'wb')] (which creates
    or truncates the file), [fs_write] for writing the content and closing,
    [fs_read] for [open(path, 'rb')] and reading it all. *)
Class Env : Type := {
  blob : Type;
  FS : Type;
  pickle_dumps : pyval -> result blob;
  pickle_loads : blob -> result pyval;
  fs_open_wb : string -> FS -> result unit * FS;
  fs_write : string -> blob -> FS -> result unit * FS;
  fs_read : string -> FS -> result blob
}.

Class EnvLaws (E : Env) : Prop := {
  (** what was pickled is what unpickling returns *)
  pickle_roundtrip : forall v b, pickle_dumps v = Ok b -> pickle_loads b = Ok v;
  (** a file that was written and closed reads back with that content *)
  read_after_write : forall path b fs fs',
    fs_write path b fs = (Ok tt, fs') -> fs_read path fs' = Ok b
}.

Module Project.

(** [pytz] timezones carry a [zone] attribute; [tz_zone] is [None] for an
    object without it. *)
Record Timezone : Type := mkTimezone { tz_zone : option string }.

(** A frequency marker [(vline, text, index, freq, hline)]. *)
Record Marker : Type := mkMarker {
  mk_vline : pyval;
  mk_text : pyval;
  mk_index : pyval;
  mk_freq : pyval;
  mk_hline : pyval
}.

(** The module variables [save_project] reads. *)
Record Vars : Type := mkVars {
  file_paths : list string;
  time_zoom_start : Z;
  time_zoom_end : Z;
  gain_slider : option Q;            (* the slider, by its [val] *)
  current_timezone : Timezone;
  spec_click_line : option Line2D;
  freq_markers : list Marker
}.

Inductive level : Type := INFO | ERROR.

Record World `{Env} : Type := mkWorld {
  vars : Vars;
  fs : FS;
  logging : list (level * string)
}.

Section WithEnv.
Context `{E : Env}.

Definition log_record (l : level) (msg : string) (w : World) : World :=
  {| vars := vars w; fs := fs w; logging := logging w ++ [(l, msg)] |}.

Definition set_fs (f : FS) (w : World) : World :=
  {| vars := vars w; fs := f; logging := logging w |}.

(** [current_timezone.zone if hasattr(current_timezone, 'zone') else 'UTC'] *)
Definition timezone_name (tz : Timezone) : string :=
  match tz_zone tz with
  | Some z => z
  | None => "UTC"
  end.

(** The loop that collects the fourth component of every marker. *)
Definition marker_freqs (ms : list Marker) : list pyval :=
  fold_left (fun acc m => (acc ++ [mk_freq m])%list) ms [].

(** The dictionary [save_project] builds before it opens the file. *)
Definition state_dict (v : Vars) : result (list (string * pyval)) :=
  let d :=
    [ ("file_paths", VList (map VStr (file_paths v)));
      ("time_zoom", VTuple [VInt (time_zoom_start v); VInt (time_zoom_end v)]);
      ("gain", match gain_slider v with
               | Some val => VFloat val
               | None => VTuple [VInt 0; VInt 1]
               end);
      ("current_timezone", VStr (timezone_name (current_timezone v))) ] in
  match match spec_click_line v with
        | Some ln =>
            match click_index ln with
            | Ok i => Ok (dict_set d "click_index" (VInt i))
            | Raise e => Raise e
            end
        | None => Ok d
        end with
  | Raise e => Raise e
  | Ok d => Ok (dict_set d "freq_markers" (VList (marker_freqs (freq_markers v))))
  end.

(** The [try] block of [save_project], up to the write. *)
Definition save_body (filepath : string) (w : World) : result unit * World :=
  match state_dict (vars w) with
  | Raise e => (Raise e, w)
  | Ok d =>
      match fs_open_wb filepath (fs w) with
      | (Raise e, fs1) => (Raise e, set_fs fs1 w)
      | (Ok _, fs1) =>
          match pickle_dumps (VDict d) with
          | Raise e => (Raise e, set_fs fs1 w)
          | Ok b =>
              match fs_write filepath b fs1 with
              | (Raise e, fs2) => (Raise e, set_fs fs2 w)
              | (Ok _, fs2) => (Ok tt, set_fs fs2 w)
              end
          end
      end
  end.

(** [save_project]: [try: ...; return True / except Exception: ...; return False] *)
Definition save_project (filepath : string) (w : World) : result bool * World :=
  match save_body filepath w with
  | (Ok _, w') => (Ok true, log_record INFO ("Project saved to " +:+ filepath) w')
  | (Raise e, w') =>
      (Ok false, log_record ERROR ("Error saving project: " +:+ exn_str e) w')
  end.

(** The [try] block of [load_project]. *)
Definition load_body (filepath : string) (w : World) : result pyval :=
  match fs_read filepath (fs w) with
  | Raise e => Raise e
  | Ok b => pickle_loads b
  end.

(** [load_project]: the unpickled object, or [None] after an exception. *)
Definition load_project (filepath : string) (w : World)
  : result (option pyval) * World :=
  match load_body filepath w with
  | Ok d => (Ok (Some d), log_record INFO ("Project loaded from " +:+ filepath) w)
  | Raise e => (Ok None, log_record ERROR ("Error loading project: " +:+ exn_str e) w)
  end.

(** A step of saving raised [e]: building the dictionary, opening the file,
    pickling, or writing. *)
Definition save_step_raised (filepath : string) (w : World) (e : exn) : Prop :=
  state_dict (vars w) = Raise e \/
  exists d,
    state_dict (vars w) = Ok d /\
    ((exists fs1, fs_open_wb filepath (fs w) = (Raise e, fs1)) \/
     exists fs1,
       fs_open_wb filepath (fs w) = (Ok tt, fs1) /\
       (pickle_dumps (VDict d) = Raise e \/
        exists b fs2,
          pickle_dumps (VDict d) = Ok b /\
          fs_write filepath b fs1 = (Raise e, fs2))).

(** The write of [save_project] went through: the dictionary was built,
    the file opened, the dictionary pickled and its bytes written. *)
Definition written (filepath : string) (w w' : World) : Prop :=
  exists d fs1 b,
    state_dict (vars w) = Ok d /\
    fs_open_wb filepath (fs w) = (Ok tt, fs1) /\
    pickle_dumps (VDict d) = Ok b /\
    fs_write filepath b fs1 = (Ok tt, fs w').

End WithEnv.

End Project.

(** *** reset_state *)

Module ResetState.

(** The global namespace of the module state.py. *)
Abbreviation namespace := (gmap string pyval).

Definition empty_markers : pyval :=
  VList [ VTuple [VNone; VNone; VInt 0; VNone; VNone];
          VTuple [VNone; VNone; VInt 1; VNone; VNone] ].

(** The assignments at module level (lines 15-93), in order. *)
Definition initial_values : list (string * pyval) :=
  [ ("data_global", VNone); ("freqs_global", VNone); ("file_paths", VList []);
    ("file_ranges", VList []); ("time_labels_all", VList []);
    ("timestamp_all", VList []); ("current_timezone", VObj "pytz.UTC");
    ("audio_data", VNone); ("audio_sample_rate", VInt 44100);
    ("audio_segments", VList []); ("audio_file_info", VList []);
    ("audio_volume", VFloat (1 # 2)); ("audio_playing", VBool false);
    ("audio_stop_flag", VBool false); ("audio_finished", VBool false);
    ("audio_thread", VNone); ("audio_stream", VNone); ("audio_buffer", VNone);
    ("audio_position", VNone); ("audio_playback_line", VNone);
    ("audio_playback_line_timeline", VNone);
    ("spec_img", VNone); ("nav_spec_img", VNone); ("time_zoom_start", VInt 0);
    ("time_zoom_end", VInt 0); ("nav_dragging", VBool false);
    ("nav_resizing", VBool false); ("nav_drag_start", VNone);
    ("nav_resize_edge", VNone); ("nav_box", VNone); ("spec_click_line", VNone);
    ("spec_click_text", VNone); ("selected_range", VNone); ("fft_patch", VNone);
    ("file_patch", VNone); ("file_texts", VList []); ("fft_ymin", VInt 0);
    ("fft_ymax", VInt 120); ("freq_markers", empty_markers);
    ("tab_manager", VNone);
    ("file_scroll_position", VInt 0); ("visible_files", VInt 12);
    ("scroll_position", VInt 0); ("log_entries", VList []);
    ("info_labels", VDict []);
    ("fig", VNone); ("ax_spec", VNone); ("ax_nav_spec", VNone); ("ax_fft", VNone);
    ("ax_audio_timeline", VNone); ("ax_audio_controls", VNone);
    ("ax_audio_play", VNone); ("ax_audio_visualizer", VNone);
    ("ax_vu_meter", VNone); ("ax_time_display", VNone); ("ax_filelist", VNone);
    ("ax_log", VNone); ("ax_info", VNone); ("ax_status", VNone);
    ("btn_audio_play", VNone); ("btn_timezone", VNone); ("gain_slider", VNone);
    ("timezone_dropdown", VNone) ].

(** The namespace right after the module was imported. *)
Definition initial_namespace : namespace := list_to_map initial_values.

(** The names in the [global] statements of [reset_state] (lines 143-155). *)
Definition reset_state_globals : list string :=
  [ "data_global"; "freqs_global"; "file_paths"; "file_ranges"; "time_labels_all";
    "timestamp_all"; "audio_data"; "audio_sample_rate"; "audio_segments";
    "audio_file_info"; "audio_volume"; "audio_playing"; "audio_stop_flag";
    "audio_finished"; "audio_thread"; "audio_playback_line";
    "audio_playback_line_timeline"; "spec_img"; "nav_spec_img";
    "time_zoom_start"; "time_zoom_end"; "nav_dragging"; "nav_resizing";
    "nav_drag_start"; "nav_resize_edge"; "nav_box"; "spec_click_line";
    "spec_click_text"; "selected_range"; "fft_patch"; "file_patch";
    "file_texts"; "log_entries"; "info_labels"; "fig"; "ax_spec";
    "ax_nav_spec"; "ax_fft"; "ax_audio_timeline"; "ax_audio_controls";
    "ax_audio_play"; "ax_audio_visualizer"; "ax_vu_meter"; "ax_time_display";
    "ax_filelist"; "ax_log"; "ax_info"; "ax_status"; "btn_audio_play";
    "btn_timezone"; "gain_slider"; "timezone_dropdown" ].

(** The assignments in the body of [reset_state] (lines 158-204), in order. *)
Definition reset_state_body : list (string * pyval) :=
  [ ("data_global", VNone); ("freqs_global", VNone); ("file_paths", VList []);
    ("file_ranges", VList []); ("time_labels_all", VList []);
    ("timestamp_all", VList []); ("current_timezone", VObj "pytz.UTC");
    ("audio_data", VNone); ("audio_sample_rate", VInt 44100);
    ("audio_segments", VList []); ("audio_file_info", VList []);
    ("audio_volume", VFloat (1 # 2)); ("audio_playing", VBool false);
    ("audio_stop_flag", VBool false); ("audio_finished", VBool false);
    ("audio_thread", VNone); ("audio_playback_line", VNone);
    ("audio_playback_line_timeline", VNone);
    ("spec_img", VNone); ("nav_spec_img", VNone); ("time_zoom_start", VInt 0);
    ("time_zoom_end", VInt 0); ("nav_dragging", VBool false);
    ("nav_resizing", VBool false); ("nav_drag_start", VNone);
    ("nav_resize_edge", VNone); ("nav_box", VNone); ("spec_click_line", VNone);
    ("spec_click_text", VNone); ("selected_range", VNone); ("fft_patch", VNone);
    ("file_patch", VNone); ("file_texts", VList []); ("fft_ymin", VInt 0);
    ("fft_ymax", VInt 120); ("freq_markers", empty_markers);
    ("file_scroll_position", VInt 0); ("visible_files", VInt 12);
    ("scroll_position", VInt 0); ("log_entries", VList []);
    ("info_labels", VDict []) ].

(** A running call: the module namespace and the local variables. *)
Record Frame : Type := mkFrame {
  globals : namespace;
  locals : namespace
}.

Definition declared_global (decl : list string) (name : string) : bool :=
  existsb (String.eqb name) decl.

(** [name = v] inside a function: the assignment reaches the module
    namespace only for a name declared [global]; any other name is bound as
    a local variable of the call. *)
Definition assign (decl : list string) (fr : Frame) (a : string * pyval) : Frame :=
  let '(name, v) := a in
  if declared_global decl name
  then {| globals := <[name := v]> (globals fr); locals := locals fr |}
  else {| globals := globals fr; locals := <[name := v]> (locals fr) |}.

Definition exec (decl : list string) (body : list (string * pyval)) (fr : Frame)
  : Frame :=
  fold_left (assign decl) body fr.

(** The value a run of assignments leaves in a module variable: that of
    the last assignment to the name among those that reach the module
    namespace, or the old value. *)
Fixpoint last_global_assign (decl : list string) (body : list (string * pyval))
  (name : string) (old : option pyval) : option pyval :=
  match body with
  | [] => old
  | (n, v) :: body' =>
      last_global_assign decl body' name
        (if declared_global decl n && String.eqb n name then Some v else old)
  end.

(** [reset_state()]: the module namespace once the call has returned. *)
Definition reset_state (g : namespace) : namespace :=
  globals (exec reset_state_globals reset_state_body {| globals := g; locals := ∅ |}).

(** The names [reset_state] assigns without declaring them [global]. *)
Definition assigned_not_global : list string :=
  filter (fun n => negb (declared_global reset_state_globals n))
         (map fst reset_state_body).

(** A namespace after some use of the viewer: files loaded, the view
    zoomed, another timezone chosen, the FFT range narrowed, a marker set and
    the lists scrolled. *)
Definition used_namespace : namespace :=
  <["data_global" := VList [VList [VFloat 1; VFloat 2]]]>
  (<["file_paths" := VList [VStr "dive01.txt"]]>
  (<["time_zoom_start" := VInt 4]>
  (<["current_timezone" := VObj "US/Eastern"]>
  (<["fft_ymin" := VInt 20]>
  (<["fft_ymax" := VInt 90]>
  (<["freq_markers" :=
       VList [ VTuple [VObj "Line2D"; VObj "Text"; VInt 0; VFloat 440; VObj "Line2D"];
               VTuple [VNone; VNone; VInt 1; VNone; VNone] ]]>
  (<["file_scroll_position" := VInt 3]>
  (<["visible_files" := VInt 8]>
  (<["scroll_position" := VInt 5]> initial_namespace))))))))).

End ResetState.

(** ** Reference implementations of the environment

    Small executable stand-ins for the library calls, the pickle module and
    the file system; they satisfy the laws above and serve to run the model
    on concrete inputs. *)

Module Reference.

#[export] Instance Qle_dec (x y : Q) : Decision (x <= y)%Q :=
  match Qlt_le_dec y x with
  | left H => right (Qlt_not_le _ _ H)
  | right H => left H
  end.

(** Order of two indexed samples by value. *)
Definition by_value (p q : nat * Q) : Prop := (snd p <= snd q)%Q.

#[export] Instance by_value_dec (p q : nat * Q) : Decision (by_value p q) :=
  Qle_dec (snd p) (snd q).

(** Positions of the samples in ascending order of value. *)
Definition ref_argsort (a : list Q) : list nat :=
  map fst (merge_sort by_value (zip (seq 0 (length a)) a)).

(** A sample strictly above both neighbours. *)
Definition is_local_max (x : list Q) (i : nat) : bool :=
  match x !! (i - 1)%nat, x !! i, x !! (i + 1)%nat with
  | Some a, Some b, Some c => negb (Qle_bool b a) && negb (Qle_bool b c)
  | _, _, _ => false
  end.

Definition local_maxima (x : list Q) : list nat :=
  filter (is_local_max x) (seq 1 (length x - 2)).

Definition far_from (d : nat) (kept : list nat) (i : nat) : bool :=
  forallb (fun k => (d <=? (i - k) + (k - i))%nat) kept.

(** Candidates are taken from the highest down; one is kept when it lies
    at least [d] samples from every candidate kept before. *)
Definition select_by_distance (x : list Q) (d : nat) (cands : list nat) : list nat :=
  let by_height :=
    map fst (rev (merge_sort by_value (map (fun i => (i, nth i x 0%Q)) cands))) in
  fold_left (fun kept i => if far_from d kept i then kept ++ [i] else kept)
            by_height [].

Definition ref_find_peaks (x : list Q) (h : Q) (d : Z) : list nat :=
  merge_sort Nat.le
    (select_by_distance x (Z.to_nat d)
       (filter (fun i => Qle_bool h (nth i x 0%Q)) (local_maxima x))).

#[export] Instance ref_numlib : NumLib :=
  {| find_peaks := ref_find_peaks; argsort := ref_argsort |}.

(** Limits are taken when both fit a signed 64-bit number. *)
#[export] Instance ref_plotlib : PlotLib :=
  {| set_ylim_error := fun lo hi =>
       if (- 2 ^ 63 <=? lo)%Z && (lo <? 2 ^ 63)%Z
          && (- 2 ^ 63 <=? hi)%Z && (hi <? 2 ^ 63)%Z
       then None
       else Some (TypeError "ufunc 'isfinite' not supported for the input types") |}.

(** Files hold a pickled value, or nothing right after [open(path, 'wb')];
    the empty path cannot be opened. *)
#[export] Instance ref_env : Env :=
  {| blob := option pyval;
     FS := gmap string (option pyval);
     pickle_dumps := fun v => Ok (Some v);
     pickle_loads := fun b =>
       match b with
       | Some v => Ok v
       | None => Raise (UnpicklingError "Ran out of input")
       end;
     fs_open_wb := fun path fs =>
       if String.eqb path ""
       then (Raise (OSError "No such file or directory"), fs)
       else (Ok tt, <[path := None]> fs);
     fs_write := fun path b fs => (Ok tt, <[path := b]> fs);
     fs_read := fun path fs =>
       match fs !! path with
       | Some b => Ok b
       | None => Raise (OSError "No such file or directory")
       end |}.

(** Three frames of two bins, frames 0 to 1 selected. *)
Definition three_frames : Frames :=
  {| nbins := 2; rows := [[1; 2]; [3; 4]; [5; 6]]%Q; rows_rect := eq_refl |}.

Definition selection_0_1 : State :=
  {| data_global := Some three_frames; freqs_global := Some [10; 20]%Q;
     time_labels_all := Some ["00:00:00"; "00:00:01"; "00:00:02"];
     selected_range := Some (0%Z, 1%Z);
     spec_click_line := None; ax_fft := None; fft_ymin := 0; fft_ymax := 120;
     log_entries := [] |}.

(** One frame of eleven bins with local maxima 50, 80 and 60 dB, clicked. *)
Definition peak_freqs : list Q := [0; 10; 20; 30; 40; 50; 60; 70; 80; 90; 100]%Q.
Definition peak_frame : list Q := [0; 50; 0; 80; 0; 0; 0; 0; 0; 60; 0]%Q.
Definition one_frame : Frames :=
  {| nbins := 11; rows := [peak_frame]; rows_rect := eq_refl |}.
Definition click_0 : Line2D := {| xdata := [0; 0]%Q |}.

Definition clicked_frame : State :=
  {| data_global := Some one_frame; freqs_global := Some peak_freqs;
     time_labels_all := Some ["00:00:00"];
     selected_range := None;
     spec_click_line := Some click_0; ax_fft := Some (0%Z, 120%Z);
     fft_ymin := 0; fft_ymax := 120;
     log_entries := [] |}.

(** A frame without any peak, clicked, while no frequency values are set. *)
Definition flat_frame : Frames :=
  {| nbins := 3; rows := [[0; 0; 0]%Q]; rows_rect := eq_refl |}.

Definition flat_frame_no_freqs : State :=
  {| data_global := Some flat_frame; freqs_global := None;
     time_labels_all := Some ["00:00:00"];
     selected_range := None;
     spec_click_line := Some click_0; ax_fft := Some (0%Z, 120%Z);
     fft_ymin := 0; fft_ymax := 120;
     log_entries := [] |}.

(** A project with one file, a zoom window, the UTC timezone and one
    marker set, over an empty file system. *)
Definition sample_vars : Project.Vars :=
  {| Project.file_paths := ["dive01.txt"];
     Project.time_zoom_start := 10;
     Project.time_zoom_end := 250;
     Project.gain_slider := Some (1 # 2);
     Project.current_timezone := {| Project.tz_zone := Some "UTC" |};
     Project.spec_click_line := Some click_0;
     Project.freq_markers :=
       [ {| Project.mk_vline := VObj "Line2D"; Project.mk_text := VObj "Text";
            Project.mk_index := VInt 0; Project.mk_freq := VFloat 440;
            Project.mk_hline := VObj "Line2D" |};
         {| Project.mk_vline := VNone; Project.mk_text := VNone;
            Project.mk_index := VInt 1; Project.mk_freq := VNone;
            Project.mk_hline := VNone |} ] |}.

Definition sample_world : Project.World :=
  {| Project.vars := sample_vars; Project.fs := ∅; Project.logging := [] |}.

(** The same project after the timezone was set to Europe/Oslo. *)
Definition oslo_world : Project.World :=
  {| Project.vars :=
       {| Project.file_paths := Project.file_paths sample_vars;
          Project.time_zoom_start := Project.time_zoom_start sample_vars;
          Project.time_zoom_end := Project.time_zoom_end sample_vars;
          Project.gain_slider := Project.gain_slider sample_vars;
          Project.current_timezone := {| Project.tz_zone := Some "Europe/Oslo" |};
          Project.spec_click_line := Project.spec_click_line sample_vars;
          Project.freq_markers := Project.freq_markers sample_vars |};
     Project.fs := ∅; Project.logging := [] |}.

End Reference.

(** ** ui_tabs.py: the other callbacks of FilterTab *)

Module FilterOps.
Import Filter.

Definition set_active (a : option Profile) (self : FilterTab) : FilterTab :=
  {| noise_profiles := noise_profiles self; active_profile := a;
     filter_intensity := filter_intensity self; name_input := name_input self;
     metadata_text := metadata_text self; profiles_text := profiles_text self;
     status_light := status_light self; status_text := status_text self;
     next_obj := next_obj self |}.

Definition set_profiles (ps : list Profile) (self : FilterTab) : FilterTab :=
  {| noise_profiles := ps; active_profile := active_profile self;
     filter_intensity := filter_intensity self; name_input := name_input self;
     metadata_text := metadata_text self; profiles_text := profiles_text self;
     status_light := status_light self; status_text := status_text self;
     next_obj := next_obj self |}.

Definition set_metadata_text (txt : string) (self : FilterTab) : FilterTab :=
  {| noise_profiles := noise_profiles self; active_profile := active_profile self;
     filter_intensity := filter_intensity self; name_input := name_input self;
     metadata_text := txt; profiles_text := profiles_text self;
     status_light := status_light self; status_text := status_text self;
     next_obj := next_obj self |}.

(** The metadata text for a selection: the range, then the time line when
    labels exist. *)
Definition selection_metadata (labels : option (list string)) (start end_ : Z)
  : result string :=
  let head := "Selection: " +:+ pretty start +:+ " - " +:+ pretty end_ +:+ nl in
  match labels with
  | None => Ok head
  | Some tl =>
      match label_or_na tl start with
      | Raise e => Raise e
      | Ok start_time =>
          match label_or_na tl end_ with
          | Raise e => Raise e
          | Ok end_time =>
              Ok (head +:+ "Time: " +:+ start_time +:+ " - " +:+ end_time +:+ nl)
          end
      end
  end.

(** [FilterTab.on_capture_profile] *)
Definition on_capture_profile (w : FilterTab * State)
  : result unit * (FilterTab * State) :=
  let '(self, st) := w in
  match selected_range st with
  | Some (start, end_) =>
      match selection_metadata (time_labels_all st) start end_ with
      | Raise e => (Raise e, w)
      | Ok txt =>
          (Ok tt,
           (set_metadata_text txt self,
            add_log_entry ("Captured background profile for range "
                           +:+ pretty start +:+ "-" +:+ pretty end_) st))
      end
  | None =>
      (Ok tt,
       (set_metadata_text
          ("Selection: None" +:+ nl +:+ "Select a region in the spectrogram first")
          self,
        add_log_entry "Cannot capture profile - no selection" st))
  end.

(** [FilterTab.on_load_profile]: the first profile of the list becomes the
    active one. *)
Definition on_load_profile (w : FilterTab * State)
  : result unit * (FilterTab * State) :=
  let '(self, st) := w in
  match noise_profiles self with
  | p0 :: _ =>
      let self := set_active (Some p0) self in
      match update_profiles_display self with
      | (Raise e, self) => (Raise e, (self, st))
      | (Ok _, self) =>
          (Ok tt,
           (set_status "orange" "READY" self,
            add_log_entry ("Loaded profile '" +:+ p_name p0 +:+ "'") st))
      end
  | [] => (Ok tt, (self, add_log_entry "No profiles available to load" st))
  end.

(** [FilterTab.on_delete_profile]: [pop(0)], then the comparison of the
    removed dictionary with the active one. *)
Definition on_delete_profile (w : FilterTab * State)
  : result unit * (FilterTab * State) :=
  let '(self, st) := w in
  match noise_profiles self with
  | deleted :: rest =>
      let self := set_profiles rest self in
      match match active_profile self with
            | Some a => profile_eq deleted a
            | None => Ok false
            end with
      | Raise e => (Raise e, (self, st))
      | Ok was_active =>
          let self :=
            if was_active then set_status "gray" "OFF" (set_active None self)
            else self in
          match update_profiles_display self with
          | (Raise e, self) => (Raise e, (self, st))
          | (Ok _, self) =>
              (Ok tt,
               (self, add_log_entry ("Deleted profile '" +:+ p_name deleted +:+ "'") st))
          end
      end
  | [] => (Ok tt, (self, add_log_entry "No profiles available to delete" st))
  end.

(** [FilterTab.on_export_profile] *)
Definition on_export_profile (w : FilterTab * State) : FilterTab * State :=
  let '(self, st) := w in
  match active_profile self with
  | Some a =>
      (self, add_log_entry ("Export profile '" +:+ p_name a +:+ "' (not implemented)") st)
  | None => (self, add_log_entry "No active profile to export" st)
  end.

(** [FilterTab.on_reset_filter] *)
Definition on_reset_filter (w : FilterTab * State)
  : result unit * (FilterTab * State) :=
  let '(self, st) := w in
  let self := set_active None (set_status "gray" "OFF" self) in
  match update_profiles_display self with
  | (Raise e, self) => (Raise e, (self, st))
  | (Ok _, self) => (Ok tt, (self, add_log_entry "Reset filtering" st))
  end.

(** The buttons and the slider of the tab. *)
Inductive filter_call : Type :=
| Capture | Save | Load | Delete | Export | Intensity (val : Q) | Toggle | ResetFilter.

Definition run_call (c : filter_call) (w : FilterTab * State)
  : result unit * (FilterTab * State) :=
  match c with
  | Capture => on_capture_profile w
  | Save => on_save_profile w
  | Load => on_load_profile w
  | Delete => on_delete_profile w
  | Export => (Ok tt, on_export_profile w)
  | Intensity v => (Ok tt, on_intensity_change v w)
  | Toggle => (Ok tt, on_toggle_filter w)
  | ResetFilter => on_reset_filter w
  end.

(** A session on the tab: before each call the rest of the program may have
    changed the module state ([env]); a call that raises leaves the objects
    as they were when it raised. *)
Definition run_session (w : FilterTab * State)
    (steps : list ((State -> State) * filter_call)) : FilterTab * State :=
  fold_left (fun w step => snd (run_call (snd step) (fst w, fst step (snd w))))
            steps w.

(** The filter is READY or ON only with an active profile, and the active
    profile is the first of the list. *)
Definition filter_inv (self : FilterTab) : Prop :=
  (status_text self = "ON" \/ status_text self = "READY" ->
   active_profile self <> None) /\
  (forall a, active_profile self = Some a ->
     exists rest, noise_profiles self = a :: rest).

End FilterOps.

(** ** ui_tabs.py: the other callbacks of AnnotationsTab *)

Module AnnotationOps.
Import Annotations.

(** [l.remove(x)]: drops the first element equal to [x]; [None] stands for
    the ValueError raised when there is none. *)
Fixpoint list_remove (x : Annotation) (l : list Annotation)
  : option (list Annotation) :=
  match l with
  | [] => None
  | y :: l' =>
      if bool_decide (y = x) then Some l'
      else match list_remove x l' with
           | Some r => Some (y :: r)
           | None => None
           end
  end.

Definition set_annotations (l : list Annotation) (self : AnnotationsTab)
  : AnnotationsTab :=
  {| annotations := l;
     current_annotation := current_annotation self;
     annotations_text := annotations_text self;
     selection_text := selection_text self |}.

(** [AnnotationsTab.on_delete_annotation]; an annotation dictionary is never
    empty, so [if self.current_annotation:] asks whether one is selected. *)
Definition on_delete_annotation : M (AnnotationsTab * State) unit :=
  let* cur := gets (fun w => current_annotation (fst w)) in
  match cur with
  | Some cur =>
      let* anns := gets (fun w => annotations (fst w)) in
      match list_remove cur anns with
      | None => raise (ValueError "list.remove(x): x not in list")
      | Some rest =>
          on_fst (modify (set_annotations rest));;
          on_snd (modify (add_log_entry ("Deleted annotation " +:+ pretty (a_id cur))));;
          on_fst (modify (set_current None));;
          on_fst update_annotations_display;;
          on_fst (set_selection_text "No selection")
      end
  | None =>
      on_snd (modify (add_log_entry "No annotation selected to delete"))
  end.

(** [AnnotationsTab.on_export_annotations] *)
Definition on_export_annotations (w : AnnotationsTab * State)
  : AnnotationsTab * State :=
  let '(self, st) := w in
  match annotations self with
  | [] => (self, add_log_entry "No annotations to export" st)
  | _ =>
      (self, add_log_entry ("Export " +:+ pretty (length (annotations self))
                            +:+ " annotations (not implemented)") st)
  end.

Inductive annotation_call : Type :=
| Add (now : string) | DeleteCurrent | ExportAll.

Definition run_call (c : annotation_call) (w : AnnotationsTab * State)
  : result unit * (AnnotationsTab * State) :=
  match c with
  | Add now => on_add_annotation now w
  | DeleteCurrent => on_delete_annotation w
  | ExportAll => (Ok tt, on_export_annotations w)
  end.

Definition run_session (w : AnnotationsTab * State)
    (steps : list ((State -> State) * annotation_call)) : AnnotationsTab * State :=
  fold_left (fun w step => snd (run_call (snd step) (fst w, fst step (snd w))))
            steps w.

(** The ids of the annotations are 1, 2, ..., n in list order, the tab has
    neither of the two texts and no annotation is the current one. *)
Definition annotations_inv (self : AnnotationsTab) : Prop :=
  map a_id (annotations self) = seq 1 (length (annotations self)) /\
  annotations_text self = None /\ selection_text self = None /\
  current_annotation self = None.

End AnnotationOps.

(** ** ui_tabs.py: the numbers [update_statistics] prints *)

Module Statistics.

Definition qmax (x y : Q) : Q := if Qle_bool x y then y else x.

(** [np.max(a)]; an array without elements raises. *)
Definition np_max (a : list Q) : result Q :=
  match a with
  | [] =>
      Raise (ValueError
               "zero-size array to reduction operation maximum which has no identity")
  | x :: a' => Ok (fold_left qmax a' x)
  end.

(** [np.mean(a)]. For an array without elements numpy gives nan and a
    warning; that value is never printed, since [np.max] raises right after. *)
Definition np_mean (a : list Q) : Q :=
  (fold_left Qplus a 0 / inject_Z (Z.of_nat (length a)))%Q.

Fixpoint argmax_from (best_i : nat) (best : Q) (i : nat) (a : list Q) : nat :=
  match a with
  | [] => best_i
  | x :: a' =>
      if Qle_bool x best then argmax_from best_i best (S i) a'
      else argmax_from i x (S i) a'
  end.

(** [np.argmax(a)] of an array with elements: the first position of the
    maximum. *)
Definition np_argmax (a : list Q) : nat :=
  match a with
  | [] => 0%nat
  | x :: a' => argmax_from 0 x 1 a'
  end.

Fixpoint insert_sorted (x : Q) (l : list Q) : list Q :=
  match l with
  | [] => [x]
  | y :: l' => if Qle_bool x y then x :: l else y :: insert_sorted x l'
  end.

Definition sorted (a : list Q) : list Q := fold_right insert_sorted [] a.

(** [np.percentile(a, q)] of an array with elements, by linear
    interpolation between the two nearest ranks. *)
Definition np_percentile (a : list Q) (q : Q) : Q :=
  let s := sorted a in
  let pos := (q / 100 * inject_Z (Z.of_nat (length a - 1)))%Q in
  let lo := Z.to_nat (Qfloor pos) in
  let frac := (pos - inject_Z (Qfloor pos))%Q in
  let x := nth lo s 0%Q in
  let y := nth (lo + 1) s x in
  (x + frac * (y - x))%Q.

(** The loop [for i in range(start, end + 1): if 0 <= i < len(data): ...]. *)
Definition frames_in_range (data : list (list Q)) (start end_ : Z)
  : list (list Q) :=
  flat_map (fun i =>
              if (0 <=? i)%Z && (i <? Z.of_nat (length data))%Z then
                match data !! Z.to_nat i with
                | Some row => [row]
                | None => []
                end
              else [])
           (py_range start (end_ + 1)).

(** The lines of the three strongest bands. *)
Fixpoint band_lines (freqs band_energy : list Q) (i : nat) (band_idx : list nat)
  : result string :=
  match band_idx with
  | [] => Ok ""
  | idx :: rest =>
      match freqs !! idx, band_energy !! idx with
      | Some freq, Some energy =>
          match band_lines freqs band_energy (S i) rest with
          | Raise e => Raise e
          | Ok lines =>
              Ok (pretty (i + 1)%nat +:+ ". " +:+ fmt_fixed 1 freq +:+ " Hz: "
                  +:+ fmt_fixed 1 energy +:+ " total energy" +:+ nl +:+ lines)
          end
      | _, _ => Raise (IndexError "index out of bounds")
      end
  end.

(** The text for a selection, after its head line: the frames are stacked,
    mean and maximum are taken over all values, and the bands are ranked by
    their sum over the frames. *)
Definition selection_statistics `{NumLib} (freqs : list Q) (frames : list (list Q))
  : result string :=
  match Filter.vstack frames with
  | Raise e => Raise e
  | Ok m =>
      let mean_amp := np_mean (concat m) in
      match np_max (concat m) with
      | Raise e => Raise e
      | Ok max_amp =>
          let band_energy :=
            match m with
            | [] => []
            | r :: rs => fold_left Filter.row_add rs r
            end in
          let band_idx := take 3 (rev (argsort band_energy)) in
          match band_lines freqs band_energy 0 band_idx with
          | Raise e => Raise e
          | Ok lines =>
              Ok ("Mean Amplitude: " +:+ fmt_fixed 1 mean_amp +:+ " dB" +:+ nl +:+
                  "Max Amplitude: " +:+ fmt_fixed 1 max_amp +:+ " dB" +:+ nl +:+ nl +:+
                  "Top Frequency Bands:" +:+ nl +:+ lines)
          end
      end
  end.

(** The text for a clicked frame, after its head line. *)
Definition point_statistics (freqs fft_data : list Q) : result string :=
  let mean_amp := np_mean fft_data in
  match np_max fft_data with
  | Raise e => Raise e
  | Ok max_amp =>
      match freqs !! np_argmax fft_data with
      | None => Raise (IndexError "index out of bounds")
      | Some max_freq =>
          Ok ("Mean Amplitude: " +:+ fmt_fixed 1 mean_amp +:+ " dB" +:+ nl +:+
              "Max Amplitude: " +:+ fmt_fixed 1 max_amp +:+ " dB at "
              +:+ fmt_fixed 1 max_freq +:+ " Hz" +:+ nl +:+
              "90th Percentile: " +:+ fmt_fixed 1 (np_percentile fft_data 90)
              +:+ " dB" +:+ nl +:+
              "75th Percentile: " +:+ fmt_fixed 1 (np_percentile fft_data 75)
              +:+ " dB")
      end
  end.

(** What [update_statistics] hands to [self.stats_text.set_text]: [None]
    when it sets nothing. *)
Definition statistics_text `{NumLib} (st : State) : result (option string) :=
  match freqs_global st, data_global st with
  | Some freqs, Some data =>
      match selected_range st with
      | Some (start, end_) =>
          let head := "Statistics for selection (" +:+ pretty start +:+ " - "
                      +:+ pretty end_ +:+ "):" +:+ nl in
          match frames_in_range (rows data) start end_ with
          | [] => Ok None
          | frames =>
              match selection_statistics freqs frames with
              | Raise e => Raise e
              | Ok body => Ok (Some (head +:+ body))
              end
          end
      | None =>
          match spec_click_line st with
          | Some ln =>
              match click_index ln with
              | Raise e => Raise e
              | Ok idx =>
                  let head := "Statistics for point " +:+ pretty idx +:+ ":" +:+ nl in
                  if (0 <=? idx)%Z && (idx <? Z.of_nat (length (rows data)))%Z then
                    match py_index (rows data) idx with
                    | Raise e => Raise e
                    | Ok fft_data =>
                        match point_statistics freqs fft_data with
                        | Raise e => Raise e
                        | Ok body => Ok (Some (head +:+ body))
                        end
                    end
                  else Ok None
              end
          | None => Ok (Some "Select a point or range to view statistics")
          end
      end
  | _, _ => Ok None
  end.

End Statistics.

(** ** ui_tab_system.py *)

Module TabSystem.

Inductive tab_class : Type := AnalysisTab | FilterTab | AnnotationsTab | ExportTab.

(** What an instance attribute or a dictionary slot of a tab refers to. *)
Inductive pyobj : Type :=
| ObjAxes (key : string)      (* a matplotlib Axes, named by its key in [axes] *)
| ObjText (txt : string)      (* a matplotlib Text *)
| ObjWidget (kind : string).  (* Button, Slider, TextBox *)

(** An entry of [self.components]: matplotlib's Button, Slider and TextBox
    widgets carry no [set_visible]; [has_set_visible] records the outcome of
    the [hasattr] test in [show]/[hide]. *)
Record Component : Type := mkComponent {
  comp_obj : pyobj;
  has_set_visible : bool;
  comp_visible : bool
}.

(** The data attributes the [__init__] of each subclass assigns; the
    constructor tells the class of the instance. *)
Inductive tab_fields : Type :=
| AnalysisFields (fft_min_val fft_max_val : Z)
| FilterFields (noise_profiles : list Filter.Profile)
               (active_profile : option Filter.Profile) (filter_intensity : Q)
| AnnotationsFields (annotations : list Annotations.Annotation)
                    (current_annotation : option Annotations.Annotation)
| ExportFields.

(** A tab instance as TabBase and TabManager see it. [attrs] is the instance
    dictionary for the attributes assigned in [build]
    ([self.fft_section = ...], [self.range_text = ...]); an entry there
    shadows a method of the class with the same name. *)
Record Tab : Type := mkTab {
  fields : tab_fields;
  visible : bool;
  components : gmap string Component;
  axes : gmap string bool;     (* axes name -> visibility of that axes *)
  attrs : gmap string pyobj
}.

Definition class_of (f : tab_fields) : tab_class :=
  match f with
  | AnalysisFields _ _ => AnalysisTab
  | FilterFields _ _ _ => FilterTab
  | AnnotationsFields _ _ => AnnotationsTab
  | ExportFields => ExportTab
  end.

Definition tab_cls (t : Tab) : tab_class := class_of (fields t).

Definition class_name (cls : tab_class) : string :=
  match cls with
  | AnalysisTab => "AnalysisTab"
  | FilterTab => "FilterTab"
  | AnnotationsTab => "AnnotationsTab"
  | ExportTab => "ExportTab"
  end.

(** The [__init__] of the four subclasses, after [super().__init__]. *)
Definition init_fields (cls : tab_class) : tab_fields :=
  match cls with
  | AnalysisTab => AnalysisFields 0 120
  | FilterTab => FilterFields [] None (1 # 2)
  | AnnotationsTab => AnnotationsFields [] None
  | ExportTab => ExportFields
  end.

(** [tab_class(fig, parent_ax)] *)
Definition new_tab (cls : tab_class) : Tab :=
  {| fields := init_fields cls; visible := false; components := ∅; axes := ∅;
     attrs := ∅ |}.

Definition set_component_visible (b : bool) (c : Component) : Component :=
  if has_set_visible c
  then {| comp_obj := comp_obj c; has_set_visible := true; comp_visible := b |}
  else c.

(** [TabBase.on_hide]: [pass]; no subclass overrides it. *)
Definition on_hide (t : Tab) : Tab := t.

(** [TabBase.hide] *)
Definition hide (t : Tab) : Tab :=
  on_hide {| fields := fields t;
             visible := false;
             components := set_component_visible false <$> components t;
             axes := (fun _ => false) <$> axes t;
             attrs := attrs t |}.

Definition set_axes (k : string) (v : bool) : M Tab unit :=
  modify (fun t => {| fields := fields t; visible := visible t;
                      components := components t;
                      axes := <[k := v]> (axes t); attrs := attrs t |}).

Definition set_comp (k : string) (c : Component) : M Tab unit :=
  modify (fun t => {| fields := fields t; visible := visible t;
                      components := <[k := c]> (components t);
                      axes := axes t; attrs := attrs t |}).

(** [self.<name> = obj] *)
Definition setattr (name : string) (o : pyobj) : M Tab unit :=
  modify (fun t => {| fields := fields t; visible := visible t;
                      components := components t;
                      axes := axes t; attrs := <[name := o]> (attrs t) |}).

(** The body of [TabBase.create_section]: a new visible Axes stored under
    [section_<slug of title>]. *)
Definition TabBase_create_section (title : string) : M Tab pyobj :=
  let section_name := "section_" +:+ slug title in
  set_axes section_name true;;
  ret (ObjAxes section_name).

(** The call [self.create_section(title, ...)]: Python looks the name up in
    the instance dictionary before the class, and calling an Axes raises. *)
Definition create_section (title : string) : M Tab pyobj :=
  let* a := gets (fun t => attrs t !! "create_section") in
  match a with
  | None => TabBase_create_section title
  | Some (ObjAxes _) => raise (TypeError "'Axes' object is not callable")
  | Some (ObjText _) => raise (TypeError "'Text' object is not callable")
  | Some (ObjWidget _) => raise (TypeError "widget object is not callable")
  end.

(** [TabBase.create_button] (never shadowed in the sources). *)
Definition create_button (label : string) : M Tab unit :=
  let button_name := "button_" +:+ slug label in
  set_comp button_name
    {| comp_obj := ObjWidget "Button"; has_set_visible := false;
       comp_visible := true |};;
  set_axes (button_name +:+ "_ax") true.

(** [x_ax = plt.Axes(...); self.fig.add_axes(x_ax); ...; self.axes[key] = x_ax],
    with [vis = false] where the source calls [x_ax.set_visible(False)]. *)
Definition add_plain_axes (key : string) (vis : bool) : M Tab unit :=
  set_axes key vis.

(** [self.<attr> = self.create_section(title, ...)] *)
Definition assign_section (attr title : string) : M Tab unit :=
  let* ax := create_section title in
  setattr attr ax.

(** [AnalysisTab.build] *)
Definition AnalysisTab_build : M Tab unit :=
  assign_section "fft_section" "FFT Controls";;
  assign_section "measurement_section" "Measurements";;
  assign_section "statistics_section" "Statistics";;
  create_button "+Max";;
  create_button "-Max";;
  create_button "+Min";;
  create_button "-Min";;
  create_button "Auto Y";;
  create_button "Reset";;
  setattr "range_text" (ObjText "Range: 0.0 - 120.0");;
  add_plain_axes "range_display" true;;
  create_button "Find Peaks";;
  create_button "Measure";;
  create_button "Clear";;
  setattr "results_text" (ObjText "No measurements");;
  add_plain_axes "results_display" true;;
  setattr "stats_text" (ObjText "No statistics available");;
  add_plain_axes "stats_display" true.

(** [FilterTab.build] *)
Definition FilterTab_build : M Tab unit :=
  assign_section "capture_section" "Capture Background Profile";;
  assign_section "profiles_section" "Noise Profiles";;
  assign_section "filtering_section" "Apply Filtering";;
  create_button "Capture Current Selection";;
  setattr "name_input" (ObjWidget "TextBox");;
  add_plain_axes "name_input_ax" true;;
  set_comp "name_input"
    {| comp_obj := ObjWidget "TextBox"; has_set_visible := false;
       comp_visible := true |};;
  create_button "Save Profile";;
  setattr "metadata_text" (ObjText "Selection: None");;
  add_plain_axes "metadata_display" true;;
  setattr "profiles_text" (ObjText "No profiles available");;
  add_plain_axes "profiles_list" true;;
  create_button "Load";;
  create_button "Delete";;
  create_button "Export";;
  setattr "intensity_slider" (ObjWidget "Slider");;
  add_plain_axes "intensity_slider_ax" true;;
  set_comp "intensity_slider"
    {| comp_obj := ObjWidget "Slider"; has_set_visible := false;
       comp_visible := true |};;
  create_button "Apply Filter";;
  create_button "Reset";;
  setattr "status_light" (ObjWidget "Circle");;
  setattr "status_text" (ObjText "OFF");;
  add_plain_axes "filter_status" true.

(** [AnnotationsTab.build]. Its first statement assigns the section Axes to
    the attribute [create_section] itself. *)
Definition AnnotationsTab_build : M Tab unit :=
  assign_section "create_section" "Create Annotation";;
  assign_section "list_section" "Annotations List";;
  assign_section "edit_section" "Edit Annotation";;
  create_button "Add Annotation";;
  add_plain_axes "classification_ax" false;;
  create_button "Clear Selection";;
  setattr "selection_text" (ObjText "No selection");;
  add_plain_axes "selection_display" true;;
  setattr "annotations_text" (ObjText "No annotations");;
  add_plain_axes "annotations_list" true;;
  add_plain_axes "comment_box" false;;
  create_button "Delete";;
  create_button "Jump To";;
  create_button "Export".

(** [ExportTab.build] *)
Definition ExportTab_build : M Tab unit :=
  assign_section "audio_section" "Export Audio";;
  assign_section "image_section" "Export Images";;
  assign_section "report_section" "Generate Report";;
  create_button "Export Selected Audio";;
  add_plain_axes "format_selection" false;;
  setattr "selection_text" (ObjText "No audio selected for export");;
  add_plain_axes "audio_selection" true;;
  create_button "Export Spectrogram";;
  create_button "Export FFT Plot";;
  add_plain_axes "annotations_checkbox" false;;
  add_plain_axes "resolution_selection" false;;
  create_button "Generate Report";;
  add_plain_axes "report_options" false.

(** [tab.build()], dispatched on the class of the instance. *)
Definition build : M Tab unit :=
  fun t => match tab_cls t with
           | AnalysisTab => AnalysisTab_build t
           | FilterTab => FilterTab_build t
           | AnnotationsTab => AnnotationsTab_build t
           | ExportTab => ExportTab_build t
           end.

(** *** The [on_show] overrides of ui_tabs.py

    They read the module state, refresh the Text widgets of the tab and (for
    the analysis tab) copy the FFT range; they touch neither [visible] nor the
    two dictionaries of TabBase. [Self] is the part of the instance they work
    on. *)
Definition Self : Type := gmap string pyobj * tab_fields.

Definition no_attribute (f : tab_fields) (name : string) : exn :=
  AttributeError ("'" +:+ class_name (class_of f) +:+ "' object has no attribute '"
                  +:+ name +:+ "'").

(** [self.<name>.set_text(txt)]: the attribute is looked up, then the
    argument is evaluated, then the text of the widget is replaced. Only a
    Text has [set_text]. *)
Definition set_text (name : string) (txt : result string) : M Self unit :=
  fun s =>
    match fst s !! name with
    | None => (Raise (no_attribute (snd s) name), s)
    | Some (ObjText _) =>
        match txt with
        | Ok t => (Ok tt, (<[name := ObjText t]> (fst s), snd s))
        | Raise e => (Raise e, s)
        end
    | Some (ObjAxes _) =>
        (Raise (AttributeError "'Axes' object has no attribute 'set_text'"), s)
    | Some (ObjWidget _) =>
        (Raise (AttributeError "widget object has no attribute 'set_text'"), s)
    end.

(** [AnalysisTab.update_range_display] *)
Definition AnalysisTab_update_range_display : M Self unit :=
  let* has := gets (fun s => bool_decide (is_Some (fst s !! "range_text"))) in
  if has then
    let* f := gets snd in
    match f with
    | AnalysisFields lo hi =>
        set_text "range_text"
          match fmt_fixed_int 1 lo with
          | Raise e => Raise e
          | Ok lo_txt =>
              match fmt_fixed_int 1 hi with
              | Raise e => Raise e
              | Ok hi_txt => Ok ("Range: " +:+ lo_txt +:+ " - " +:+ hi_txt)
              end
          end
    | _ => raise (no_attribute f "fft_min_val")
    end
  else ret tt.

(** [AnalysisTab.update_statistics] *)
Definition AnalysisTab_update_statistics `{NumLib} (st : State) : M Self unit :=
  let* txt := lift (Statistics.statistics_text st) in
  match txt with
  | Some t => set_text "stats_text" (Ok t)
  | None => ret tt
  end.

(** [AnalysisTab.on_show] *)
Definition AnalysisTab_on_show `{NumLib} (st : State) : M Self unit :=
  modify (fun s => (fst s, AnalysisFields (fft_ymin st) (fft_ymax st)));;
  AnalysisTab_update_range_display;;
  AnalysisTab_update_statistics st.

(** [FilterTab.update_profiles_display] *)
Definition FilterTab_update_profiles_display : M Self unit :=
  let* f := gets snd in
  match f with
  | FilterFields [] _ _ => set_text "profiles_text" (Ok "No profiles available")
  | FilterFields ps act _ =>
      let* body := lift (Filter.profiles_blocks act 0 ps) in
      set_text "profiles_text" (Ok ("Available Profiles:" +:+ nl +:+ nl +:+ body))
  | _ => raise (no_attribute f "noise_profiles")
  end.

(** [FilterTab.on_show] *)
Definition FilterTab_on_show (st : State) : M Self unit :=
  FilterTab_update_profiles_display;;
  match selected_range st with
  | Some (start, end_) =>
      let* txt := lift (FilterOps.selection_metadata (time_labels_all st) start end_) in
      set_text "metadata_text" (Ok txt)
  | None =>
      set_text "metadata_text"
        (Ok ("Selection: None" +:+ nl +:+ "Select a region in the spectrogram first"))
  end.

(** [AnnotationsTab.update_annotations_display] *)
Definition AnnotationsTab_update_annotations_display : M Self unit :=
  let* f := gets snd in
  match f with
  | AnnotationsFields [] _ => set_text "annotations_text" (Ok "No annotations")
  | AnnotationsFields anns cur =>
      set_text "annotations_text"
        (Ok (fold_left (fun acc a => acc +:+ Annotations.annotation_block cur a)
                       anns ""))
  | _ => raise (no_attribute f "annotations")
  end.

(** [AnnotationsTab.on_show] *)
Definition AnnotationsTab_on_show (st : State) : M Self unit :=
  AnnotationsTab_update_annotations_display;;
  match selected_range st with
  | Some (start, end_) =>
      set_text "selection_text"
        (Ok ("Selection: " +:+ pretty start +:+ "-" +:+ pretty end_))
  | None => set_text "selection_text" (Ok "No selection")
  end.

(** [ExportTab.on_show] *)
Definition ExportTab_on_show (st : State) : M Self unit :=
  match selected_range st with
  | Some (start, end_) =>
      set_text "selection_text"
        (Ok ("Selected audio: " +:+ pretty start +:+ "-" +:+ pretty end_ +:+ nl +:+
             "Duration: " +:+ pretty (end_ - start)%Z +:+ " seconds"))
  | None => set_text "selection_text" (Ok "No audio selected for export")
  end.

(** [self.on_show()], dispatched on the class of the instance; [st] is the
    module [state] at the time of the call. *)
Definition on_show `{NumLib} (st : State) : M Tab unit :=
  fun t =>
    let '(r, (a, f)) :=
      match tab_cls t with
      | AnalysisTab => AnalysisTab_on_show st
      | FilterTab => FilterTab_on_show st
      | AnnotationsTab => AnnotationsTab_on_show st
      | ExportTab => ExportTab_on_show st
      end (attrs t, fields t) in
    (r, {| fields := f; visible := visible t; components := components t;
           axes := axes t; attrs := a |}).

(** [TabBase.show]: [visible] is set before [on_show] runs. *)
Definition show `{NumLib} (st : State) : M Tab unit :=
  modify (fun t => {| fields := fields t;
                      visible := true;
                      components := set_component_visible true <$> components t;
                      axes := (fun _ => true) <$> axes t;
                      attrs := attrs t |});;
  on_show st.

(** A tab-bar button: the two colours [switch_to_tab] assigns. *)
Record TabButton : Type := mkTabButton {
  color : string;
  hovercolor : string
}.

(** A TabManager instance together with the log that [add_log_entry] feeds. *)
Record TabManager : Type := mkTabManager {
  tabs : gmap string Tab;
  active_tab : option string;
  tab_buttons : gmap string TabButton;
  log_entries : list string
}.

(** [TabManager.__init__] *)
Definition new_manager : TabManager :=
  {| tabs := ∅; active_tab := None; tab_buttons := ∅; log_entries := [] |}.

(** Modelled from the spec: [utils.add_log_entry] is not among the sources;
    the spec speaks of operations that are "logged only", and the message is
    taken to be appended to the application log. *)
Definition add_log_entry (msg : string) (m : TabManager) : TabManager :=
  {| tabs := tabs m; active_tab := active_tab m;
     tab_buttons := tab_buttons m; log_entries := log_entries m ++ [msg] |}.

Definition set_tabs (f : gmap string Tab -> gmap string Tab) (m : TabManager)
  : TabManager :=
  {| tabs := f (tabs m); active_tab := active_tab m;
     tab_buttons := tab_buttons m; log_entries := log_entries m |}.

Definition set_active (n : string) (m : TabManager) : TabManager :=
  {| tabs := tabs m; active_tab := Some n;
     tab_buttons := tab_buttons m; log_entries := log_entries m |}.

Definition set_button (n : string) (b : TabButton) (m : TabManager) : TabManager :=
  {| tabs := tabs m; active_tab := active_tab m;
     tab_buttons := <[n := b]> (tab_buttons m); log_entries := log_entries m |}.

(** [TabManager.add_tab]. The instance is stored in [self.tabs] before it is
    built, and [build] works on that same object: what [build] did up to an
    exception stays in the dictionary. *)
Definition add_tab (name : string) (cls : tab_class) : M TabManager Tab :=
  fun m =>
    let tab := new_tab cls in
    let m1 := set_tabs (insert name tab) m in
    match build tab with
    | (Raise e, tab') => (Raise e, set_tabs (insert name tab') m1)
    | (Ok _, tab') =>
        let tab'' := hide tab' in
        (Ok tab'', set_tabs (insert name tab'') m1)
    end.

(** [TabManager.create_tab_buttons]: one button per entry of [self.tabs]. *)
Definition create_tab_buttons (m : TabManager) : TabManager :=
  {| tabs := tabs m; active_tab := active_tab m;
     tab_buttons :=
       ((fun _ => {| color := "#1E1E1E"; hovercolor := "#2A2A2A" |}) <$> tabs m)
       ∪ tab_buttons m;
     log_entries := log_entries m |}.

(** [if self.active_tab and self.active_tab in self.tabs:] *)
Definition has_current_tab (m : TabManager) : bool :=
  truthy_name (active_tab m) &&
  match active_tab m with
  | Some a => bool_decide (is_Some (tabs m !! a))
  | None => false
  end.

Definition recolor (n : string) (c h : string) (m : TabManager) : TabManager :=
  match tab_buttons m !! n with
  | Some _ => set_button n {| color := c; hovercolor := h |} m
  | None => m
  end.

(** Lines 265-273 of [switch_to_tab]: the current tab, if there is one, is
    hidden and its button gets the plain colours. *)
Definition hide_current (m : TabManager) : TabManager :=
  if has_current_tab m then
    match active_tab m with
    | Some a => recolor a "#1E1E1E" "#2A2A2A" (set_tabs (alter hide a) m)
    | None => m
    end
  else m.

(** [TabManager.switch_to_tab]; [st] is the module [state] at the time of
    the call. When [show] raises, the statements after it (lines 277-288) do
    not run; what [show] did to the tab before it raised stays. *)
Definition switch_to_tab `{NumLib} (st : State) (name : string) : M TabManager unit :=
  fun m =>
    match tabs m !! name with
    | None => (Ok tt, add_log_entry ("Tab '" +:+ name +:+ "' not found") m)
    | Some _ =>
        let m1 := hide_current m in
        match tabs m1 !! name with
        | None => (Raise (KeyError name), m1)
        | Some t =>
            match show st t with
            | (Raise e, t') => (Raise e, set_tabs (insert name t') m1)
            | (Ok _, t') =>
                let m2 := set_active name (set_tabs (insert name t') m1) in
                let m3 := recolor name "#3A3A3A" "#444444" m2 in
                (Ok tt, add_log_entry ("Switched to " +:+ name +:+ " tab") m3)
            end
        end
    end.

(** The tab part of [create_modern_layout] (lines 114-127); the statements
    before it create axes on the figure and set [state.fft_ymin],
    [state.fft_ymax]; [setup_event_handlers], which follows, is not among the
    sources. [st] is the module [state] when line 114 is reached. *)
Definition create_modern_layout `{NumLib} (st : State) : M TabManager unit :=
  let* _ := add_tab "analysis" AnalysisTab in
  let* _ := add_tab "filter" FilterTab in
  let* _ := add_tab "annotations" AnnotationsTab in
  let* _ := add_tab "export" ExportTab in
  modify create_tab_buttons;;
  switch_to_tab st "analysis".

(** At most one tab is visible, and a visible tab is the active one. *)
Definition tabs_exclusive (m : TabManager) : Prop :=
  (forall n1 n2 t1 t2,
      tabs m !! n1 = Some t1 -> visible t1 = true ->
      tabs m !! n2 = Some t2 -> visible t2 = true -> n1 = n2) /\
  (forall n t, tabs m !! n = Some t -> visible t = true -> active_tab m = Some n).

(** No tab of the dictionary is shown. *)
Definition all_hidden (ts : gmap string Tab) : Prop :=
  forall n t, ts !! n = Some t -> visible t = false.

(** The invariant a run of returning [switch_to_tab] calls keeps: the empty
    string is not a tab name (the test [if self.active_tab and ...] takes an
    active tab of that name for "no tab"), and the tabs are exclusive. *)
Definition switch_inv (m : TabManager) : Prop :=
  tabs m !! "" = None /\ tabs_exclusive m.

End TabSystem.

(** ** state.py: get_project_metadata *)

Module Metadata.
Import Project.

(** The module variables [get_project_metadata] reads beside those of
    [save_project]. A timestamp is represented by its position on the time
    line, in seconds; [data_points] is [len(data_global)] when data is
    loaded. *)
Record MetaVars : Type := mkMetaVars {
  base : Vars;
  data_points : option nat;
  has_audio : bool;
  timestamp_all : list Q
}.

(** [get_project_metadata] *)
Definition get_project_metadata (v : MetaVars) : result (list (string * pyval)) :=
  let metadata :=
    [ ("file_count", VInt (Z.of_nat (length (file_paths (base v)))));
      ("data_points", VInt (Z.of_nat (match data_points v with
                                      | Some n => n
                                      | None => 0%nat
                                      end)));
      ("has_audio", VBool (has_audio v));
      ("timezone", VStr (timezone_name (current_timezone (base v)))) ] in
  match timestamp_all v with
  | [] => Ok metadata
  | _ =>
      match py_index (timestamp_all v) 0, py_index (timestamp_all v) (-1) with
      | Ok first, Ok last =>
          Ok (dict_set
                (dict_set (dict_set metadata "start_time" (VFloat first))
                          "end_time" (VFloat last))
                "duration" (VFloat (last - first)))
      | Raise e, _ => Raise e
      | _, Raise e => Raise e
      end
  end.

End Metadata.

(** ** More sample states *)

Module Samples.
Import Filter Annotations.

(** Two saved profiles with the same name and range, built by two clicks,
    over two bins. *)
Definition twin_a : Profile :=
  {| p_obj := 0; p_name := "Pump noise"; p_range := (0%Z, 1%Z);
     p_data := [4 # 2; 6 # 2]; p_time := "" |}.
Definition twin_b : Profile :=
  {| p_obj := 1; p_name := "Pump noise"; p_range := (0%Z, 1%Z);
     p_data := [4 # 2; 6 # 2]; p_time := "" |}.

Definition twins_saved : FilterTab :=
  {| noise_profiles := [twin_a; twin_b]; active_profile := None;
     filter_intensity := 1 # 2; name_input := "";
     metadata_text := "Selection: None"; profiles_text := "";
     status_light := "gray"; status_text := "OFF"; next_obj := 2 |}.

(** A loaded profile with the filter switched on. *)
Definition filter_on : FilterTab :=
  {| noise_profiles := [twin_a]; active_profile := Some twin_a;
     filter_intensity := 1 # 2; name_input := "";
     metadata_text := "Selection: None"; profiles_text := "";
     status_light := "green"; status_text := "ON"; next_obj := 1 |}.

(** Selections over [Reference.three_frames]. *)
Definition with_selection (sel : option (Z * Z)) : State :=
  {| data_global := Some Reference.three_frames; freqs_global := Some [10; 20]%Q;
     time_labels_all := Some ["00:00:00"; "00:00:01"; "00:00:02"];
     selected_range := sel;
     spec_click_line := None; ax_fft := Some (0%Z, 120%Z);
     fft_ymin := 0; fft_ymax := 120;
     log_entries := [] |}.

(** What [create_modern_layout] leaves in [state.tab_manager]. *)
Definition left_by_layout : TabSystem.TabManager :=
  snd (TabSystem.create_modern_layout (H := Reference.ref_numlib)
         Annotations.nothing_selected TabSystem.new_manager).

(** A tab manager with a tab registered under the empty name, shown and
    active, beside a hidden tab 'x': [add_tab('', ExportTab)],
    [add_tab('x', ExportTab)], [switch_to_tab('')]. *)
Definition empty_named : TabSystem.TabManager :=
  snd (TabSystem.switch_to_tab (H := Reference.ref_numlib)
         Annotations.nothing_selected ""
         (snd (TabSystem.add_tab "x" TabSystem.ExportTab
                 (snd (TabSystem.add_tab "" TabSystem.ExportTab
                         TabSystem.new_manager))))).

(** The tabs as [add_tab] leaves them: built and hidden, and for the
    annotations tab what [build] did before it raised. *)
Definition built_export : TabSystem.Tab :=
  TabSystem.hide (snd (TabSystem.build (TabSystem.new_tab TabSystem.ExportTab))).
Definition built_filter : TabSystem.Tab :=
  TabSystem.hide (snd (TabSystem.build (TabSystem.new_tab TabSystem.FilterTab))).
Definition half_built_annotations : TabSystem.Tab :=
  snd (TabSystem.build (TabSystem.new_tab TabSystem.AnnotationsTab)).

(** The export tab once shown while nothing is selected. *)
Definition shown_export : TabSystem.Tab :=
  snd (TabSystem.show (H := Reference.ref_numlib) Annotations.nothing_selected
         built_export).

(** A filter tab as [add_tab] builds it, holding two saved profiles with the
    same name and range, the first one loaded. *)
Definition twins_tab : TabSystem.Tab :=
  {| TabSystem.fields :=
       TabSystem.FilterFields [twin_a; twin_b] (Some twin_a) (1 # 2);
     TabSystem.visible := TabSystem.visible built_filter;
     TabSystem.components := TabSystem.components built_filter;
     TabSystem.axes := TabSystem.axes built_filter;
     TabSystem.attrs := TabSystem.attrs built_filter |}.

Definition meta_sample : Metadata.MetaVars :=
  {| Metadata.base := Reference.sample_vars;
     Metadata.data_points := Some 3%nat;
     Metadata.has_audio := false;
     Metadata.timestamp_all := [100; 101; 207 # 2]%Q |}.

End Samples.

(** ** Invariants of the tab bar *)

Module TabBar.
Import TabSystem.

(** The colour [switch_to_tab] gives the button of the tab it selects. *)
Definition highlighted (b : TabButton) : Prop := color b = "#3A3A3A".

(** The empty string names no tab, the active tab is in the dictionary,
    every tab has a button, and a highlighted button is the button of the
    active tab. *)
Definition highlight_inv (m : TabManager) : Prop :=
  tabs m !! "" = None /\
  (forall a, active_tab m = Some a -> is_Some (tabs m !! a)) /\
  (forall n, is_Some (tabs m !! n) -> is_Some (tab_buttons m !! n)) /\
  (forall n b, tab_buttons m !! n = Some b -> highlighted b ->
               active_tab m = Some n).

(** A manager right after its tabs were added: no tab active, no button. *)
Definition fresh_manager (ts : gmap string Tab) : TabManager :=
  {| tabs := ts; active_tab := None; tab_buttons := ∅; log_entries := [] |}.

(** A run of [switch_to_tab] calls, each with the module state of its
    time; a call that raises leaves the manager as it was when it raised. *)
Definition run_switches `{NumLib} (m : TabManager) (steps : list (State * string))
  : TabManager :=
  fold_left (fun m step => snd (switch_to_tab (fst step) (snd step) m)) steps m.

End TabBar.

(** ** States of the analysis tab *)

Module RangeDisplay.
Import Analysis.

(** The states in which [on_find_peaks] has nothing to look at. *)
Definition nothing_clicked (st : State) : Prop :=
  freqs_global st = None \/ data_global st = None \/ spec_click_line st = None \/
  exists data ln idx,
    data_global st = Some data /\ spec_click_line st = Some ln /\
    click_index ln = Ok idx /\
    ((idx < 0)%Z \/ (Z.of_nat (length (rows data)) <= idx)%Z).

End RangeDisplay.

(** ** Selections as [on_save_profile] sees them *)

Module FilterProps.
Import Filter.

(** Nothing is selected, or no data is loaded, or an end of the selection
    is not below the number of frames. *)
Definition selection_unusable (st : State) : Prop :=
  selected_range st = None \/
  exists start end_,
    selected_range st = Some (start, end_) /\
    (data_global st = None \/
     exists data, data_global st = Some data /\
       ((Z.of_nat (length (rows data)) <= start)%Z \/
        (Z.of_nat (length (rows data)) <= end_)%Z)).

End FilterProps.

(** ** What [reset_state] writes *)

Module ResetProps.
Import ResetState.

(** The module variables [reset_state] both declares [global] and assigns. *)
Definition reset_names : list string :=
  filter (fun n => declared_global reset_state_globals n) (map fst reset_state_body).

(** A project whose click line holds no point. *)
Definition empty_click_vars : Project.Vars :=
  {| Project.file_paths := ["dive01.txt"];
     Project.time_zoom_start := 0;
     Project.time_zoom_end := 0;
     Project.gain_slider := None;
     Project.current_timezone := {| Project.tz_zone := None |};
     Project.spec_click_line := Some {| xdata := [] |};
     Project.freq_markers := [] |}.

End ResetProps.

(** ** Proof steps shared by the range callbacks *)

(** Case analysis on the two library outcomes a range callback meets: the
    formatting of a number and [set_ylim]. *)
Ltac range_cases :=
  cbn -[fmt_fixed_int Z.max Z.min];
  repeat (match goal with
          | |- context [fmt_fixed_int ?d ?z] =>
              destruct (fmt_fixed_int d z); cbn -[fmt_fixed_int Z.max Z.min]
          | |- context [set_ylim_error ?a ?b] =>
              destruct (set_ylim_error a b); cbn -[fmt_fixed_int Z.max Z.min]
          end);
  auto.

(* ===================================================================== *)
(** * Properties *)
(* ===================================================================== *)

(** ** Tab switching *)

Section TabSwitching.
Import TabSystem.
Context {L : NumLib}.

Lemma tabs_add_log_entry msg m : tabs (add_log_entry msg m) = tabs m.
Proof. reflexivity. Qed.

Lemma active_add_log_entry msg m : active_tab (add_log_entry msg m) = active_tab m.
Proof. reflexivity. Qed.

Lemma tabs_recolor n c h m : tabs (recolor n c h m) = tabs m.
Proof. unfold recolor. destruct (tab_buttons m !! n); reflexivity. Qed.

Lemma active_recolor n c h m : active_tab (recolor n c h m) = active_tab m.
Proof. unfold recolor. destruct (tab_buttons m !! n); reflexivity. Qed.

Lemma log_recolor n c h m : log_entries (recolor n c h m) = log_entries m.
Proof. unfold recolor. destruct (tab_buttons m !! n); reflexivity. Qed.

Lemma visible_hide t : visible (hide t) = false.
Proof. reflexivity. Qed.

(** An [on_show] override leaves the fields of TabBase as they are. *)
Lemma on_show_frame st t :
  visible (snd (on_show st t)) = visible t /\
  components (snd (on_show st t)) = components t /\
  axes (snd (on_show st t)) = axes t.
Proof.
  unfold on_show.
  destruct (match tab_cls t with
            | AnalysisTab => AnalysisTab_on_show st
            | FilterTab => FilterTab_on_show st
            | AnnotationsTab => AnnotationsTab_on_show st
            | ExportTab => ExportTab_on_show st
            end (attrs t, fields t)) as [r [a f]].
  simpl. auto.
Qed.

(** Its outcome depends on the instance attributes and the class fields
    only. *)
Lemma on_show_outcome st t t' :
  attrs t = attrs t' -> fields t = fields t' ->
  fst (on_show st t) = fst (on_show st t').
Proof.
  intros Ha Hf. unfold on_show, tab_cls. rewrite Ha, Hf.
  destruct (match class_of (fields t') with
            | AnalysisTab => AnalysisTab_on_show st
            | FilterTab => FilterTab_on_show st
            | AnnotationsTab => AnnotationsTab_on_show st
            | ExportTab => ExportTab_on_show st
            end (attrs t', fields t')) as [r [a f]].
  reflexivity.
Qed.

(** [show] has set [visible] whether [on_show] returns or raises. *)
Lemma visible_show st t : visible (snd (show st t)) = true.
Proof.
  unfold show, bind, modify.
  destruct (on_show_frame st
              {| fields := fields t; visible := true;
                 components := set_component_visible true <$> components t;
                 axes := (fun _ => true) <$> axes t; attrs := attrs t |})
    as (Hv & _ & _).
  exact Hv.
Qed.

Lemma show_outcome st t : fst (show st t) = fst (on_show st t).
Proof.
  unfold show, bind, modify. by apply on_show_outcome.
Qed.

Lemma has_current_tab_true m :
  has_current_tab m = true ->
  exists a, active_tab m = Some a /\ a <> "" /\ is_Some (tabs m !! a).
Proof.
  unfold has_current_tab, truthy_name.
  destruct (active_tab m) as [a|]; [|discriminate].
  intros H. apply andb_true_iff in H as [Hne Hin].
  exists a. split; [reflexivity|]. split.
  - intros ->. discriminate.
  - by apply bool_decide_eq_true in Hin.
Qed.

Lemma active_hide_current m : active_tab (hide_current m) = active_tab m.
Proof.
  unfold hide_current. destruct (has_current_tab m); [|reflexivity].
  destruct (active_tab m) eqn:Ha; [|by rewrite Ha].
  by rewrite active_recolor.
Qed.

Lemma log_hide_current m : log_entries (hide_current m) = log_entries m.
Proof.
  unfold hide_current. destruct (has_current_tab m); [|reflexivity].
  destruct (active_tab m); [|reflexivity].
  by rewrite log_recolor.
Qed.

(** The hide step touches the entry of the active tab only. *)
Lemma hide_current_other m n :
  active_tab m <> Some n -> tabs (hide_current m) !! n = tabs m !! n.
Proof.
  intros Hn. unfold hide_current. destruct (has_current_tab m); [|reflexivity].
  destruct (active_tab m) as [a|]; [|reflexivity].
  rewrite tabs_recolor. simpl. rewrite lookup_alter_ne; [reflexivity|].
  intros ->. by apply Hn.
Qed.

(** It keeps every tab in the dictionary, with its attributes and fields. *)
Lemma hide_current_lookup m n t :
  tabs m !! n = Some t ->
  exists t1, tabs (hide_current m) !! n = Some t1 /\
             attrs t1 = attrs t /\ fields t1 = fields t /\
             (visible t = false -> t1 = hide t \/ t1 = t).
Proof.
  intros Hn. unfold hide_current. destruct (has_current_tab m); [|by eauto 10].
  destruct (active_tab m) as [a|]; [|by eauto 10].
  rewrite tabs_recolor. simpl.
  destruct (decide (a = n)) as [->|Hne].
  - rewrite lookup_alter_eq, Hn. simpl. exists (hide t). auto.
  - rewrite lookup_alter_ne by done. eauto 10.
Qed.

Lemma switch_to_tab_unknown st name m :
  tabs m !! name = None ->
  switch_to_tab st name m
  = (Ok tt, add_log_entry ("Tab '" +:+ name +:+ "' not found") m).
Proof. intros H. unfold switch_to_tab. by rewrite H. Qed.

(** A switch to a known tab, by the outcome of [show] on that tab. *)
Lemma switch_to_tab_known st name m t :
  tabs m !! name = Some t ->
  exists t1,
    tabs (hide_current m) !! name = Some t1 /\
    attrs t1 = attrs t /\ fields t1 = fields t /\
    switch_to_tab st name m
    = match show st t1 with
      | (Raise e, t') => (Raise e, set_tabs (insert name t') (hide_current m))
      | (Ok _, t') =>
          (Ok tt,
           add_log_entry ("Switched to " +:+ name +:+ " tab")
             (recolor name "#3A3A3A" "#444444"
                (set_active name (set_tabs (insert name t') (hide_current m)))))
      end.
Proof.
  intros Hn.
  destruct (hide_current_lookup m name t Hn) as (t1 & H1 & Ha & Hf & _).
  exists t1. split; [exact H1|]. split; [exact Ha|]. split; [exact Hf|].
  unfold switch_to_tab. by rewrite Hn, H1.
Qed.

(** After a switch to a known tab that tab is visible, whatever the outcome. *)
Lemma switch_to_tab_target_visible st name m t :
  tabs m !! name = Some t ->
  exists t', tabs (snd (switch_to_tab st name m)) !! name = Some t' /\
             visible t' = true.
Proof.
  intros Hn.
  destruct (switch_to_tab_known st name m t Hn) as (t1 & _ & _ & _ & ->).
  pose proof (visible_show st t1) as Hv.
  destruct (show st t1) as [[[]|e] t']; simpl in *.
  - exists t'. rewrite tabs_recolor. simpl. by rewrite lookup_insert_eq.
  - exists t'. by rewrite lookup_insert_eq.
Qed.

(** A switch leaves every tab alone that is neither the target nor the
    active tab. *)
Lemma switch_to_tab_other st name m n :
  n <> name -> active_tab m <> Some n ->
  tabs (snd (switch_to_tab st name m)) !! n = tabs m !! n.
Proof.
  intros Hne Hact.
  destruct (tabs m !! name) as [t|] eqn:Hn.
  - destruct (switch_to_tab_known st name m t Hn) as (t1 & _ & _ & _ & ->).
    destruct (show st t1) as [[[]|e] t']; simpl.
    + rewrite tabs_recolor. simpl. rewrite lookup_insert_ne by done.
      by apply hide_current_other.
    + rewrite lookup_insert_ne by done. by apply hide_current_other.
  - by rewrite switch_to_tab_unknown.
Qed.

(** C1 (as the code behaves): the tabs are not mutually exclusive. In the
    manager [create_modern_layout] leaves behind, a first
    [switch_to_tab('annotations')] makes the annotations tab visible and then
    raises AttributeError from its [on_show] (the tab has no
    [annotations_text]), so [active_tab] is not set: a visible tab is not the
    one recorded in [active_tab]. A following [switch_to_tab('filter')] hides
    nothing and shows the filter tab: two tabs are visible. This holds
    whatever the module state is at the three calls. *)
Theorem switch_to_tab_leaves_two_visible (st0 st1 st2 : State) :
  let m0 := snd (create_modern_layout st0 new_manager) in
  let r1 := switch_to_tab st1 "annotations" m0 in
  let r2 := switch_to_tab st2 "filter" (snd r1) in
  fst r1
  = Raise (AttributeError
             "'AnnotationsTab' object has no attribute 'annotations_text'") /\
  active_tab (snd r1) = None /\
  (exists tN, tabs (snd r1) !! "annotations" = Some tN /\ visible tN = true) /\
  ~ tabs_exclusive (snd r1) /\
  (exists tN tF,
      tabs (snd r2) !! "annotations" = Some tN /\ visible tN = true /\
      tabs (snd r2) !! "filter" = Some tF /\ visible tF = true) /\
  ~ tabs_exclusive (snd r2).
Proof.
  cbv zeta.
  set (m1 := snd (switch_to_tab st1 "annotations"
                    (snd (create_modern_layout st0 new_manager)))).
  assert (Hraise : fst (switch_to_tab st1 "annotations"
                          (snd (create_modern_layout st0 new_manager)))
                   = Raise (AttributeError
                       "'AnnotationsTab' object has no attribute 'annotations_text'"))
    by (vm_compute; reflexivity).
  assert (Hact : active_tab m1 = None) by (vm_compute; reflexivity).
  assert (HN : exists tN, tabs m1 !! "annotations" = Some tN /\ visible tN = true)
    by (eexists; split; vm_compute; reflexivity).
  assert (HF : exists tF, tabs m1 !! "filter" = Some tF)
    by (eexists; vm_compute; reflexivity).
  clearbody m1.
  destruct HN as (tN & HtN & HvN). destruct HF as (tF & HtF).
  destruct (switch_to_tab_target_visible st2 "filter" m1 tF HtF)
    as (tF' & HtF' & HvF').
  assert (HtN' : tabs (snd (switch_to_tab st2 "filter" m1)) !! "annotations"
                 = Some tN).
  { rewrite switch_to_tab_other; [exact HtN|discriminate|].
    rewrite Hact. discriminate. }
  split; [exact Hraise|]. split; [exact Hact|].
  split; [by exists tN|]. split; [|split].
  - intros [_ Hex]. specialize (Hex "annotations" tN HtN HvN). congruence.
  - by exists tN, tF'.
  - intros [Hex _].
    specialize (Hex "annotations" "filter" tN tF' HtN' HvN HtF' HvF').
    discriminate.
Qed.

(** The three builds other than the annotations tab return. *)
Lemma build_returns_except_annotations cls :
  cls <> AnnotationsTab -> fst (build (new_tab cls)) = Ok tt.
Proof. destruct cls; intros H; try reflexivity. congruence. Qed.

(** C2 (as the code behaves): [create_modern_layout] does not construct the
    four tabs. [AnnotationsTab.build] raises a TypeError at its second
    [self.create_section(...)], the exception leaves [add_tab] and the layout
    function, the tab dictionary holds 'analysis', 'filter' and the
    half-built 'annotations', no 'export' tab is ever added and no tab is
    activated. *)
Theorem create_modern_layout_raises (st : State) :
  let r := create_modern_layout st new_manager in
  fst r = Raise (TypeError "'Axes' object is not callable") /\
  dom (tabs (snd r)) = {["analysis"; "filter"; "annotations"]} /\
  tabs (snd r) !! "export" = None /\
  active_tab (snd r) = None.
Proof.
  cbv zeta. repeat split; vm_compute; reflexivity.
Qed.

End TabSwitching.

(** ** The FFT display range *)

Section FftRange.
Import Analysis.
Context {P : PlotLib}.

(** The range a callback leaves in the tab is written before anything in
    it can raise. *)
Lemma adjust_fft_min_fields delta self st :
  fft_min_val (fst (snd (adjust_fft_min delta (self, st))))
  = Z.min (Z.max (fft_min_val self + delta) (-20)) (fft_max_val self - 10) /\
  fft_max_val (fst (snd (adjust_fft_min delta (self, st)))) = fft_max_val self.
Proof.
  unfold adjust_fft_min, update_range_display, set_ylim, bind, ret, modify, gets,
    lift, on_fst, on_snd.
  cbn -[fmt_fixed_int Z.max Z.min].
  destruct (ax_fft st); range_cases.
Qed.

Lemma adjust_fft_max_fields delta self st :
  fft_max_val (fst (snd (adjust_fft_max delta (self, st))))
  = Z.max (fft_max_val self + delta) (fft_min_val self + 10) /\
  fft_min_val (fst (snd (adjust_fft_max delta (self, st)))) = fft_min_val self.
Proof.
  unfold adjust_fft_max, update_range_display, set_ylim, bind, ret, modify, gets,
    lift, on_fst, on_snd.
  cbn -[fmt_fixed_int Z.max Z.min].
  destruct (ax_fft st); range_cases.
Qed.

Lemma on_reset_fft_fields self st :
  fft_min_val (fst (snd (on_reset_fft (self, st)))) = 0%Z /\
  fft_max_val (fst (snd (on_reset_fft (self, st)))) = 120%Z.
Proof.
  unfold on_reset_fft, update_range_display, set_ylim, bind, ret, modify, gets,
    lift, on_fst, on_snd.
  cbn -[fmt_fixed_int Z.max Z.min].
  destruct (ax_fft st); range_cases.
Qed.

Lemma adjust_fft_min_inv delta w :
  fft_range_inv (fst w) -> fft_range_inv (fst (snd (adjust_fft_min delta w))).
Proof.
  destruct w as [self st]. unfold fft_range_inv.
  destruct (adjust_fft_min_fields delta self st) as [-> ->]. simpl. lia.
Qed.

Lemma adjust_fft_max_inv delta w :
  fft_range_inv (fst w) -> fft_range_inv (fst (snd (adjust_fft_max delta w))).
Proof.
  destruct w as [self st]. unfold fft_range_inv.
  destruct (adjust_fft_max_fields delta self st) as [-> ->]. simpl. lia.
Qed.

Lemma on_reset_fft_inv w : fft_range_inv (fst (snd (on_reset_fft w))).
Proof.
  destruct w as [self st]. unfold fft_range_inv.
  destruct (on_reset_fft_fields self st) as [-> ->]. lia.
Qed.

Lemma run_call_inv c w :
  fft_range_inv (fst w) -> fft_range_inv (fst (run_call w c)).
Proof.
  destruct c; unfold run_call; intros H.
  - by apply adjust_fft_min_inv.
  - by apply adjust_fft_max_inv.
  - apply on_reset_fft_inv.
Qed.

Lemma run_calls_inv calls w :
  fft_range_inv (fst w) -> fft_range_inv (fst (fold_left run_call calls w)).
Proof.
  revert w. induction calls as [|c calls IH]; intros w H; simpl; [exact H|].
  apply IH. by apply run_call_inv.
Qed.

(** C9: from [fft_min_val = 0], [fft_max_val = 120], every finite sequence
    of [adjust_fft_min(delta)], [adjust_fft_max(delta)] (any integer deltas)
    and [on_reset_fft] calls keeps [fft_min_val >= -20] and
    [fft_max_val >= fft_min_val + 10], whatever the module state is and
    whether the calls return or raise. *)
Theorem fft_range_keeps_gap (st : State) (calls : list range_call) :
  fft_range_inv (fst (fold_left run_call calls (init, st))).
Proof.
  apply run_calls_inv. unfold fft_range_inv. simpl. lia.
Qed.

End FftRange.

(** ** The filter toggle *)

Section FilterToggle.
Import Filter.

(** C4: [on_toggle_filter] never touches the data. Whatever the active
    profile and the filter status, [data_global], [freqs_global] and the list
    of saved noise profiles are as before, and so is everything else except
    the status light, the status text and the log, which grows by exactly
    one entry. *)
Theorem on_toggle_filter_only_logs (self : FilterTab) (st : State) :
  let self' := fst (on_toggle_filter (self, st)) in
  let st' := snd (on_toggle_filter (self, st)) in
  data_global st' = data_global st /\
  freqs_global st' = freqs_global st /\
  noise_profiles self' = noise_profiles self /\
  set_status (status_light self) (status_text self) self' = self /\
  (exists msg,
      st' = add_log_entry msg st /\
      log_entries st' = log_entries st ++ [msg]).
Proof.
  cbv zeta. unfold on_toggle_filter.
  destruct self as [nps act fi ni mt pt sl stx no]; simpl.
  destruct act as [p|]; [destruct (String.eqb stx "ON")|]; simpl;
    repeat split; eauto.
Qed.

(** The intensity slider, too, leaves the data alone. *)
Lemma on_intensity_change_frame (val : Q) (self : FilterTab) (st : State) :
  let st' := snd (on_intensity_change val (self, st)) in
  data_global st' = data_global st /\ freqs_global st' = freqs_global st /\
  noise_profiles (fst (on_intensity_change val (self, st))) = noise_profiles self.
Proof. cbv zeta. simpl. auto. Qed.

End FilterToggle.

(** ** Adding an annotation *)

Section AddAnnotation.
Import Annotations.

Lemma py_index_defined {A} (l : list A) (i : Z) :
  (- Z.of_nat (length l) <= i < Z.of_nat (length l))%Z ->
  exists x, py_index l i = Ok x.
Proof.
  intros Hi. unfold py_index.
  set (j := if (i <? 0)%Z then _ else i).
  assert (Hj : (0 <= j < Z.of_nat (length l))%Z).
  { subst j. destruct (Z.ltb_spec i 0); lia. }
  replace ((0 <=? j)%Z && (j <? Z.of_nat (length l))%Z) with true
    by (symmetry; apply andb_true_iff; split; [apply Z.leb_le|apply Z.ltb_lt]; lia).
  destruct (l !! Z.to_nat j) as [x|] eqn:Hl; [eauto|].
  apply lookup_ge_None in Hl. lia.
Qed.

Lemma annotation_time_range_defined st start end_ :
  label_lookup_defined st start end_ ->
  exists tr, annotation_time_range (time_labels_all st) start end_ = Ok tr.
Proof.
  unfold label_lookup_defined, annotation_time_range.
  destruct (time_labels_all st) as [tl|]; [|eauto].
  intros H.
  destruct (Z.ltb_spec start (Z.of_nat (length tl))) as [Hs|Hs];
    destruct (Z.ltb_spec end_ (Z.of_nat (length tl))) as [He|He]; simpl; eauto.
  destruct (H Hs He) as [Hs' He'].
  destruct (py_index_defined tl start) as [x ->]; [lia|].
  destruct (py_index_defined tl end_) as [y ->]; [lia|]. eauto.
Qed.

Lemma py_index_before_first {A} (l : list A) (i : Z) :
  (i < - Z.of_nat (length l))%Z ->
  py_index l i = Raise (IndexError "index out of range").
Proof.
  intros Hi. unfold py_index.
  replace (i <? 0)%Z with true by (symmetry; apply Z.ltb_lt; lia).
  replace (0 <=? i + Z.of_nat (length l))%Z with false
    by (symmetry; apply Z.leb_gt; lia).
  reflexivity.
Qed.

Lemma annotation_time_range_raises tl start end_ :
  (start < Z.of_nat (length tl))%Z -> (end_ < Z.of_nat (length tl))%Z ->
  (start < - Z.of_nat (length tl) \/ end_ < - Z.of_nat (length tl))%Z ->
  annotation_time_range (Some tl) start end_
  = Raise (IndexError "index out of range").
Proof.
  intros Hs He Hlow. unfold annotation_time_range.
  replace (start <? Z.of_nat (length tl))%Z with true
    by (symmetry; apply Z.ltb_lt; lia).
  replace (end_ <? Z.of_nat (length tl))%Z with true
    by (symmetry; apply Z.ltb_lt; lia).
  simpl.
  destruct (Z.lt_ge_cases start (- Z.of_nat (length tl))) as [Hlt|Hge].
  - by rewrite py_index_before_first.
  - destruct (py_index_defined tl start) as [x ->]; [lia|].
    destruct Hlow as [Hlow|Hlow]; [lia|].
    by rewrite py_index_before_first.
Qed.

(** C7 (as the code behaves): the test at line 995 bounds the two indices
    from above only. When [start] and [end] are below the number of time
    labels and one of them lies before the first label counted from the end
    (below [-len(time_labels_all)]), the lookup at line 996 raises IndexError
    before the annotation is appended: no annotation is added and nothing is
    logged, where the claim has one annotation appended for every selected
    pair. *)
Theorem on_add_annotation_index_error (now : string) (self : AnnotationsTab)
    (st : State) (tl : list string) (start end_ : Z) :
  selected_range st = Some (start, end_) ->
  time_labels_all st = Some tl ->
  (start < Z.of_nat (length tl))%Z -> (end_ < Z.of_nat (length tl))%Z ->
  (start < - Z.of_nat (length tl) \/ end_ < - Z.of_nat (length tl))%Z ->
  on_add_annotation now (self, st)
  = (Raise (IndexError "index out of range"), (self, st)).
Proof.
  intros Hsel Htl Hs He Hlow.
  unfold on_add_annotation, bind, gets, lift. cbn [fst snd].
  rewrite Hsel. cbn [fst snd]. rewrite Htl.
  by rewrite (annotation_time_range_raises tl start end_ Hs He Hlow).
Qed.

Lemma on_add_annotation_index_error_witness :
  on_add_annotation "2024-01-01 00:00:00" (init, negative_selection)
  = (Raise (IndexError "index out of range"), (init, negative_selection)).
Proof.
  apply (on_add_annotation_index_error "2024-01-01 00:00:00" init
           negative_selection ["00:00:00"] (-2) 0).
  - reflexivity.
  - reflexivity.
  - simpl. lia.
  - simpl. lia.
  - simpl. lia.
Defined.

Lemma nonneg_selection_defined st start end_ :
  (0 <= start)%Z -> (0 <= end_)%Z -> label_lookup_defined st start end_.
Proof.
  intros Hs He. unfold label_lookup_defined.
  destruct (time_labels_all st); [|exact I]. lia.
Qed.

End AddAnnotation.

(** ** reset_state *)

Section ResetState.
Import ResetState.

Lemma exec_lookup decl body fr name :
  globals (exec decl body fr) !! name
  = last_global_assign decl body name (globals fr !! name).
Proof.
  revert fr. induction body as [|[n v] body IH]; intros fr; [reflexivity|].
  unfold exec in *. simpl. rewrite IH. f_equal.
  destruct (declared_global decl n); simpl; [|reflexivity].
  destruct (String.eqb_spec n name) as [->|Hne].
  - by rewrite lookup_insert_eq.
  - by rewrite lookup_insert_ne.
Qed.

Lemma reset_state_lookup g name :
  reset_state g !! name
  = last_global_assign reset_state_globals reset_state_body name (g !! name).
Proof. unfold reset_state. by rewrite exec_lookup. Qed.

(** Every variable that [reset_state] declares [global] and assigns is back
    at its initial value. *)
Lemma reset_state_restores_declared (g : namespace) :
  Forall (fun name => reset_state g !! name = initial_namespace !! name)
         (filter (declared_global reset_state_globals) (map fst reset_state_body)).
Proof.
  vm_compute filter.
  repeat (apply Forall_cons; split; [rewrite reset_state_lookup; reflexivity|]).
  apply Forall_nil_2.
Qed.

(** The seven variables assigned without a [global] declaration keep the
    value they had before the call. *)
Lemma reset_state_skips_undeclared (g : namespace) :
  Forall (fun name => reset_state g !! name = g !! name)
         [ "current_timezone"; "fft_ymin"; "fft_ymax"; "freq_markers";
           "file_scroll_position"; "visible_files"; "scroll_position" ].
Proof.
  repeat (apply Forall_cons; split; [rewrite reset_state_lookup; reflexivity|]).
  apply Forall_nil_2.
Qed.

Example reset_state_counts :
  length reset_state_globals = 52%nat /\ length reset_state_body = 41%nat /\
  length initial_values = 63%nat.
Proof. repeat split; reflexivity. Qed.

Lemma assigned_not_global_names :
  assigned_not_global
  = [ "current_timezone"; "fft_ymin"; "fft_ymax"; "freq_markers";
      "file_scroll_position"; "visible_files"; "scroll_position" ].
Proof. vm_compute. reflexivity. Qed.

(** C8 (as the code behaves): after the session changed the timezone, the
    FFT range, a frequency marker, the scroll positions and the number of
    visible files, [reset_state()] leaves all seven as they are, none is back
    at its initial value, whereas the variables declared [global]
    ([data_global], [file_paths], [time_zoom_start]) are reset. *)
Theorem reset_state_keeps_session_values :
  let g := used_namespace in
  let g' := reset_state g in
  g' !! "current_timezone" = Some (VObj "US/Eastern") /\
  g' !! "fft_ymin" = Some (VInt 20) /\
  g' !! "fft_ymax" = Some (VInt 90) /\
  g' !! "freq_markers" = g !! "freq_markers" /\
  g' !! "freq_markers" <> Some empty_markers /\
  g' !! "file_scroll_position" = Some (VInt 3) /\
  g' !! "visible_files" = Some (VInt 8) /\
  g' !! "scroll_position" = Some (VInt 5) /\
  g' !! "data_global" = Some VNone /\
  g' !! "file_paths" = Some (VList []) /\
  g' !! "time_zoom_start" = Some (VInt 0).
Proof.
  cbv zeta. rewrite !reset_state_lookup.
  repeat split; try (vm_compute; reflexivity).
  vm_compute. discriminate.
Qed.

End ResetState.

(** ** Saving and loading a project *)

Section ProjectFiles.
Import Project.
Context `{E : Env}.

Lemma marker_freqs_map ms : marker_freqs ms = map mk_freq ms.
Proof.
  unfold marker_freqs.
  assert (H : forall acc, fold_left (fun acc m => acc ++ [mk_freq m]) ms acc
                          = acc ++ map mk_freq ms).
  { induction ms as [|m ms IH]; intros acc; simpl.
    - by rewrite app_nil_r.
    - rewrite IH, <- app_assoc. reflexivity. }
  apply (H []).
Qed.

(** The four entries of the dictionary that the round trip is about. *)
Lemma state_dict_entries v d :
  state_dict v = Ok d ->
  dict_get d "file_paths" = Some (VList (map VStr (file_paths v))) /\
  dict_get d "time_zoom"
    = Some (VTuple [VInt (time_zoom_start v); VInt (time_zoom_end v)]) /\
  dict_get d "current_timezone" = Some (VStr (timezone_name (current_timezone v))) /\
  dict_get d "freq_markers" = Some (VList (map mk_freq (freq_markers v))).
Proof.
  unfold state_dict. intros H.
  destruct (spec_click_line v) as [ln|].
  - destruct (click_index ln) as [i|e]; [|discriminate].
    injection H as <-.
    rewrite marker_freqs_map. repeat split; reflexivity.
  - injection H as <-.
    rewrite marker_freqs_map. repeat split; reflexivity.
Qed.

Lemma save_body_written filepath w w' :
  save_body filepath w = (Ok tt, w') <-> (written filepath w w' /\ w' = set_fs (fs w') w).
Proof.
  unfold save_body, written. split.
  - intros H.
    destruct (state_dict (vars w)) as [d|e] eqn:Hd; [|discriminate].
    destruct (fs_open_wb filepath (fs w)) as [[[]|e] fs1] eqn:Ho; [|discriminate].
    destruct (pickle_dumps (VDict d)) as [b|e] eqn:Hp; [|discriminate].
    destruct (fs_write filepath b fs1) as [[[]|e] fs2] eqn:Hw; [|discriminate].
    injection H as <-. simpl. split; [|reflexivity].
    exists d, fs1, b. auto.
  - intros [(d & fs1 & b & Hd & Ho & Hp & Hw) Hw'].
    rewrite Hd, Ho, Hp, Hw. by rewrite Hw'.
Qed.

Lemma save_body_raises filepath w e :
  fst (save_body filepath w) = Raise e <-> save_step_raised filepath w e.
Proof.
  unfold save_body, save_step_raised. split.
  - intros H.
    destruct (state_dict (vars w)) as [d|e0] eqn:Hd.
    2:{ left. simpl in H. congruence. }
    right. exists d. split; [reflexivity|].
    destruct (fs_open_wb filepath (fs w)) as [[[]|e0] fs1] eqn:Ho.
    2:{ left. exists fs1. simpl in H. congruence. }
    right. exists fs1. split; [reflexivity|].
    destruct (pickle_dumps (VDict d)) as [b|e0] eqn:Hp.
    2:{ left. simpl in H. congruence. }
    right. exists b.
    destruct (fs_write filepath b fs1) as [[[]|e0] fs2] eqn:Hw; [discriminate|].
    exists fs2. split; [reflexivity|]. simpl in H. congruence.
  - intros [Hd|(d & Hd & [[fs1 Ho]|(fs1 & Ho & [Hp|(b & fs2 & Hp & Hw)])])].
    + by rewrite Hd.
    + by rewrite Hd, Ho.
    + by rewrite Hd, Ho, Hp.
    + by rewrite Hd, Ho, Hp, Hw.
Qed.


Context {L : EnvLaws E}.


End ProjectFiles.

(** ** Saving a noise profile *)

Section SaveProfile.
Import Filter.

Lemma py_index_nat {A} (l : list A) (a : nat) (x : A) :
  l !! a = Some x -> py_index l (Z.of_nat a) = Ok x.
Proof.
  intros Hx. pose proof (lookup_lt_Some _ _ _ Hx) as Hlt.
  unfold py_index.
  replace (Z.of_nat a <? 0)%Z with false by (symmetry; apply Z.ltb_ge; lia).
  replace ((0 <=? Z.of_nat a)%Z && (Z.of_nat a <? Z.of_nat (length l))%Z) with true
    by (symmetry; apply andb_true_iff; split; [apply Z.leb_le|apply Z.ltb_lt]; lia).
  by rewrite Nat2Z.id, Hx.
Qed.

Lemma collect_frames_seq data n a :
  (a + n <= length data)%nat ->
  collect_frames data (map Z.of_nat (seq a n)) = Ok (take n (drop a data)).
Proof.
  revert a. induction n as [|n IH]; intros a Hlen; simpl.
  - by rewrite take_0.
  - destruct (data !! a) as [x|] eqn:Hx.
    2:{ apply lookup_ge_None in Hx. lia. }
    rewrite (py_index_nat _ _ _ Hx), IH by lia.
    by rewrite (drop_S _ _ _ Hx).
Qed.

Lemma map_offset_seq (a n k : nat) :
  map (fun i => (Z.of_nat a + Z.of_nat i)%Z) (seq k n) = map Z.of_nat (seq (a + k) n).
Proof.
  revert k. induction n as [|n IH]; intros k; simpl; [reflexivity|].
  f_equal; [lia|]. rewrite IH. f_equal. f_equal. lia.
Qed.

Lemma py_range_seq start stop :
  (0 <= start)%Z ->
  py_range start stop = map Z.of_nat (seq (Z.to_nat start) (Z.to_nat (stop - start))).
Proof.
  intros Hs. unfold py_range.
  rewrite <- (Nat.add_0_r (Z.to_nat start)), <- map_offset_seq.
  by rewrite Z2Nat.id by lia.
Qed.

Lemma collect_frames_selection data start end_ :
  (0 <= start)%Z -> (start <= end_)%Z -> (end_ < Z.of_nat (length data))%Z ->
  collect_frames data (py_range start (end_ + 1))
  = Ok (selected_frames data start end_).
Proof.
  intros H0 H1 H2. rewrite py_range_seq by lia.
  replace (end_ + 1 - start)%Z with (end_ - start + 1)%Z by lia.
  apply collect_frames_seq. lia.
Qed.

Lemma selected_frames_nonempty data start end_ :
  (0 <= start)%Z -> (start <= end_)%Z -> (end_ < Z.of_nat (length data))%Z ->
  selected_frames data start end_ <> [].
Proof.
  intros H0 H1 H2 Hnil. apply (f_equal length) in Hnil.
  unfold selected_frames in Hnil. rewrite length_take, length_drop in Hnil.
  simpl in Hnil. lia.
Qed.

Lemma selected_frames_rect data start end_ nb :
  Forall (fun r => length r = nb) data ->
  Forall (fun r => length r = nb) (selected_frames data start end_).
Proof.
  intros H. unfold selected_frames. by apply Forall_take, Forall_drop.
Qed.

Lemma vstack_rect rows nb :
  rows <> [] -> Forall (fun r => length r = nb) rows -> vstack rows = Ok rows.
Proof.
  intros Hne Hrect. destruct rows as [|r rs]; [done|]. simpl.
  apply Forall_cons in Hrect as [Hr Hrs].
  replace (forallb _ rs) with true; [reflexivity|].
  symmetry. apply forallb_forall. intros r' Hin.
  apply Nat.eqb_eq. rewrite Forall_forall in Hrs.
  rewrite Hr. apply Hrs. by apply list_elem_of_In.
Qed.

Lemma row_add_length a b nb :
  length a = nb -> length b = nb -> length (row_add a b) = nb.
Proof.
  revert b nb. induction a as [|x a IH]; intros [|y b] nb Ha Hb;
    simpl in *; try congruence.
  destruct nb; [discriminate|]. f_equal. apply IH; congruence.
Qed.

Lemma row_add_nth a b j :
  length a = length b -> (j < length a)%nat ->
  nth j (row_add a b) 0%Q = (nth j a 0 + nth j b 0)%Q.
Proof.
  revert b j. induction a as [|x a IH]; intros [|y b] j Hlen Hj;
    simpl in *; try lia.
  destruct j; [reflexivity|]. apply IH; lia.
Qed.

Lemma fold_row_add rs acc nb :
  length acc = nb -> Forall (fun r => length r = nb) rs ->
  length (fold_left row_add rs acc) = nb /\
  forall j, (j < nb)%nat ->
    nth j (fold_left row_add rs acc) 0%Q
    = fold_left Qplus (map (fun r => nth j r 0%Q) rs) (nth j acc 0%Q).
Proof.
  revert acc. induction rs as [|r rs IH]; intros acc Hacc Hrs; simpl.
  - auto.
  - apply Forall_cons in Hrs as [Hr Hrs].
    destruct (IH (row_add acc r) (row_add_length _ _ _ Hacc Hr) Hrs) as [Hlen Hnth].
    split; [exact Hlen|]. intros j Hj.
    rewrite Hnth by exact Hj. f_equal. apply row_add_nth; congruence.
Qed.

Lemma nth_map_in {A B} (f : A -> B) (l : list A) (j : nat) (d : B) (d' : A) :
  (j < length l)%nat -> nth j (map f l) d = f (nth j l d').
Proof.
  revert j. induction l as [|x l IH]; intros [|j] Hj; simpl in *; try lia.
  - reflexivity.
  - apply IH. lia.
Qed.

(** The stacked mean is, bin by bin, the arithmetic mean of the frames. *)
Lemma mean_axis0_bin_mean rows nb :
  rows <> [] -> Forall (fun r => length r = nb) rows ->
  mean_axis0 rows = map (bin_mean rows) (seq 0 nb).
Proof.
  intros Hne Hrect. destruct rows as [|r rs]; [done|].
  apply Forall_cons in Hrect as [Hr Hrs].
  destruct (fold_row_add rs r nb Hr Hrs) as [Hlen Hnth].
  unfold mean_axis0.
  apply (nth_ext _ _ 0%Q 0%Q).
  - by rewrite !length_map, length_seq.
  - intros j Hj. rewrite length_map, Hlen in Hj.
    rewrite (nth_map_in _ _ j 0%Q 0%Q) by (by rewrite Hlen).
    rewrite (nth_map_in _ _ j 0%Q 0%nat) by (by rewrite length_seq).
    rewrite seq_nth by exact Hj.
    unfold bin_mean. simpl Nat.add. by rewrite Hnth.
Qed.

Lemma label_or_na_defined tl i :
  (0 <= i)%Z -> exists s, label_or_na tl i = Ok s.
Proof.
  intros Hi. unfold label_or_na.
  destruct (Z.ltb_spec i (Z.of_nat (length tl))); [|eauto].
  destruct (tl !! Z.to_nat i) as [x|] eqn:Hx.
  - exists x. rewrite <- (Z2Nat.id i) by lia. by apply py_index_nat.
  - apply lookup_ge_None in Hx. lia.
Qed.

Lemma profile_time_defined labels start end_ :
  (0 <= start)%Z -> (0 <= end_)%Z ->
  exists s, profile_time labels start end_ = Ok s.
Proof.
  intros Hs He. unfold profile_time. destruct labels as [tl|]; [|eauto].
  destruct (label_or_na_defined tl start Hs) as [s1 ->].
  destruct (label_or_na_defined tl end_ He) as [s2 ->]. eauto.
Qed.

(** Refreshing the list display, whether it returns or raises, leaves the
    list of profiles as it is. *)
Lemma update_profiles_display_keeps self :
  noise_profiles (snd (update_profiles_display self)) = noise_profiles self.
Proof.
  unfold update_profiles_display.
  destruct (noise_profiles self) as [|p ps] eqn:Hps; [exact Hps|].
  destruct (profiles_blocks (active_profile self) 0 (p :: ps)); exact Hps.
Qed.

Lemma rows_rectangular (data : Frames) :
  Forall (fun r => length r = nbins data) (rows data).
Proof.
  apply List.Forall_forall. intros r Hr.
  pose proof (rows_rect data) as H. rewrite forallb_forall in H.
  by apply Nat.eqb_eq, H.
Qed.

(** C3: for a selection [(start, end)] with [0 <= start <= end <
    len(data_global)] and [data_global] loaded, [on_save_profile] appends
    exactly one profile to [noise_profiles]; its 'range' is [(start, end)]
    and its 'data' holds, for each frequency bin, the arithmetic mean of that
    bin over the frames [start] to [end], both included. *)
Theorem on_save_profile_mean (self : FilterTab) (st : State)
    (data : Frames) (start end_ : Z) :
  data_global st = Some data ->
  selected_range st = Some (start, end_) ->
  (0 <= start)%Z -> (start <= end_)%Z -> (end_ < Z.of_nat (length (rows data)))%Z ->
  exists p,
    noise_profiles (fst (snd (on_save_profile (self, st))))
      = noise_profiles self ++ [p] /\
    p_range p = (start, end_) /\
    p_data p = map (bin_mean (selected_frames (rows data) start end_))
                   (seq 0 (nbins data)).
Proof.
  intros Hdata Hsel H0 H1 H2.
  pose proof (rows_rectangular data) as Hrect.
  unfold on_save_profile. rewrite Hsel, Hdata.
  replace ((start <? Z.of_nat (length (rows data)))%Z
           && (end_ <? Z.of_nat (length (rows data)))%Z)
    with true by (symmetry; apply andb_true_iff; split; apply Z.ltb_lt; lia).
  rewrite (collect_frames_selection (rows data) start end_ H0 H1 H2).
  pose proof (selected_frames_nonempty (rows data) start end_ H0 H1 H2) as Hne.
  pose proof (selected_frames_rect (rows data) start end_ _ Hrect) as Hrect'.
  rewrite (vstack_rect _ _ Hne Hrect').
  destruct (profile_time_defined (time_labels_all st) start end_) as [tm ->]; [lia..|].
  rewrite (mean_axis0_bin_mean _ _ Hne Hrect').
  match goal with
  | |- context [update_profiles_display ?s] =>
      pose proof (update_profiles_display_keeps s) as Hupd
  end.
  match goal with
  | |- context [append_profile ?p self] => exists p
  end.
  split; [|split; reflexivity].
  destruct (update_profiles_display _) as [[[]|e] self']; simpl in *; exact Hupd.
Qed.

End SaveProfile.

(** ** Finding peaks *)

Section FindPeaks.
Import Analysis.
Context {L : NumLib} {LL : NumLibLaws L}.

Lemma fancy_index_map a idx :
  Forall (fun i => (i < length a)%nat) idx ->
  fancy_index a idx = Ok (map (fun i => nth i a 0%Q) idx).
Proof.
  induction 1 as [|i idx Hi _ IH]; simpl; [reflexivity|].
  destruct (a !! i) as [x|] eqn:Hx.
  - rewrite IH. by rewrite (nth_lookup_Some _ _ 0%Q _ Hx).
  - apply lookup_ge_None in Hx. lia.
Qed.

Lemma argsort_in_range a : Forall (fun i => (i < length a)%nat) (argsort a).
Proof.
  apply List.Forall_forall. intros i Hi.
  apply (Permutation_in _ (argsort_perm a)) in Hi.
  apply in_seq in Hi. lia.
Qed.

Lemma StronglySorted_rev_flip {A} (R : A -> A -> Prop) l :
  StronglySorted R l -> StronglySorted (fun x y => R y x) (rev l).
Proof.
  induction 1 as [|x l Hl IH Hx]; simpl; [constructor|].
  apply StronglySorted_app_2; [|exact IH|repeat constructor].
  intros x1 x2 H1 H2. apply list_elem_of_singleton in H2 as ->.
  rewrite List.Forall_forall in Hx. apply Hx.
  apply in_rev. by apply list_elem_of_In.
Qed.

Lemma StronglySorted_take {A} (R : A -> A -> Prop) n l :
  StronglySorted R l -> StronglySorted R (take n l).
Proof.
  intros H. rewrite <- (take_drop n l) in H.
  by apply StronglySorted_app_1_l in H.
Qed.

Lemma StronglySorted_of_map {A B} (f : A -> B) (R : B -> B -> Prop) l :
  StronglySorted R (map f l) -> StronglySorted (fun x y => R (f x) (f y)) l.
Proof.
  induction l as [|x l IH]; simpl; intros H; [constructor|].
  apply StronglySorted_inv in H as [Hl Hx]. constructor; [by apply IH|].
  rewrite List.Forall_forall in *. intros y Hy. apply Hx. by apply in_map.
Qed.

Lemma StronglySorted_to_map {A B} (f : A -> B) (R : B -> B -> Prop) l :
  StronglySorted (fun x y => R (f x) (f y)) l -> StronglySorted R (map f l).
Proof.
  induction 1 as [|x l Hl IH Hx]; simpl; constructor; [exact IH|].
  rewrite List.Forall_forall in *. intros y Hy.
  apply in_map_iff in Hy as (z & <- & Hz). by apply Hx.
Qed.

Lemma zip_map_same {A B C} (f : A -> B) (g : A -> C) (l : list A) :
  zip (map f l) (map g l) = map (fun x => (f x, g x)) l.
Proof. induction l as [|x l IH]; simpl; [reflexivity|]. by rewrite IH. Qed.

Lemma zip_take_both {A B} n (a : list A) (b : list B) :
  zip (take n a) (take n b) = take n (zip a b).
Proof.
  revert a b. induction n as [|n IH]; intros [|x a] [|y b]; simpl; try reflexivity.
  by rewrite IH.
Qed.

Lemma map_nth_seq_id {A} (l : list A) (d : A) :
  map (fun k => nth k l d) (seq 0 (length l)) = l.
Proof.
  apply (nth_ext _ _ d d).
  - by rewrite length_map, length_seq.
  - intros k Hk. rewrite length_map, length_seq in Hk.
    rewrite (nth_map_in _ _ k d 0%nat) by (by rewrite length_seq).
    by rewrite seq_nth.
Qed.

Lemma top_peaks_spec freqs fft_data height :
  (length fft_data <= length freqs)%nat ->
  exists ps rest,
    top_peaks freqs fft_data height = Ok ps /\
    (length ps <= 5)%nat /\
    Permutation (ps ++ rest) (reported_peaks freqs fft_data height) /\
    amplitude_descending (ps ++ rest) /\
    Forall (is_reported_peak freqs fft_data height) ps.
Proof.
  intros Hlen. unfold top_peaks, reported_peaks.
  set (peaks := find_peaks fft_data height 5).
  assert (Hpk : Forall (fun i => (i < length fft_data)%nat) peaks).
  { apply List.Forall_forall. intros i Hi.
    destruct (find_peaks_height _ _ _ _ Hi) as (v & Hv & _).
    by apply lookup_lt_Some in Hv. }
  rewrite (fancy_index_map freqs peaks)
    by (eapply Forall_impl; [exact Hpk|]; simpl; intros; lia).
  rewrite (fancy_index_map fft_data peaks Hpk).
  set (PF := map (fun i => nth i freqs 0%Q) peaks).
  set (PA := map (fun i => nth i fft_data 0%Q) peaks).
  assert (HPF : length PF = length peaks) by (subst PF; apply length_map).
  assert (HPA : length PA = length peaks) by (subst PA; apply length_map).
  assert (HS : Forall (fun i => (i < length peaks)%nat) (rev (argsort PA))).
  { apply List.Forall_forall. intros i Hi. apply in_rev in Hi.
    pose proof (argsort_in_range PA) as Hr. rewrite List.Forall_forall in Hr.
    specialize (Hr i Hi). by rewrite HPA in Hr. }
  rewrite (fancy_index_map PF) by (by rewrite HPF).
  rewrite (fancy_index_map PA) by (by rewrite HPA).
  set (S := rev (argsort PA)) in *.
  set (full := map (fun s => (nth s PF 0%Q, nth s PA 0%Q)) S).
  assert (Hps : (let '(F, A) :=
                   if (5 <? length (map (fun i => nth i PF 0%Q) S))%nat
                   then (take 5 (map (fun i => nth i PF 0%Q) S),
                         take 5 (map (fun i => nth i PA 0%Q) S))
                   else (map (fun i => nth i PF 0%Q) S,
                         map (fun i => nth i PA 0%Q) S)
                 in zip F A) = take 5 full).
  { subst full. rewrite <- zip_map_same.
    destruct (Nat.ltb_spec 5 (length (map (fun i => nth i PF 0%Q) S))) as [H5|H5].
    - apply zip_take_both.
    - rewrite take_ge; [reflexivity|].
      rewrite length_zip_with, !length_map in *. lia. }
  assert (Hsorted : amplitude_descending full).
  { subst full.
    apply (StronglySorted_to_map
             (fun s => (nth s PF 0%Q, nth s PA 0%Q))
             (fun p q => (snd q <= snd p)%Q)).
    apply (StronglySorted_of_map (fun s => nth s PA 0%Q) (fun x y => (y <= x)%Q)).
    subst S. rewrite map_rev.
    apply StronglySorted_rev_flip, argsort_sorted. }
  exists (take 5 full), (drop 5 full).
  split; [by rewrite <- Hps; destruct (_ <? _)%nat|].
  split; [apply firstn_le_length|].
  rewrite take_drop. split; [|split; [exact Hsorted|]].
  - subst full.
    assert (HpermS : Permutation S (seq 0 (length peaks))).
    { subst S. rewrite <- Permutation_rev, <- HPA. apply argsort_perm. }
    rewrite (Permutation_map _ HpermS).
    rewrite <- zip_map_same.
    rewrite <- HPF at 1. rewrite <- HPA at 1. rewrite !map_nth_seq_id.
    subst PF PA. by rewrite zip_map_same.
  - apply Forall_take. subst full. apply List.Forall_forall.
    intros p Hp. apply in_map_iff in Hp as (s & <- & Hs).
    rewrite List.Forall_forall in HS. specialize (HS s Hs).
    exists (nth s peaks 0%nat). simpl.
    assert (Hin : In (nth s peaks 0%nat) peaks) by (by apply nth_In).
    split; [exact Hin|].
    destruct (find_peaks_height _ _ _ _ Hin) as (v & Hv & Hh).
    pose proof (lookup_lt_Some _ _ _ Hv) as Hlt.
    subst PF PA.
    rewrite !(nth_map_in _ _ s 0%Q 0%nat) by exact HS.
    rewrite (nth_lookup_Some _ _ 0%Q _ Hv).
    split; [|split; [exact Hv|exact Hh]].
    destruct (freqs !! nth s peaks 0%nat) as [f|] eqn:Hf.
    + by rewrite (nth_lookup_Some _ _ 0%Q _ Hf).
    + apply lookup_ge_None in Hf. lia.
Qed.

(** C10, amended: with frequency values loaded ([freqs_global] not None,
    one for every bin) and a clicked index [idx] with [0 <= idx <
    len(data_global)], [on_find_peaks] returns, leaves the data as it is, and
    prints at most five pairs: the strongest of the peaks reported for the
    frame at [idx], in non-increasing order of amplitude (all reported peaks
    are the printed ones followed by weaker ones), each reaching the height
    threshold [fft_min_val + 10]. When no peak is reported, the text says
    that no peaks were found. *)
Theorem on_find_peaks_top_five (self : AnalysisTab) (st : State)
    (freqs : list Q) (data : Frames) (ln : Line2D) (idx : Z) :
  freqs_global st = Some freqs ->
  (nbins data <= length freqs)%nat ->
  data_global st = Some data ->
  spec_click_line st = Some ln ->
  click_index ln = Ok idx ->
  (0 <= idx)%Z -> (idx < Z.of_nat (length (rows data)))%Z ->
  let height := inject_Z (fft_min_val self + 10) in
  let r := on_find_peaks (self, st) in
  exists fft_data,
    rows data !! Z.to_nat idx = Some fft_data /\
    fst r = Ok tt /\
    data_global (snd (snd r)) = Some data /\
    (find_peaks fft_data height 5 = [] ->
       results_text (fst (snd r)) = "No peaks found above threshold" /\
       snd (snd r) = add_log_entry "No peaks found in FFT data" st) /\
    (find_peaks fft_data height 5 <> [] ->
       exists ps rest,
         results_text (fst (snd r)) = "Top peaks:" +:+ nl +:+ peak_lines 0 ps /\
         (length ps <= 5)%nat /\
         Permutation (ps ++ rest) (reported_peaks freqs fft_data height) /\
         amplitude_descending (ps ++ rest) /\
         Forall (is_reported_peak freqs fft_data height) ps).
Proof.
  intros Hf Hbins Hd Hln Hidx H0 H1. cbv zeta.
  destruct (rows data !! Z.to_nat idx) as [fft_data|] eqn:Hrow.
  2:{ apply lookup_ge_None in Hrow. lia. }
  exists fft_data. split; [reflexivity|].
  assert (Hlen : (length fft_data <= length freqs)%nat).
  { pose proof (rows_rectangular data) as Hrect.
    rewrite List.Forall_forall in Hrect.
    rewrite (Hrect fft_data); [exact Hbins|].
    apply list_elem_of_In, list_elem_of_lookup. eauto. }
  unfold on_find_peaks. rewrite Hf, Hd, Hln, Hidx.
  replace ((0 <=? idx)%Z && (idx <? Z.of_nat (length (rows data)))%Z) with true
    by (symmetry; apply andb_true_iff; split; [apply Z.leb_le|apply Z.ltb_lt]; lia).
  assert (Hpy : py_index (rows data) idx = Ok fft_data)
    by (rewrite <- (Z2Nat.id idx) by lia; by apply py_index_nat).
  rewrite Hpy.
  destruct (top_peaks_spec freqs fft_data (inject_Z (fft_min_val self + 10)) Hlen)
    as (ps & rest & Htop & H5 & Hperm & Hsorted & Hpeaks).
  rewrite Htop.
  destruct (find_peaks fft_data (inject_Z (fft_min_val self + 10)) 5)
    as [|i peaks] eqn:Hfp; simpl.
  - repeat split; try done.
  - repeat split; try done. intros _. exists ps, rest. auto.
Qed.

End FindPeaks.

Section FindPeaksGuard.
Import Analysis Reference.

(** C10 as stated fails: with the data loaded but no frequency values
    ([freqs_global] is None), a click on a flat frame (no peak at all) makes
    [on_find_peaks] do nothing; the text does not say that no peaks were
    found and nothing is logged. *)
Lemma on_find_peaks_without_freqs :
  let r := on_find_peaks (H := ref_numlib) (init, flat_frame_no_freqs) in
  (exists data idx,
      data_global flat_frame_no_freqs = Some data /\
      spec_click_line flat_frame_no_freqs = Some click_0 /\
      click_index click_0 = Ok idx /\
      (0 <= idx < Z.of_nat (length (rows data)))%Z /\
      exists frame,
        rows data !! Z.to_nat idx = Some frame /\
        Forall (fun v => (v < inject_Z (fft_min_val init + 10))%Q) frame) /\
  results_text (fst (snd r)) <> "No peaks found above threshold" /\
  snd (snd r) = flat_frame_no_freqs /\
  fst (snd r) = init.
Proof.
  cbv zeta. split.
  - exists flat_frame, 0%Z. repeat split; try reflexivity; try (simpl; lia).
    exists [0; 0; 0]%Q. split; [reflexivity|].
    repeat constructor.
  - split; [|split; reflexivity]. simpl. discriminate.
Qed.

End FindPeaksGuard.


(** ** The reference environment obeys the laws *)

Section ReferenceLaws.
Import Reference.

#[local] Instance by_value_trans : Transitive by_value.
Proof. intros p q r. unfold by_value. apply Qle_trans. Qed.

#[local] Instance by_value_total : Total by_value.
Proof.
  intros p q. unfold by_value.
  destruct (Qlt_le_dec (snd p) (snd q)) as [H|H]; [left|right]; [|exact H].
  by apply Qlt_le_weak.
Qed.

Lemma zip_seq_nth (a : list Q) (k : nat) (i : nat) (v : Q) :
  In (i, v) (zip (seq k (length a)) a) -> (k <= i)%nat /\ nth (i - k) a 0%Q = v.
Proof.
  revert k. induction a as [|x a IH]; intros k Hin; simpl in *; [done|].
  destruct Hin as [Heq|Hin].
  - injection Heq as <- <-. rewrite Nat.sub_diag. split; [lia|reflexivity].
  - destruct (IH (S k) Hin) as [Hle Hnth]. split; [lia|].
    replace (i - k)%nat with (S (i - S k)) by lia. exact Hnth.
Qed.

Lemma ref_argsort_perm a : Permutation (ref_argsort a) (seq 0 (length a)).
Proof.
  unfold ref_argsort.
  rewrite (Permutation_map fst (merge_sort_Permutation by_value _)).
  replace (map fst (zip (seq 0 (length a)) a)) with (seq 0 (length a));
    [reflexivity|].
  generalize 0%nat. induction a as [|x a IH]; intros k; simpl; [reflexivity|].
  by rewrite <- IH.
Qed.

Lemma ref_argsort_sorted a :
  StronglySorted Qle (map (fun i => nth i a 0%Q) (ref_argsort a)).
Proof.
  unfold ref_argsort. rewrite map_map.
  set (sorted := merge_sort by_value (zip (seq 0 (length a)) a)).
  rewrite (map_ext_in _ snd).
  - apply StronglySorted_to_map.
    apply (StronglySorted_merge_sort by_value).
  - intros [i v] Hin. simpl.
    apply (Permutation_in _ (merge_sort_Permutation by_value _)) in Hin.
    apply zip_seq_nth in Hin as [_ Hnth]. by rewrite Nat.sub_0_r in Hnth.
Qed.

Lemma select_by_distance_subset x d cands i :
  In i (select_by_distance x d cands) -> In i cands.
Proof.
  unfold select_by_distance.
  set (by_height := map fst _).
  assert (Hsub : forall j, In j by_height -> In j cands).
  { subst by_height. intros j Hj.
    apply in_map_iff in Hj as ([j' v] & <- & Hj). apply in_rev in Hj.
    apply (Permutation_in _ (merge_sort_Permutation by_value _)) in Hj.
    apply in_map_iff in Hj as (k & Hk & Hin). by injection Hk as <- _. }
  assert (Hfold : forall l kept,
             (forall j, In j l -> In j cands) -> (forall j, In j kept -> In j cands) ->
             forall j, In j (fold_left
                               (fun kept i => if far_from d kept i then kept ++ [i] else kept)
                               l kept) -> In j cands).
  { induction l as [|c l IH]; intros kept Hl Hk j; simpl; [apply Hk|].
    apply IH.
    - intros j' Hj'. apply Hl. by right.
    - intros j' Hj'. destruct (far_from d kept c); [|by apply Hk].
      apply in_app_or in Hj' as [Hj'|[<-|[]]]; [by apply Hk|]. apply Hl. by left. }
  apply (Hfold by_height [] Hsub). intros j [].
Qed.

Lemma ref_find_peaks_height x h d i :
  In i (ref_find_peaks x h d) -> exists v, x !! i = Some v /\ (h <= v)%Q.
Proof.
  unfold ref_find_peaks. intros Hin.
  apply (Permutation_in _ (merge_sort_Permutation Nat.le _)) in Hin.
  apply select_by_distance_subset in Hin.
  apply list_elem_of_In, list_elem_of_filter in Hin as [Hh Hmax].
  apply list_elem_of_filter in Hmax as [_ Hseq].
  apply list_elem_of_In, in_seq in Hseq.
  destruct (x !! i) as [v|] eqn:Hv.
  - exists v. split; [reflexivity|].
    rewrite (nth_lookup_Some _ _ 0%Q _ Hv) in Hh.
    apply Qle_bool_iff. by apply Is_true_true.
  - apply lookup_ge_None in Hv. lia.
Qed.

#[local] Instance ref_numlib_laws : NumLibLaws ref_numlib.
Proof.
  split.
  - apply ref_find_peaks_height.
  - apply ref_argsort_perm.
  - apply ref_argsort_sorted.
Qed.

#[local] Instance ref_env_laws : EnvLaws ref_env.
Proof.
  split.
  - intros v b Hd. simpl in *. injection Hd as <-. reflexivity.
  - intros path b fs fs' Hw. simpl in *. injection Hw as <-.
    by rewrite lookup_insert_eq.
Qed.

End ReferenceLaws.

(** ** The model on concrete inputs *)

Section Runs.
Import Reference.

Example fmt_fixed_examples :
  fmt_fixed 1 (51 # 20) = "2.6" /\ fmt_fixed 1 (1 # 4) = "0.2" /\
  fmt_fixed 2 (1 # 2) = "0.50" /\ fmt_fixed_int 1 (-20) = Ok "-20.0" /\
  fmt_fixed_int 1 (2 ^ 53 + 1) = Ok "9007199254740992.0" /\
  fmt_fixed_int 1 (10 ^ 400)
  = Raise (OverflowError "int too large to convert to float").
Proof. repeat split; vm_compute; reflexivity. Qed.

Example adjust_fft_min_stops_at_gap :
  let r := Analysis.adjust_fft_min 200 (Analysis.init, clicked_frame) in
  fst r = Ok tt /\
  Analysis.fft_min_val (fst (snd r)) = 110%Z /\ fft_ymin (snd (snd r)) = 110%Z /\
  Analysis.range_text (fst (snd r)) = "Range: 110.0 - 120.0".
Proof. repeat split; vm_compute; reflexivity. Qed.

Example adjust_fft_max_raises_after_write :
  let r := Analysis.adjust_fft_max (2 ^ 70) (Analysis.init, clicked_frame) in
  fst r = Raise (TypeError "ufunc 'isfinite' not supported for the input types") /\
  Analysis.fft_max_val (fst (snd r)) = (120 + 2 ^ 70)%Z /\
  fft_ymax (snd (snd r)) = (120 + 2 ^ 70)%Z /\
  ax_fft (snd (snd r)) = Some (0%Z, 120%Z) /\
  Analysis.range_text (fst (snd r)) = "Range: 0.0 - 120.0".
Proof. repeat split; vm_compute; reflexivity. Qed.

Example save_profile_two_frames :
  Filter.noise_profiles
    (fst (snd (Filter.on_save_profile (Filter.init, selection_0_1))))
  = [ {| Filter.p_obj := 0; Filter.p_name := "Background Profile";
         Filter.p_range := (0%Z, 1%Z); Filter.p_data := [4 # 2; 6 # 2];
         Filter.p_time := "00:00:00 - 00:00:01" |} ].
Proof. vm_compute. reflexivity. Qed.

Example find_peaks_two_listed :
  Analysis.results_text
    (fst (snd (Analysis.on_find_peaks (Analysis.init, clicked_frame))))
  = "Top peaks:" +:+ nl +:+ "1. 30.0 Hz: 80.0 dB" +:+ nl
    +:+ "2. 90.0 Hz: 60.0 dB" +:+ nl.
Proof. vm_compute. reflexivity. Qed.

Lemma on_save_profile_mean_witness :
  exists p,
    Filter.noise_profiles
      (fst (snd (Filter.on_save_profile (Filter.init, selection_0_1))))
      = Filter.noise_profiles Filter.init ++ [p] /\
    Filter.p_range p = (0%Z, 1%Z) /\
    Filter.p_data p
      = map (Filter.bin_mean (Filter.selected_frames (rows three_frames) 0 1))
            (seq 0 (nbins three_frames)).
Proof.
  apply (on_save_profile_mean Filter.init selection_0_1 three_frames 0 1).
  - reflexivity.
  - reflexivity.
  - lia.
  - lia.
  - simpl. lia.
Defined.


Lemma on_find_peaks_top_five_witness :
  exists fft_data,
    rows one_frame !! Z.to_nat 0 = Some fft_data /\
    fst (Analysis.on_find_peaks (Analysis.init, clicked_frame)) = Ok tt /\
    data_global (snd (snd (Analysis.on_find_peaks (Analysis.init, clicked_frame))))
      = Some one_frame /\
    (find_peaks fft_data (inject_Z (0 + 10)) 5 = [] ->
       Analysis.results_text
         (fst (snd (Analysis.on_find_peaks (Analysis.init, clicked_frame))))
         = "No peaks found above threshold" /\
       snd (snd (Analysis.on_find_peaks (Analysis.init, clicked_frame)))
         = add_log_entry "No peaks found in FFT data" clicked_frame) /\
    (find_peaks fft_data (inject_Z (0 + 10)) 5 <> [] ->
       exists ps rest,
         Analysis.results_text
           (fst (snd (Analysis.on_find_peaks (Analysis.init, clicked_frame))))
           = "Top peaks:" +:+ nl +:+ Analysis.peak_lines 0 ps /\
         (length ps <= 5)%nat /\
         Permutation (ps ++ rest)
           (Analysis.reported_peaks peak_freqs fft_data (inject_Z (0 + 10))) /\
         Analysis.amplitude_descending (ps ++ rest) /\
         Forall (Analysis.is_reported_peak peak_freqs fft_data (inject_Z (0 + 10))) ps).
Proof.
  apply (on_find_peaks_top_five (LL := ref_numlib_laws)
           Analysis.init clicked_frame peak_freqs one_frame click_0 0).
  - reflexivity.
  - simpl. lia.
  - reflexivity.
  - reflexivity.
  - reflexivity.
  - lia.
  - simpl. lia.
Defined.

End Runs.

(* ===================================================================== *)
(** * Further properties of the code *)
(* ===================================================================== *)

(** ** Tabs: adding, selecting, highlighting *)

Section TabsMore.
Import TabSystem.
Context {L : NumLib}.

Lemma axes_hide_all t k v : axes (hide t) !! k = Some v -> v = false.
Proof.
  unfold hide, on_hide. simpl. rewrite lookup_fmap.
  destruct (axes t !! k); simpl; congruence.
Qed.

(** X1: [add_tab] for a class whose [build] returns: the new tab is stored
    under the name (replacing an earlier tab of that name), it is hidden with
    every one of its axes invisible, and neither the other tabs nor the
    active tab change. *)
Theorem add_tab_stores_hidden (name : string) (cls : tab_class) (m : TabManager) :
  cls <> AnnotationsTab ->
  exists t,
    add_tab name cls m
    = (Ok t, set_tabs (fun _ => <[name := t]> (tabs m)) m) /\
    visible t = false /\
    (forall k v, axes t !! k = Some v -> v = false) /\
    tab_cls t = cls.
Proof.
  intros Hcls. unfold add_tab.
  pose proof (build_returns_except_annotations cls Hcls) as Hb.
  destruct (build (new_tab cls)) as [[[]|e] t'] eqn:Hbuild; simpl in Hb;
    [|discriminate].
  exists (hide t'). split; [|split; [reflexivity|split]].
  - f_equal. unfold set_tabs. simpl. f_equal. apply insert_insert_eq.
  - apply axes_hide_all.
  - simpl. destruct cls; [| |congruence|];
      (vm_compute in Hbuild; injection Hbuild as <-; reflexivity).
Qed.

Lemma add_tab_stores_hidden_witness :
  exists t,
    add_tab "filter" FilterTab new_manager
    = (Ok t, set_tabs (fun _ => <["filter" := t]> (tabs new_manager)) new_manager) /\
    visible t = false /\
    (forall k v, axes t !! k = Some v -> v = false) /\
    tab_cls t = FilterTab.
Proof.
  apply (add_tab_stores_hidden "filter" FilterTab new_manager). discriminate.
Defined.

Lemma hide_current_noop m : has_current_tab m = false -> hide_current m = m.
Proof. intros H. unfold hide_current. by rewrite H. Qed.

Lemma dom_hide_current m : dom (tabs (hide_current m)) = dom (tabs m).
Proof.
  unfold hide_current. destruct (has_current_tab m); [|reflexivity].
  destruct (active_tab m); [|reflexivity].
  rewrite tabs_recolor. simpl. apply dom_alter_L.
Qed.

(** Under the invariant, nothing is shown after the hide step. *)
Lemma hide_current_all_hidden m :
  switch_inv m -> all_hidden (tabs (hide_current m)).
Proof.
  intros [Hempty [_ Hact]] n t. unfold hide_current.
  destruct (has_current_tab m) eqn:Hcur.
  - destruct (has_current_tab_true m Hcur) as (a & Ha & _ & _). rewrite Ha.
    rewrite tabs_recolor. simpl. intros Hn.
    destruct (decide (a = n)) as [->|Hne].
    + rewrite lookup_alter_eq in Hn.
      destruct (tabs m !! n); [|discriminate]. simpl in Hn.
      injection Hn as <-. reflexivity.
    + rewrite lookup_alter_ne in Hn by done.
      destruct (visible t) eqn:Hv; [|reflexivity].
      specialize (Hact n t Hn Hv). congruence.
  - intros Hn. destruct (visible t) eqn:Hv; [|reflexivity].
    exfalso. specialize (Hact n t Hn Hv).
    unfold has_current_tab, truthy_name in Hcur. rewrite Hact in Hcur.
    apply andb_false_iff in Hcur as [Hcur|Hcur].
    + apply negb_false_iff, String.eqb_eq in Hcur. subst n. congruence.
    + apply bool_decide_eq_false in Hcur. apply Hcur. eauto.
Qed.

Lemma all_hidden_switch_inv m :
  tabs m !! "" = None -> all_hidden (tabs m) -> switch_inv m.
Proof.
  intros Hempty Hall. split; [exact Hempty|]. split.
  - intros n1 n2 t1 t2 H1 V1. rewrite (Hall _ _ H1) in V1. discriminate.
  - intros n t H1 V1. rewrite (Hall _ _ H1) in V1. discriminate.
Qed.

Lemma all_hidden_check (ts : gmap string Tab) :
  bool_decide (map_Forall (fun _ t => visible t = false) ts) = true ->
  all_hidden ts.
Proof. intros H. apply bool_decide_eq_true in H. exact H. Qed.

(** X2: A switch to a known tab returns or raises as the [on_show] of that
    tab does. When it returns, in a manager whose tabs are exclusive, the tab
    is the active one and the only visible one: a tab is visible afterwards
    exactly when it is the selected one. *)
Theorem switch_to_tab_shows_exactly (st : State) (name : string)
    (m : TabManager) (t : Tab) :
  switch_inv m -> tabs m !! name = Some t ->
  fst (switch_to_tab st name m) = fst (on_show st t) /\
  (fst (on_show st t) = Ok tt ->
   active_tab (snd (switch_to_tab st name m)) = Some name /\
   dom (tabs (snd (switch_to_tab st name m))) = dom (tabs m) /\
   forall n t', tabs (snd (switch_to_tab st name m)) !! n = Some t' ->
                (visible t' = true <-> n = name)).
Proof.
  intros Hinv Hname.
  destruct (switch_to_tab_known st name m t Hname) as (t1 & H1 & Ha & Hf & ->).
  pose proof (show_outcome st t1) as Hout.
  rewrite (on_show_outcome st t1 t Ha Hf) in Hout.
  pose proof (visible_show st t1) as Hvis.
  pose proof (hide_current_all_hidden m Hinv) as Hall.
  destruct (show st t1) as [[[]|e] t'] eqn:Hshow; simpl in Hout, Hvis.
  - split; [by rewrite <- Hout|]. intros _. simpl.
    rewrite active_recolor, tabs_recolor. simpl.
    split; [reflexivity|]. split.
    + rewrite dom_insert_L, dom_hide_current.
      apply elem_of_dom_2 in Hname.
      by apply subseteq_union_1_L, singleton_subseteq_l.
    + intros n t2 Hn. destruct (decide (name = n)) as [<-|Hne].
      * rewrite lookup_insert_eq in Hn. injection Hn as <-.
        split; intros _; [reflexivity|exact Hvis].
      * rewrite lookup_insert_ne in Hn by done. split; [|congruence].
        rewrite (Hall n t2 Hn). discriminate.
  - split; [by rewrite <- Hout|]. intros Hok. rewrite <- Hout in Hok.
    discriminate.
Qed.

(** X3: When the [on_show] of the selected tab raises, the exception leaves
    [switch_to_tab] after the current tab was hidden and the selected tab
    made visible: [active_tab] and the log are as before, no button is
    highlighted for the tab, and every other tab is as the hide step left it.
    Unless the tab was the active one already, a visible tab is then not the
    one recorded in [active_tab]. *)
Theorem switch_to_tab_show_raises (st : State) (name : string)
    (m : TabManager) (t : Tab) (e : exn) :
  tabs m !! name = Some t -> fst (on_show st t) = Raise e ->
  let r := switch_to_tab st name m in
  fst r = Raise e /\
  active_tab (snd r) = active_tab m /\
  log_entries (snd r) = log_entries m /\
  tab_buttons (snd r) = tab_buttons (hide_current m) /\
  (exists t', tabs (snd r) !! name = Some t' /\ visible t' = true) /\
  (forall n, n <> name -> tabs (snd r) !! n = tabs (hide_current m) !! n) /\
  (active_tab m <> Some name -> ~ tabs_exclusive (snd r)).
Proof.
  intros Hname Hraise. cbv zeta.
  destruct (switch_to_tab_known st name m t Hname) as (t1 & H1 & Ha & Hf & ->).
  pose proof (show_outcome st t1) as Hout.
  rewrite (on_show_outcome st t1 t Ha Hf), Hraise in Hout.
  pose proof (visible_show st t1) as Hvis.
  destruct (show st t1) as [[[]|e'] t'] eqn:Hshow; simpl in Hout, Hvis;
    [discriminate|].
  injection Hout as ->. simpl.
  split; [reflexivity|]. split; [apply active_hide_current|].
  split; [apply log_hide_current|]. split; [reflexivity|].
  split; [exists t'; by rewrite lookup_insert_eq|]. split.
  - intros n Hn. by rewrite lookup_insert_ne.
  - intros Hact [_ Hex]. simpl in Hex.
    specialize (Hex name t'). rewrite lookup_insert_eq in Hex.
    specialize (Hex eq_refl Hvis). rewrite active_hide_current in Hex.
    congruence.
Qed.

(** X4: With a tab registered under the empty name and active, selecting
    another tab does not hide it: the test [if self.active_tab and ...] takes
    the empty name for "no active tab", so both tabs are visible afterwards,
    whether the [on_show] of the selected tab returns or raises. *)
Theorem switch_from_empty_name_shows_two (st : State) (m : TabManager)
    (n : string) (t0 t : Tab) :
  tabs m !! "" = Some t0 -> visible t0 = true -> active_tab m = Some "" ->
  tabs m !! n = Some t -> n <> "" ->
  let m' := snd (switch_to_tab st n m) in
  tabs m' !! "" = Some t0 /\
  (exists t', tabs m' !! n = Some t' /\ visible t' = true) /\
  ~ tabs_exclusive m' /\
  (fst (on_show st t) = Ok tt -> active_tab m' = Some n).
Proof.
  intros H0 Hv Hact Hn Hne. cbv zeta.
  assert (Hnoop : hide_current m = m).
  { apply hide_current_noop. unfold has_current_tab. by rewrite Hact. }
  destruct (switch_to_tab_target_visible st n m t Hn) as (t' & Ht' & Hv').
  assert (Ha : tabs (snd (switch_to_tab st n m)) !! "" = Some t0).
  { destruct (switch_to_tab_known st n m t Hn) as (t1 & _ & _ & _ & ->).
    rewrite Hnoop.
    destruct (show st t1) as [[[]|e] t2]; simpl.
    - rewrite tabs_recolor. simpl. by rewrite lookup_insert_ne.
    - by rewrite lookup_insert_ne. }
  split; [exact Ha|]. split; [by exists t'|]. split.
  - intros [Hex _]. apply Hne. symmetry.
    exact (Hex "" n t0 t' Ha Hv Ht' Hv').
  - intros Hok.
    destruct (switch_to_tab_known st n m t Hn) as (t1 & _ & Hat & Hft & ->).
    pose proof (show_outcome st t1) as Hout.
    rewrite (on_show_outcome st t1 t Hat Hft), Hok in Hout.
    destruct (show st t1) as [[[]|e] t2]; simpl in Hout; [|discriminate].
    simpl. by rewrite active_recolor.
Qed.

End TabsMore.

Section TabsMoreRuns.
Import TabSystem Reference Annotations.

Lemma switch_to_tab_shows_exactly_witness :
  fst (switch_to_tab nothing_selected "filter" Samples.left_by_layout)
  = fst (on_show nothing_selected Samples.built_filter) /\
  (fst (on_show nothing_selected Samples.built_filter) = Ok tt ->
   active_tab (snd (switch_to_tab nothing_selected "filter" Samples.left_by_layout))
   = Some "filter" /\
   dom (tabs (snd (switch_to_tab nothing_selected "filter" Samples.left_by_layout)))
   = dom (tabs Samples.left_by_layout) /\
   forall n t',
     tabs (snd (switch_to_tab nothing_selected "filter" Samples.left_by_layout)) !! n
     = Some t' ->
     (visible t' = true <-> n = "filter")).
Proof.
  apply (switch_to_tab_shows_exactly nothing_selected "filter"
           Samples.left_by_layout Samples.built_filter).
  - apply all_hidden_switch_inv.
    + vm_compute. reflexivity.
    + apply all_hidden_check. vm_compute. reflexivity.
  - vm_compute. reflexivity.
Defined.

Lemma switch_to_tab_show_raises_witness :
  let r := switch_to_tab nothing_selected "annotations" Samples.left_by_layout in
  fst r = Raise (AttributeError
                   "'AnnotationsTab' object has no attribute 'annotations_text'") /\
  active_tab (snd r) = active_tab Samples.left_by_layout /\
  log_entries (snd r) = log_entries Samples.left_by_layout /\
  tab_buttons (snd r) = tab_buttons (hide_current Samples.left_by_layout) /\
  (exists t', tabs (snd r) !! "annotations" = Some t' /\ visible t' = true) /\
  (forall n, n <> "annotations" ->
     tabs (snd r) !! n = tabs (hide_current Samples.left_by_layout) !! n) /\
  (active_tab Samples.left_by_layout <> Some "annotations" ->
   ~ tabs_exclusive (snd r)).
Proof.
  apply (switch_to_tab_show_raises nothing_selected "annotations"
           Samples.left_by_layout Samples.half_built_annotations).
  - vm_compute. reflexivity.
  - vm_compute. reflexivity.
Defined.

Lemma switch_from_empty_name_shows_two_witness :
  let m' := snd (switch_to_tab nothing_selected "x" Samples.empty_named) in
  tabs m' !! "" = Some Samples.shown_export /\
  (exists t', tabs m' !! "x" = Some t' /\ visible t' = true) /\
  ~ tabs_exclusive m' /\
  (fst (on_show nothing_selected Samples.built_export) = Ok tt ->
   active_tab m' = Some "x").
Proof.
  apply (switch_from_empty_name_shows_two nothing_selected Samples.empty_named "x"
           Samples.shown_export Samples.built_export).
  - vm_compute. reflexivity.
  - vm_compute. reflexivity.
  - vm_compute. reflexivity.
  - vm_compute. reflexivity.
  - discriminate.
Defined.

(** The [on_show] of a built filter tab raises, too, once the tab holds two
    profiles of the same name and range and the first one is loaded; the tab
    has been made visible by then. *)
Example filter_tab_show_raises :
  let r := show nothing_selected Samples.twins_tab in
  fst r = Raise (ValueError
                   "The truth value of an array with more than one element is ambiguous") /\
  visible (snd r) = true.
Proof. split; vm_compute; reflexivity. Qed.

End TabsMoreRuns.

Section TabBarProperties.
Import TabSystem TabBar.
Context {L : NumLib}.

Lemma tab_buttons_recolor n c h m :
  tab_buttons (recolor n c h m)
  = match tab_buttons m !! n with
    | Some _ => <[n := {| color := c; hovercolor := h |}]> (tab_buttons m)
    | None => tab_buttons m
    end.
Proof. unfold recolor. destruct (tab_buttons m !! n); reflexivity. Qed.

Lemma highlight_inv_create_tab_buttons ts :
  ts !! "" = None -> highlight_inv (create_tab_buttons (fresh_manager ts)).
Proof.
  intros Hempty. unfold highlight_inv, create_tab_buttons, fresh_manager. simpl.
  split; [exact Hempty|]. split; [discriminate|]. split.
  - intros n [t Ht]. rewrite lookup_union, lookup_fmap, Ht, lookup_empty.
    simpl. eauto.
  - intros n b. rewrite lookup_union, lookup_fmap, lookup_empty.
    destruct (ts !! n); simpl; [|discriminate].
    intros [= <-]. unfold highlighted. simpl. discriminate.
Qed.

(** After the hide step no button is highlighted, and every tab still has
    its button. *)
Lemma hide_current_buttons m :
  highlight_inv m ->
  (forall k, is_Some (tabs m !! k) -> is_Some (tab_buttons (hide_current m) !! k)) /\
  (forall k b, tab_buttons (hide_current m) !! k = Some b -> ~ highlighted b).
Proof.
  intros (Hempty & Hact & Hbtn & Hhl). unfold hide_current.
  destruct (has_current_tab m) eqn:Hcur.
  - destruct (has_current_tab_true m Hcur) as (a & Ha & _ & _). rewrite Ha.
    rewrite tab_buttons_recolor. simpl. split.
    + intros k Hk. apply Hbtn in Hk.
      destruct (tab_buttons m !! a) eqn:Hb; [|exact Hk].
      destruct (decide (a = k)) as [->|Hd].
      * rewrite lookup_insert_eq. eauto.
      * by rewrite lookup_insert_ne.
    + intros k b.
      destruct (tab_buttons m !! a) as [ba|] eqn:Hb.
      * destruct (decide (a = k)) as [->|Hd].
        -- rewrite lookup_insert_eq. intros [= <-]. unfold highlighted. simpl.
           discriminate.
        -- rewrite lookup_insert_ne by done. intros Hk Hh.
           apply (Hhl k b Hk) in Hh. congruence.
      * intros Hk Hh. apply (Hhl k b Hk) in Hh.
        assert (a = k) by congruence. subst k. congruence.
  - split; [exact Hbtn|]. intros k b Hk Hh.
    apply (Hhl k b Hk) in Hh.
    destruct (Hact k Hh) as [tk Htk].
    unfold has_current_tab, truthy_name in Hcur. rewrite Hh in Hcur.
    apply andb_false_iff in Hcur as [Hcur|Hcur].
    + apply negb_false_iff, String.eqb_eq in Hcur. subst k. congruence.
    + apply bool_decide_eq_false in Hcur. apply Hcur. eauto.
Qed.

Lemma lookup_insert_is_Some_keep (ts : gmap string Tab) name t k :
  is_Some (ts !! name) -> (is_Some (<[name := t]> ts !! k) <-> is_Some (ts !! k)).
Proof.
  intros Hname. destruct (decide (name = k)) as [<-|Hne].
  - rewrite lookup_insert_eq. split; eauto.
  - by rewrite lookup_insert_ne.
Qed.

Lemma highlight_inv_switch st name m :
  highlight_inv m -> highlight_inv (snd (switch_to_tab st name m)).
Proof.
  intros Hinv. pose proof Hinv as (Hempty & Hact & Hbtn & Hhl).
  destruct (tabs m !! name) as [t|] eqn:Hname.
  2:{ rewrite switch_to_tab_unknown by exact Hname. exact Hinv. }
  destruct (hide_current_buttons m Hinv) as [Hb1 Hno1].
  destruct (switch_to_tab_known st name m t Hname) as (t1 & H1 & _ & _ & ->).
  assert (Hkeys : forall t' k,
             is_Some (<[name := t']> (tabs (hide_current m)) !! k)
             <-> is_Some (tabs m !! k)).
  { intros t' k. rewrite lookup_insert_is_Some_keep by eauto.
    rewrite <- !elem_of_dom. by rewrite dom_hide_current. }
  assert (Hne : name <> "").
  { intros ->. congruence. }
  assert (Hempty1 : forall t', <[name := t']> (tabs (hide_current m)) !! "" = None).
  { intros t'. rewrite lookup_insert_ne by done.
    apply not_elem_of_dom. rewrite dom_hide_current. by apply not_elem_of_dom. }
  destruct (show st t1) as [[[]|e] t']; unfold highlight_inv;
    cbn [snd tabs active_tab tab_buttons add_log_entry set_tabs].
  - rewrite tabs_recolor, active_recolor, tab_buttons_recolor.
    cbn [tabs active_tab tab_buttons set_active set_tabs].
    split; [|split; [|split]].
    + apply Hempty1.
    + intros a [= <-]. apply Hkeys. eauto.
    + intros k Hk. apply Hkeys, Hb1 in Hk.
      destruct (tab_buttons (hide_current m) !! name) eqn:Hb; [|exact Hk].
      destruct (decide (name = k)) as [->|Hd].
      * rewrite lookup_insert_eq. eauto.
      * by rewrite lookup_insert_ne.
    + intros k b.
      destruct (tab_buttons (hide_current m) !! name) as [bn|] eqn:Hb.
      * destruct (decide (name = k)) as [->|Hd]; [reflexivity|].
        rewrite lookup_insert_ne by done. intros Hk Hh.
        by destruct (Hno1 k b Hk).
      * intros Hk Hh. by destruct (Hno1 k b Hk).
  - split; [|split; [|split]].
    + apply Hempty1.
    + intros a Ha. rewrite active_hide_current in Ha.
      apply Hkeys. by apply Hact.
    + intros k Hk. apply Hkeys in Hk. by apply Hb1.
    + intros k b Hk Hh. by destruct (Hno1 k b Hk).
Qed.

Lemma highlight_inv_run steps m :
  highlight_inv m -> highlight_inv (run_switches m steps).
Proof.
  revert m. induction steps as [|[st n] steps IH]; intros m Hm; simpl; [exact Hm|].
  apply IH. by apply highlight_inv_switch.
Qed.

(** X5: After the tab buttons were created for tabs with non-empty names,
    and through any sequence of [switch_to_tab] calls (unknown names and
    calls that raise included), every tab has a button, and a button that
    carries the highlight colour is the button of the active tab; after a
    call that returned for a known tab, the button of that tab is the
    highlighted one. *)
Theorem tab_button_highlight_follows (ts : gmap string Tab)
    (steps : list (State * string)) :
  ts !! "" = None ->
  let m0 := create_tab_buttons (fresh_manager ts) in
  (forall n, is_Some (tabs (run_switches m0 steps) !! n) ->
             is_Some (tab_buttons (run_switches m0 steps) !! n)) /\
  (forall n b, tab_buttons (run_switches m0 steps) !! n = Some b ->
               highlighted b -> active_tab (run_switches m0 steps) = Some n) /\
  (forall st name,
     is_Some (ts !! name) ->
     fst (switch_to_tab st name (run_switches m0 steps)) = Ok tt ->
     exists b,
       tab_buttons (run_switches m0 (steps ++ [(st, name)])) !! name = Some b /\
       highlighted b /\
       active_tab (run_switches m0 (steps ++ [(st, name)])) = Some name).
Proof.
  intros Hempty. cbv zeta.
  set (m0 := create_tab_buttons (fresh_manager ts)).
  assert (Hinv0 : highlight_inv m0) by (by apply highlight_inv_create_tab_buttons).
  assert (Hdom : forall steps, dom (tabs (run_switches m0 steps)) = dom ts).
  { intros stp. assert (Hm0 : dom (tabs m0) = dom ts) by reflexivity.
    revert Hm0. generalize m0.
    induction stp as [|[st n] stp IH]; intros m Hm; simpl; [exact Hm|].
    apply IH. rewrite <- Hm.
    destruct (tabs m !! n) as [t|] eqn:Hn.
    - destruct (switch_to_tab_known st n m t Hn) as (t1 & H1 & _ & _ & ->).
      destruct (show st t1) as [[[]|e] t']; simpl;
        rewrite ?tabs_recolor; simpl;
        rewrite dom_insert_L, dom_hide_current;
        apply elem_of_dom_2 in Hn;
        by apply subseteq_union_1_L, singleton_subseteq_l.
    - by rewrite switch_to_tab_unknown. }
  pose proof (highlight_inv_run steps m0 Hinv0) as (_ & _ & Hbtn & Hhl).
  split; [exact Hbtn|]. split; [exact Hhl|].
  intros st name Hname Hok.
  unfold run_switches. rewrite fold_left_app. simpl.
  fold (run_switches m0 steps).
  set (m := run_switches m0 steps) in *.
  assert (Hin : is_Some (tabs m !! name)).
  { apply elem_of_dom. subst m. rewrite Hdom. by apply elem_of_dom. }
  destruct Hin as [t Hn].
  pose proof (highlight_inv_run steps m0 Hinv0) as Hinv.
  fold m in Hinv.
  destruct (hide_current_buttons m Hinv) as [Hb1 _].
  destruct (Hb1 name (ex_intro _ t Hn)) as [b1 Hb1'].
  destruct (switch_to_tab_known st name m t Hn) as (t1 & H1 & _ & _ & Heq).
  rewrite Heq in Hok |- *.
  destruct (show st t1) as [[[]|e] t']; simpl in Hok |- *; [|discriminate].
  rewrite tab_buttons_recolor, active_recolor. simpl. rewrite Hb1'.
  eexists. rewrite lookup_insert_eq. split; [reflexivity|].
  split; reflexivity.
Qed.

End TabBarProperties.

Section TabBarRuns.
Import TabSystem TabBar Reference Annotations.

Lemma tab_button_highlight_follows_witness :
  let m0 := create_tab_buttons (fresh_manager (tabs Samples.left_by_layout)) in
  let steps := [(nothing_selected, "analysis"); (nothing_selected, "annotations");
                (nothing_selected, "nowhere")] in
  (forall n, is_Some (tabs (run_switches m0 steps) !! n) ->
             is_Some (tab_buttons (run_switches m0 steps) !! n)) /\
  (forall n b, tab_buttons (run_switches m0 steps) !! n = Some b ->
               highlighted b -> active_tab (run_switches m0 steps) = Some n) /\
  (forall st name,
     is_Some (tabs Samples.left_by_layout !! name) ->
     fst (switch_to_tab st name (run_switches m0 steps)) = Ok tt ->
     exists b,
       tab_buttons (run_switches m0 (steps ++ [(st, name)])) !! name = Some b /\
       highlighted b /\
       active_tab (run_switches m0 (steps ++ [(st, name)])) = Some name).
Proof.
  apply (tab_button_highlight_follows (tabs Samples.left_by_layout)
           [(nothing_selected, "analysis"); (nothing_selected, "annotations");
            (nothing_selected, "nowhere")]).
  vm_compute. reflexivity.
Defined.

End TabBarRuns.

(** ** The analysis tab: range display and peak list *)

Section AnalysisMore.
Import Analysis RangeDisplay.
Context {P : PlotLib}.

(** X7: Within the limits, raising the minimum by [delta] and lowering it by
    [delta] again gives back the range; beyond them the minimum stops at
    [fft_max_val - 10] above and at -20 below, and the maximum stops at
    [fft_min_val + 10]. The range meant is the one the tab holds after the
    call, whether the call returned or raised. *)
Theorem adjust_fft_round_trip_and_stops (delta : Z) (w : AnalysisTab * State) :
  fft_range_inv (fst w) ->
  ((-20 <= fft_min_val (fst w) + delta <= fft_max_val (fst w) - 10)%Z ->
   fft_min_val (fst (snd (adjust_fft_min (- delta) (snd (adjust_fft_min delta w)))))
     = fft_min_val (fst w) /\
   fft_max_val (fst (snd (adjust_fft_min (- delta) (snd (adjust_fft_min delta w)))))
     = fft_max_val (fst w)) /\
  ((fft_max_val (fst w) - 10 <= fft_min_val (fst w) + delta)%Z ->
   fft_min_val (fst (snd (adjust_fft_min delta w))) = (fft_max_val (fst w) - 10)%Z) /\
  ((fft_min_val (fst w) + delta <= -20)%Z ->
   fft_min_val (fst (snd (adjust_fft_min delta w))) = (-20)%Z) /\
  ((fft_max_val (fst w) + delta <= fft_min_val (fst w) + 10)%Z ->
   fft_max_val (fst (snd (adjust_fft_max delta w))) = (fft_min_val (fst w) + 10)%Z).
Proof.
  destruct w as [self st]. unfold fft_range_inv. simpl. intros [H1 H2].
  destruct (adjust_fft_min_fields delta self st) as [Hmin Hmax].
  destruct (adjust_fft_max_fields delta self st) as [Hmax' _].
  destruct (adjust_fft_min delta (self, st)) as [r [self1 st1]] eqn:Hcall.
  cbn [fst snd] in *.
  destruct (adjust_fft_min_fields (- delta) self1 st1) as [Hmin2 Hmax2].
  rewrite Hmin2, Hmax2, Hmin, Hmax, Hmax'.
  repeat split; intros; lia.
Qed.

End AnalysisMore.

Section AnalysisMoreRuns.
Import Analysis Reference.

Lemma adjust_fft_round_trip_and_stops_witness :
  fft_min_val (fst (snd (adjust_fft_min (-10)
                           (snd (adjust_fft_min 10 (init, clicked_frame))))))
    = 0%Z /\
  fft_max_val (fst (snd (adjust_fft_min (-10)
                           (snd (adjust_fft_min 10 (init, clicked_frame))))))
    = 120%Z.
Proof.
  apply (proj1 (adjust_fft_round_trip_and_stops 10 (init, clicked_frame)
                  ltac:(unfold fft_range_inv; simpl; lia))).
  simpl. lia.
Defined.

End AnalysisMoreRuns.

Section FindPeaksMore.
Import Analysis RangeDisplay.
Context {L : NumLib} {LL : NumLibLaws L}.

(** X9: Without frequency values, without data, without a clicked position or
    with a click outside the data, [on_find_peaks] returns without any
    effect: the result text, the range, the data and the log are as before. *)
Theorem on_find_peaks_nothing_clicked (self : AnalysisTab) (st : State) :
  nothing_clicked st -> on_find_peaks (self, st) = (Ok tt, (self, st)).
Proof.
  unfold nothing_clicked, on_find_peaks.
  intros [Hf|[Hd|[Hc|(data & ln & idx & Hd & Hc & Hi & Hout)]]].
  - by rewrite Hf.
  - rewrite Hd. by destruct (freqs_global st).
  - rewrite Hc. by destruct (freqs_global st), (data_global st).
  - rewrite Hd, Hc, Hi. destruct (freqs_global st); [|reflexivity].
    replace ((0 <=? idx)%Z && (idx <? Z.of_nat (length (rows data)))%Z) with false;
      [reflexivity|].
    symmetry. apply andb_false_iff. destruct Hout.
    + left. apply Z.leb_gt. lia.
    + right. apply Z.ltb_ge. lia.
Qed.

(** The sorted list of all reported peaks, of which [top_peaks] keeps the
    first five. *)
Lemma top_peaks_take freqs fft_data height :
  (length fft_data <= length freqs)%nat ->
  exists full,
    top_peaks freqs fft_data height = Ok (take 5 full) /\
    length full = length (find_peaks fft_data height 5).
Proof.
  intros Hlen. unfold top_peaks.
  set (peaks := find_peaks fft_data height 5).
  assert (Hpk : Forall (fun i => (i < length fft_data)%nat) peaks).
  { apply List.Forall_forall. intros i Hi.
    destruct (find_peaks_height _ _ _ _ Hi) as (v & Hv & _).
    by apply lookup_lt_Some in Hv. }
  rewrite (fancy_index_map freqs peaks)
    by (eapply Forall_impl; [exact Hpk|]; simpl; intros; lia).
  rewrite (fancy_index_map fft_data peaks Hpk).
  set (PF := map (fun i => nth i freqs 0%Q) peaks).
  set (PA := map (fun i => nth i fft_data 0%Q) peaks).
  assert (HPF : length PF = length peaks) by (subst PF; apply length_map).
  assert (HPA : length PA = length peaks) by (subst PA; apply length_map).
  assert (HS : Forall (fun i => (i < length peaks)%nat) (rev (argsort PA))).
  { apply List.Forall_forall. intros i Hi. apply in_rev in Hi.
    pose proof (argsort_in_range PA) as Hr. rewrite List.Forall_forall in Hr.
    specialize (Hr i Hi). by rewrite HPA in Hr. }
  rewrite (fancy_index_map PF) by (by rewrite HPF).
  rewrite (fancy_index_map PA) by (by rewrite HPA).
  set (S := rev (argsort PA)) in *.
  exists (map (fun s => (nth s PF 0%Q, nth s PA 0%Q)) S). split.
  - rewrite <- zip_map_same.
    destruct (Nat.ltb_spec 5 (length (map (fun i => nth i PF 0%Q) S))) as [H5|H5].
    + f_equal. apply zip_take_both.
    + rewrite take_ge; [reflexivity|].
      rewrite length_zip_with, !length_map in *. lia.
  - rewrite length_map. subst S. rewrite length_rev.
    rewrite (Permutation_length (argsort_perm PA)), length_seq. exact HPA.
Qed.

(** X10: Over loaded data with a click in range, the number of peaks printed is
    the number of reported peaks, capped at five, and it is the number the
    log entry gives. *)
Theorem on_find_peaks_count (self : AnalysisTab) (st : State)
    (freqs : list Q) (data : Frames) (ln : Line2D) (idx : Z) (fft_data : list Q) :
  freqs_global st = Some freqs ->
  (nbins data <= length freqs)%nat ->
  data_global st = Some data ->
  spec_click_line st = Some ln ->
  click_index ln = Ok idx ->
  (0 <= idx)%Z ->
  rows data !! Z.to_nat idx = Some fft_data ->
  find_peaks fft_data (inject_Z (fft_min_val self + 10)) 5 <> [] ->
  let n := Nat.min 5 (length (find_peaks fft_data (inject_Z (fft_min_val self + 10)) 5)) in
  exists ps,
    length ps = n /\
    on_find_peaks (self, st)
    = (Ok tt,
       (set_results ("Top peaks:" +:+ nl +:+ peak_lines 0 ps) self,
        add_log_entry ("Found " +:+ pretty n +:+ " peaks in FFT data") st)).
Proof.
  intros Hf Hbins Hd Hln Hidx H0 Hrow Hne. cbv zeta.
  pose proof (lookup_lt_Some _ _ _ Hrow) as Hlt.
  assert (Hlen : (length fft_data <= length freqs)%nat).
  { pose proof (rows_rectangular data) as Hrect.
    rewrite List.Forall_forall in Hrect.
    rewrite (Hrect fft_data); [exact Hbins|].
    apply list_elem_of_In, list_elem_of_lookup. eauto. }
  destruct (top_peaks_take freqs fft_data (inject_Z (fft_min_val self + 10)) Hlen)
    as (full & Htop & Hfull).
  exists (take 5 full). split; [rewrite length_take; lia|].
  unfold on_find_peaks. rewrite Hf, Hd, Hln, Hidx.
  replace ((0 <=? idx)%Z && (idx <? Z.of_nat (length (rows data)))%Z) with true
    by (symmetry; apply andb_true_iff; split; [apply Z.leb_le|apply Z.ltb_lt]; lia).
  assert (Hpy : py_index (rows data) idx = Ok fft_data)
    by (rewrite <- (Z2Nat.id idx) by lia; by apply py_index_nat).
  rewrite Hpy, Htop.
  destruct (find_peaks fft_data (inject_Z (fft_min_val self + 10)) 5)
    as [|i peaks] eqn:Hfp; [done|].
  simpl Nat.ltb. cbv iota. rewrite length_take, Hfull. reflexivity.
Qed.

End FindPeaksMore.

Section FindPeaksMoreRuns.
Import Analysis RangeDisplay Reference.

Lemma on_find_peaks_nothing_clicked_witness :
  on_find_peaks (init, flat_frame_no_freqs) = (Ok tt, (init, flat_frame_no_freqs)).
Proof.
  apply (on_find_peaks_nothing_clicked (L := ref_numlib) init flat_frame_no_freqs).
  left. reflexivity.
Defined.

Lemma on_find_peaks_count_witness :
  exists ps,
    length ps = Nat.min 5 (length (find_peaks peak_frame (inject_Z (0 + 10)) 5)) /\
    on_find_peaks (init, clicked_frame)
    = (Ok tt,
       (set_results ("Top peaks:" +:+ nl +:+ peak_lines 0 ps) init,
        add_log_entry
          ("Found " +:+ pretty (Nat.min 5 (length (find_peaks peak_frame
                                                     (inject_Z (0 + 10)) 5)))
           +:+ " peaks in FFT data") clicked_frame)).
Proof.
  apply (on_find_peaks_count (LL := ref_numlib_laws) init clicked_frame
           peak_freqs one_frame click_0 0 peak_frame).
  - reflexivity.
  - simpl. lia.
  - reflexivity.
  - reflexivity.
  - reflexivity.
  - lia.
  - reflexivity.
  - vm_compute. discriminate.
Defined.

End FindPeaksMoreRuns.

(** ** The filter tab: saving, loading, deleting, toggling *)

Section FilterMore.
Import Filter FilterOps FilterProps.

(** X11: Without a usable selection (nothing selected, no data, or an end at or
    beyond the number of frames) [on_save_profile] saves nothing: it returns,
    the tab is as before, and the only effect is one log entry. *)
Theorem on_save_profile_rejects (self : FilterTab) (st : State) :
  selection_unusable st ->
  exists msg, on_save_profile (self, st) = (Ok tt, (self, add_log_entry msg st)).
Proof.
  unfold selection_unusable, on_save_profile.
  intros [Hsel|(start & end_ & Hsel & [Hd|(data & Hd & Hout)])]; rewrite Hsel.
  - eauto.
  - rewrite Hd. eauto.
  - rewrite Hd.
    replace ((start <? Z.of_nat (length (rows data)))%Z
             && (end_ <? Z.of_nat (length (rows data)))%Z) with false; [eauto|].
    symmetry. apply andb_false_iff.
    destruct Hout; [left|right]; apply Z.ltb_ge; lia.
Qed.

Lemma on_save_profile_rejects_witness :
  exists msg,
    on_save_profile (init, Samples.with_selection (Some (1%Z, 3%Z)))
    = (Ok tt, (init, add_log_entry msg (Samples.with_selection (Some (1%Z, 3%Z))))).
Proof.
  apply (on_save_profile_rejects init (Samples.with_selection (Some (1%Z, 3%Z)))).
  right. exists 1%Z, 3%Z. split; [reflexivity|]. right.
  exists Reference.three_frames. split; [reflexivity|]. right. simpl. lia.
Defined.

(** X12: A selection whose end lies before its start (both below the number of
    frames) passes the range test, collects no frame, and [np.vstack] raises
    ValueError: nothing is saved, nothing is logged and the name box keeps
    its text. *)
Theorem on_save_profile_inverted (self : FilterTab) (st : State)
    (data : Frames) (start end_ : Z) :
  data_global st = Some data ->
  selected_range st = Some (start, end_) ->
  (end_ < start)%Z -> (start < Z.of_nat (length (rows data)))%Z ->
  on_save_profile (self, st)
  = (Raise (ValueError "need at least one array to concatenate"), (self, st)).
Proof.
  intros Hd Hsel Hinv Hlt. unfold on_save_profile. rewrite Hsel, Hd.
  replace ((start <? Z.of_nat (length (rows data)))%Z
           && (end_ <? Z.of_nat (length (rows data)))%Z) with true
    by (symmetry; apply andb_true_iff; split; apply Z.ltb_lt; lia).
  unfold py_range. replace (Z.to_nat (end_ + 1 - start)) with 0%nat by lia.
  reflexivity.
Qed.

Lemma on_save_profile_inverted_witness :
  on_save_profile (init, Samples.with_selection (Some (2%Z, 0%Z)))
  = (Raise (ValueError "need at least one array to concatenate"),
     (init, Samples.with_selection (Some (2%Z, 0%Z)))).
Proof.
  apply (on_save_profile_inverted init (Samples.with_selection (Some (2%Z, 0%Z)))
           Reference.three_frames 2 0).
  - reflexivity.
  - reflexivity.
  - lia.
  - simpl. lia.
Defined.

Lemma py_index_negative {A} (l : list A) (i : Z) :
  (- Z.of_nat (length l) <= i < 0)%Z ->
  py_index l i = py_index l (i + Z.of_nat (length l)).
Proof.
  intros Hi. unfold py_index.
  replace (i <? 0)%Z with true by (symmetry; apply Z.ltb_lt; lia).
  replace (i + Z.of_nat (length l) <? 0)%Z with false
    by (symmetry; apply Z.ltb_ge; lia).
  reflexivity.
Qed.

Lemma collect_frames_shift data n start :
  (- Z.of_nat (length data) <= start)%Z -> (start + Z.of_nat n <= 0)%Z ->
  collect_frames data (map (fun k => (start + Z.of_nat k)%Z) (seq 0 n))
  = collect_frames data
      (map (fun k => (start + Z.of_nat (length data) + Z.of_nat k)%Z) (seq 0 n)).
Proof.
  intros Hlo Hhi.
  assert (Hgen : forall a, (Z.of_nat a + Z.of_nat n <= - start)%Z ->
            collect_frames data
              (map (fun k => (start + Z.of_nat k)%Z) (seq a n))
            = collect_frames data
                (map (fun k => (start + Z.of_nat (length data) + Z.of_nat k)%Z)
                     (seq a n))).
  { clear Hhi. induction n as [|n IH]; intros a Ha; simpl; [reflexivity|].
    rewrite (py_index_negative data (start + Z.of_nat a)) by lia.
    replace (start + Z.of_nat a + Z.of_nat (length data))%Z
      with (start + Z.of_nat (length data) + Z.of_nat a)%Z by lia.
    rewrite (IH (S a)) by lia. reflexivity. }
  apply (Hgen 0%nat). lia.
Qed.

(** X13: A selection given by negative indices (counted from the end, as Python
    indexing does) is accepted: the saved profile keeps the negative range and
    holds the means of the frames [start + len] to [end + len]. *)
Theorem on_save_profile_negative_wraps (self : FilterTab) (st : State)
    (data : Frames) (start end_ : Z) :
  data_global st = Some data ->
  selected_range st = Some (start, end_) ->
  (- Z.of_nat (length (rows data)) <= start)%Z -> (start <= end_)%Z -> (end_ < 0)%Z ->
  (forall tl, time_labels_all st = Some tl -> (- Z.of_nat (length tl) <= start)%Z) ->
  exists p,
    noise_profiles (fst (snd (on_save_profile (self, st))))
      = noise_profiles self ++ [p] /\
    p_range p = (start, end_) /\
    p_data p
    = map (bin_mean (selected_frames (rows data)
                       (start + Z.of_nat (length (rows data)))
                       (end_ + Z.of_nat (length (rows data)))))
          (seq 0 (nbins data)).
Proof.
  intros Hdata Hsel Hlo Hle Hneg Hlabels.
  pose proof (rows_rectangular data) as Hrect.
  set (len := Z.of_nat (length (rows data))) in *.
  unfold on_save_profile. rewrite Hsel, Hdata. fold len.
  replace ((start <? len)%Z && (end_ <? len)%Z)
    with true by (symmetry; apply andb_true_iff; split; apply Z.ltb_lt; lia).
  assert (Hcollect : collect_frames (rows data) (py_range start (end_ + 1))
                     = Ok (selected_frames (rows data) (start + len) (end_ + len))).
  { unfold py_range. rewrite collect_frames_shift by (fold len; lia).
    fold len.
    replace (end_ + 1 - start)%Z with (end_ + len + 1 - (start + len))%Z by lia.
    apply (collect_frames_selection (rows data) (start + len) (end_ + len));
      fold len; lia. }
  rewrite Hcollect.
  assert (Hne : selected_frames (rows data) (start + len) (end_ + len) <> [])
    by (apply selected_frames_nonempty; fold len; lia).
  pose proof (selected_frames_rect (rows data) (start + len) (end_ + len) _ Hrect)
    as Hrect'.
  rewrite (vstack_rect _ _ Hne Hrect').
  assert (Htime : exists tm, profile_time (time_labels_all st) start end_ = Ok tm).
  { unfold profile_time. destruct (time_labels_all st) as [tl|] eqn:Htl; [|eauto].
    specialize (Hlabels tl eq_refl).
    assert (Hlab : forall i, (start <= i < 0)%Z -> exists s0, label_or_na tl i = Ok s0).
    { intros i Hi. unfold label_or_na.
      replace (i <? Z.of_nat (length tl))%Z with true
        by (symmetry; apply Z.ltb_lt; lia).
      apply py_index_defined. lia. }
    destruct (Hlab start) as [s1 ->]; [lia|].
    destruct (Hlab end_) as [s2 ->]; [lia|]. eauto. }
  destruct Htime as [tm ->].
  rewrite (mean_axis0_bin_mean _ _ Hne Hrect').
  match goal with
  | |- context [update_profiles_display ?s] =>
      pose proof (update_profiles_display_keeps s) as Hupd
  end.
  match goal with
  | |- context [append_profile ?p self] => exists p
  end.
  split; [|split; reflexivity].
  destruct (update_profiles_display _) as [[[]|e] self']; simpl in *; exact Hupd.
Qed.

Lemma on_save_profile_negative_wraps_witness :
  exists p,
    noise_profiles
      (fst (snd (on_save_profile (init, Samples.with_selection (Some ((-2)%Z, (-1)%Z))))))
      = noise_profiles init ++ [p] /\
    p_range p = ((-2)%Z, (-1)%Z) /\
    p_data p
    = map (bin_mean (selected_frames (rows Reference.three_frames)
                       (-2 + Z.of_nat (length (rows Reference.three_frames)))
                       (-1 + Z.of_nat (length (rows Reference.three_frames)))))
          (seq 0 (nbins Reference.three_frames)).
Proof.
  apply (on_save_profile_negative_wraps init
           (Samples.with_selection (Some ((-2)%Z, (-1)%Z)))
           Reference.three_frames (-2) (-1)).
  - reflexivity.
  - reflexivity.
  - simpl. lia.
  - lia.
  - lia.
  - intros tl [= <-]. simpl. lia.
Defined.

End FilterMore.

Section FilterSessions.
Import Filter FilterOps.

Lemma update_profiles_display_frame self :
  let self' := snd (update_profiles_display self) in
  noise_profiles self' = noise_profiles self /\
  active_profile self' = active_profile self /\
  status_text self' = status_text self /\
  status_light self' = status_light self /\
  name_input self' = name_input self /\
  next_obj self' = next_obj self.
Proof.
  cbv zeta. unfold update_profiles_display.
  destruct (noise_profiles self) as [|p ps] eqn:Hps; [by rewrite <- Hps|].
  destruct (profiles_blocks (active_profile self) 0 (p :: ps)); by rewrite <- Hps.
Qed.

Lemma profiles_blocks_no_active i ps :
  exists txt, profiles_blocks None i ps = Ok txt.
Proof.
  revert i. induction ps as [|p ps IH]; intros i; simpl; [eauto|].
  destruct (IH (S i)) as [txt ->]. eauto.
Qed.

Lemma update_profiles_display_no_active self :
  active_profile self = None -> fst (update_profiles_display self) = Ok tt.
Proof.
  intros Ha. unfold update_profiles_display. rewrite Ha.
  destruct (noise_profiles self) as [|p ps]; [reflexivity|].
  destruct (profiles_blocks_no_active 0 (p :: ps)) as [txt ->]. reflexivity.
Qed.

Lemma profile_eq_same p : profile_eq p p = Ok true.
Proof. unfold profile_eq. by rewrite Nat.eqb_refl. Qed.

Lemma on_save_profile_frame self st :
  let self' := fst (snd (on_save_profile (self, st))) in
  active_profile self' = active_profile self /\
  status_text self' = status_text self /\
  (noise_profiles self' = noise_profiles self \/
   exists p, noise_profiles self' = noise_profiles self ++ [p]).
Proof.
  cbv zeta. unfold on_save_profile.
  destruct (selected_range st) as [[start end_]|]; [|simpl; auto].
  destruct (data_global st) as [data|]; [|simpl; auto].
  destruct (_ && _); [|simpl; auto].
  destruct (collect_frames _ _) as [rows0|e]; [|simpl; auto].
  destruct (vstack rows0) as [rows1|e]; [|simpl; auto].
  destruct (profile_time _ _ _) as [tm|e]; [|simpl; auto].
  match goal with
  | |- context [update_profiles_display ?s] =>
      pose proof (update_profiles_display_frame s) as (Hn & Ha & Hs & _)
  end.
  destruct (update_profiles_display _) as [[[]|e] self']; simpl in *;
    (split; [exact Ha|split; [exact Hs|right; eauto]]).
Qed.

Lemma filter_inv_call c self st :
  filter_inv self -> filter_inv (fst (snd (run_call c (self, st)))).
Proof.
  intros Hinv. pose proof Hinv as [Hstat Hhead].
  destruct c; cbn [run_call fst snd].
  - (* Capture *)
    unfold on_capture_profile.
    destruct (selected_range st) as [[start end_]|]; [|exact Hinv].
    destruct (selection_metadata _ _ _); exact Hinv.
  - (* Save *)
    destruct (on_save_profile_frame self st) as (Ha & Hs & Hn).
    split.
    + rewrite Hs, Ha. exact Hstat.
    + intros a. rewrite Ha. intros Hact.
      destruct (Hhead a Hact) as [rest Hrest].
      destruct Hn as [->|[p ->]]; rewrite Hrest; simpl; eauto.
  - (* Load *)
    unfold on_load_profile. destruct (noise_profiles self) as [|p0 ps] eqn:Hps;
      [exact Hinv|].
    pose proof (update_profiles_display_frame (set_active (Some p0) self))
      as (Hn & Ha & Hs & _).
    simpl in Hn, Ha, Hs. rewrite Hps in Hn.
    destruct (update_profiles_display _) as [[[]|e] self'];
      unfold filter_inv; simpl in *;
      (split; [rewrite Ha; discriminate|]);
      intros a; rewrite Ha, Hn; intros [= <-]; eauto.
  - (* Delete *)
    unfold on_delete_profile. destruct (noise_profiles self) as [|p0 ps] eqn:Hps;
      [exact Hinv|].
    cbn [active_profile set_profiles].
    destruct (active_profile self) as [a|] eqn:Hact.
    + destruct (Hhead a eq_refl) as [rest Hrest].
      injection Hrest as <- <-.
      rewrite profile_eq_same.
      pose proof (update_profiles_display_frame
                    (set_status "gray" "OFF" (set_active None (set_profiles ps self))))
        as (Hn & Ha & Hs & _).
      simpl in Hn, Ha, Hs.
      destruct (update_profiles_display _) as [[[]|e] self'];
        unfold filter_inv; simpl in *;
        (split; [rewrite Hs; intros [?|?]; discriminate
                |intros a'; rewrite Ha; discriminate]).
    + pose proof (update_profiles_display_frame (set_profiles ps self))
        as (Hn & Ha & Hs & _).
      simpl in Hn, Ha, Hs.
      destruct (update_profiles_display _) as [[[]|e] self'];
        unfold filter_inv; simpl in *;
        (split; [rewrite Hs, Ha, Hact; exact Hstat
                |intros a'; rewrite Ha, Hact; discriminate]).
  - (* Export *)
    unfold on_export_profile. destruct (active_profile self); exact Hinv.
  - (* Intensity *)
    exact Hinv.
  - (* Toggle *)
    unfold on_toggle_filter. destruct (active_profile self) as [a|] eqn:Hact.
    + destruct (String.eqb (status_text self) "ON"); unfold filter_inv; simpl;
        (split; [rewrite Hact; discriminate|apply Hinv]).
    + exact Hinv.
  - (* ResetFilter *)
    unfold on_reset_filter.
    pose proof (update_profiles_display_frame
                  (set_active None (set_status "gray" "OFF" self)))
      as (Hn & Ha & Hs & _).
    simpl in Hn, Ha, Hs.
    destruct (update_profiles_display _) as [[[]|e] self'];
      unfold filter_inv; simpl in *;
      (split; [rewrite Hs; intros [?|?]; discriminate
              |intros a'; rewrite Ha; discriminate]).
Qed.

Lemma filter_inv_session steps w :
  filter_inv (fst w) -> filter_inv (fst (run_session w steps)).
Proof.
  revert w. induction steps as [|[env c] steps IH]; intros [self st] H;
    simpl; [exact H|].
  apply IH. by apply filter_inv_call.
Qed.

Lemma on_delete_profile_returns self st :
  filter_inv self -> fst (on_delete_profile (self, st)) = Ok tt.
Proof.
  intros [Hstat Hhead]. unfold on_delete_profile.
  destruct (noise_profiles self) as [|p0 ps] eqn:Hps; [reflexivity|]. simpl.
  destruct (active_profile self) as [a|] eqn:Hact.
  - destruct (Hhead a eq_refl) as [rest Hrest]. injection Hrest as <- <-.
    rewrite profile_eq_same.
    pose proof (update_profiles_display_no_active
                  (set_status "gray" "OFF" (set_active None (set_profiles ps self)))
                  eq_refl) as Hok.
    destruct (update_profiles_display _) as [[[]|e] self']; simpl in *;
      [reflexivity|discriminate].
  - pose proof (update_profiles_display_no_active (set_profiles ps self) Hact) as Hok.
    destruct (update_profiles_display _) as [[[]|e] self']; simpl in *;
      [reflexivity|discriminate].
Qed.

(** X15: Through any session on the filter tab (Capture, Save, Load, Delete,
    Export, the intensity slider, Apply Filter and Reset, in any order, with
    any changes of the module state in between, calls that raise included),
    the status reads ON or READY only while a profile is active, the active
    profile is the first of the list, and Delete returns without raising. *)
Theorem filter_session_invariant (st : State)
    (steps : list ((State -> State) * filter_call)) :
  let w := run_session (init, st) steps in
  filter_inv (fst w) /\
  forall st', fst (on_delete_profile (fst w, st')) = Ok tt.
Proof.
  cbv zeta.
  assert (H : filter_inv (fst (run_session (init, st) steps))).
  { apply filter_inv_session. split; simpl; [intros [?|?]|]; discriminate. }
  split; [exact H|]. intros st'. by apply on_delete_profile_returns.
Qed.

(** X16: With a profile active and the status READY or ON, pressing Apply
    Filter twice brings the tab back exactly as it was. *)
Theorem on_toggle_filter_twice (self : FilterTab) (st : State) :
  active_profile self <> None ->
  (status_light self = "orange" /\ status_text self = "READY") \/
  (status_light self = "green" /\ status_text self = "ON") ->
  fst (on_toggle_filter (on_toggle_filter (self, st))) = self.
Proof.
  destruct self as [nps act fi ni mt pt sl stx no]. simpl.
  intros Hact Hs. destruct act as [a|]; [|done].
  destruct Hs as [[-> ->]|[-> ->]]; reflexivity.
Qed.

Lemma on_toggle_filter_twice_witness :
  fst (on_toggle_filter (on_toggle_filter (Samples.filter_on, Reference.selection_0_1)))
  = Samples.filter_on.
Proof.
  apply (on_toggle_filter_twice Samples.filter_on Reference.selection_0_1).
  - discriminate.
  - right. split; reflexivity.
Defined.

Lemma profiles_blocks_raises a i ps p :
  In p ps -> (exists e, profile_eq p a = Raise e) ->
  profiles_blocks (Some a) i ps
  = Raise (ValueError "The truth value of an array with more than one element is ambiguous").
Proof.
  assert (Hmsg : forall q e, profile_eq q a = Raise e ->
            e = ValueError "The truth value of an array with more than one element is ambiguous").
  { intros q e. unfold profile_eq.
    repeat (match goal with
            | |- context [if ?c then _ else _] => destruct c
            | |- context [match ?l with [] => _ | _ :: _ => _ end] => destruct l
            end; try discriminate); congruence. }
  revert i. induction ps as [|q ps IH]; intros i Hin [e He]; [destruct Hin|].
  simpl. destruct (profile_eq q a) as [b|e'] eqn:Hq.
  - destruct Hin as [->|Hin]; [congruence|].
    rewrite (IH (S i) Hin); eauto.
  - by rewrite (Hmsg q e' Hq).
Qed.

(** X17: When a later profile of the list is another object with the same name
    and range as the first one and the data has two bins or more, Load makes
    the first profile active and then raises ValueError while it rebuilds the
    list text (the dictionaries are compared down to the arrays): the status
    is not changed and nothing is logged. *)
Theorem on_load_profile_same_name_raises (self : FilterTab) (st : State)
    (p0 p1 : Profile) (rest : list Profile) :
  noise_profiles self = p0 :: rest ->
  In p1 rest ->
  p_obj p1 <> p_obj p0 ->
  p_name p1 = p_name p0 -> p_range p1 = p_range p0 ->
  (2 <= length (p_data p0))%nat ->
  on_load_profile (self, st)
  = (Raise (ValueError "The truth value of an array with more than one element is ambiguous"),
     (set_active (Some p0) self, st)).
Proof.
  intros Hps Hin Hobj Hname Hrange Hbins.
  unfold on_load_profile. rewrite Hps.
  unfold update_profiles_display. simpl. rewrite Hps.
  change (match profile_eq p0 p0 with
          | Ok is_active => _
          | Raise e => _
          end)
    with (profiles_blocks (Some p0) 0 (p0 :: rest)).
  rewrite (profiles_blocks_raises p0 0 (p0 :: rest) p1); [reflexivity|by right|].
  unfold profile_eq.
  replace (p_obj p1 =? p_obj p0)%nat with false
    by (symmetry; by apply Nat.eqb_neq).
  rewrite Hname, String.eqb_refl, Hrange. simpl.
  rewrite bool_decide_eq_true_2 by reflexivity. simpl.
  destruct (p_data p0) as [|x [|y l]]; simpl in Hbins; try lia.
  destruct (p_data p1) as [|x1 [|y1 l1]]; eauto.
Qed.

Lemma on_load_profile_same_name_raises_witness :
  on_load_profile (Samples.twins_saved, Reference.selection_0_1)
  = (Raise (ValueError "The truth value of an array with more than one element is ambiguous"),
     (set_active (Some Samples.twin_a) Samples.twins_saved, Reference.selection_0_1)).
Proof.
  apply (on_load_profile_same_name_raises Samples.twins_saved Reference.selection_0_1
           Samples.twin_a Samples.twin_b [Samples.twin_b]).
  - reflexivity.
  - left. reflexivity.
  - simpl. lia.
  - reflexivity.
  - reflexivity.
  - simpl. lia.
Defined.

End FilterSessions.

Section SaveTwice.
Import Filter FilterOps.

(** One save over a valid selection while no profile is active, spelled out. *)
Lemma on_save_profile_returns (self : FilterTab) (st : State)
    (data : Frames) (start end_ : Z) :
  active_profile self = None ->
  data_global st = Some data ->
  selected_range st = Some (start, end_) ->
  (0 <= start)%Z -> (start <= end_)%Z -> (end_ < Z.of_nat (length (rows data)))%Z ->
  exists tm txt,
    let name := if String.eqb (name_input self) ""
                then "Background Profile " +:+ pretty (length (noise_profiles self) + 1)%nat
                else name_input self in
    let p := {| p_obj := next_obj self; p_name := name; p_range := (start, end_);
                p_data := map (bin_mean (selected_frames (rows data) start end_))
                              (seq 0 (nbins data));
                p_time := tm |} in
    profile_time (time_labels_all st) start end_ = Ok tm /\
    on_save_profile (self, st)
    = (Ok tt,
       (set_name_input "" (set_profiles_text txt (append_profile p self)),
        add_log_entry ("Saved background profile '" +:+ name +:+ "'") st)).
Proof.
  intros Hact Hdata Hsel H0 H1 H2.
  pose proof (rows_rectangular data) as Hrect.
  destruct (profile_time_defined (time_labels_all st) start end_) as [tm Htm]; [lia..|].
  exists tm.
  unfold on_save_profile. rewrite Hsel, Hdata.
  replace ((start <? Z.of_nat (length (rows data)))%Z
           && (end_ <? Z.of_nat (length (rows data)))%Z)
    with true by (symmetry; apply andb_true_iff; split; apply Z.ltb_lt; lia).
  rewrite (collect_frames_selection (rows data) start end_ H0 H1 H2).
  pose proof (selected_frames_nonempty (rows data) start end_ H0 H1 H2) as Hne.
  pose proof (selected_frames_rect (rows data) start end_ _ Hrect) as Hrect'.
  rewrite (vstack_rect _ _ Hne Hrect'), Htm.
  rewrite (mean_axis0_bin_mean _ _ Hne Hrect').
  unfold update_profiles_display. cbn [noise_profiles active_profile append_profile].
  rewrite Hact.
  destruct (noise_profiles self ++ _) as [|q qs] eqn:Hq.
  { destruct (noise_profiles self); discriminate. }
  destruct (profiles_blocks_no_active 0 (q :: qs)) as [body ->].
  eexists. cbv zeta. split; reflexivity.
Qed.

(** X14: Two saves in a row over the same valid selection, while no profile is
    active: both return, the name box is empty after the first, so the second
    profile gets the default name with the new count; the two profiles are
    different objects with the same range and data. *)
Theorem on_save_profile_twice (self : FilterTab) (st : State)
    (data : Frames) (start end_ : Z) :
  active_profile self = None ->
  data_global st = Some data ->
  selected_range st = Some (start, end_) ->
  (0 <= start)%Z -> (start <= end_)%Z -> (end_ < Z.of_nat (length (rows data)))%Z ->
  let r1 := on_save_profile (self, st) in
  let r2 := on_save_profile (snd r1) in
  fst r1 = Ok tt /\ fst r2 = Ok tt /\
  name_input (fst (snd r1)) = "" /\
  exists p1 p2,
    noise_profiles (fst (snd r2)) = noise_profiles self ++ [p1; p2] /\
    p_name p2
    = "Background Profile " +:+ pretty (length (noise_profiles self) + 2)%nat /\
    p_obj p2 = S (p_obj p1) /\
    p_range p2 = p_range p1 /\ p_data p2 = p_data p1.
Proof.
  intros Hact Hdata Hsel H0 H1 H2. cbv zeta.
  destruct (on_save_profile_returns self st data start end_ Hact Hdata Hsel H0 H1 H2)
    as (tm & txt & Htm & ->).
  cbn [fst snd].
  match goal with
  | |- context [on_save_profile (?s, ?t)] =>
      destruct (on_save_profile_returns s t data start end_
                  Hact Hdata Hsel H0 H1 H2) as (tm' & txt' & Htm' & ->)
  end.
  cbn [fst snd]. split; [reflexivity|]. split; [reflexivity|].
  split; [reflexivity|].
  eexists _, _. cbn. rewrite <- app_assoc. split; [reflexivity|].
  rewrite length_app. cbn.
  replace (length (noise_profiles self) + 1 + 1)%nat
    with (length (noise_profiles self) + 2)%nat by lia.
  auto.
Qed.

Lemma on_save_profile_twice_witness :
  let r1 := on_save_profile (init, Reference.selection_0_1) in
  let r2 := on_save_profile (snd r1) in
  fst r1 = Ok tt /\ fst r2 = Ok tt /\
  name_input (fst (snd r1)) = "" /\
  exists p1 p2,
    noise_profiles (fst (snd r2)) = noise_profiles init ++ [p1; p2] /\
    p_name p2
    = "Background Profile " +:+ pretty (length (noise_profiles init) + 2)%nat /\
    p_obj p2 = S (p_obj p1) /\
    p_range p2 = p_range p1 /\ p_data p2 = p_data p1.
Proof.
  apply (on_save_profile_twice init Reference.selection_0_1
           Reference.three_frames 0 1).
  - reflexivity.
  - reflexivity.
  - reflexivity.
  - lia.
  - lia.
  - simpl. lia.
Defined.

End SaveTwice.

(** ** The annotations tab: ids and deletion *)

Section AnnotationSessions.
Import Annotations AnnotationOps.

Lemma update_annotations_display_no_text self :
  annotations_text self = None ->
  update_annotations_display self = (Raise no_annotations_text, self).
Proof.
  intros Htxt. unfold update_annotations_display, bind, gets, set_annotations_text.
  destruct (annotations self); by rewrite Htxt.
Qed.

(** On a tab without the list text, an annotation whose time range could be
    built is appended, and the refresh of the list display raises. *)
Lemma on_add_annotation_no_text now self st start end_ tr :
  annotations_text self = None ->
  selected_range st = Some (start, end_) ->
  annotation_time_range (time_labels_all st) start end_ = Ok tr ->
  on_add_annotation now (self, st)
  = (Raise no_annotations_text,
     (append_annotation
        {| a_id := length (annotations self) + 1; a_range := (start, end_);
           a_classification := "General"; a_comment := "";
           a_time_created := now; a_color := ACCENT_YELLOW;
           a_time_range := tr |} self, st)).
Proof.
  intros Htxt Hsel Htr.
  unfold on_add_annotation, bind, gets, lift. cbn [fst snd].
  rewrite Hsel. cbn [fst snd]. rewrite Htr.
  unfold on_fst at 1. unfold modify at 1. cbn [fst snd].
  unfold on_fst at 1. cbn [fst snd].
  by rewrite update_annotations_display_no_text.
Qed.

(** The three ways [on_add_annotation] ends on a tab without the list text. *)
Lemma on_add_annotation_cases now self st :
  annotations_text self = None ->
  (selected_range st = None /\
   on_add_annotation now (self, st)
   = (Ok tt, (self, add_log_entry "Cannot add annotation - no selection" st))) \/
  (exists e, on_add_annotation now (self, st) = (Raise e, (self, st))) \/
  (exists start end_ a,
     selected_range st = Some (start, end_) /\
     on_add_annotation now (self, st)
     = (Raise no_annotations_text, (append_annotation a self, st)) /\
     a_id a = (length (annotations self) + 1)%nat /\
     a_range a = (start, end_) /\
     a_classification a = "General" /\ a_comment a = "").
Proof.
  intros Htxt.
  destruct (selected_range st) as [[start end_]|] eqn:Hsel.
  - destruct (annotation_time_range (time_labels_all st) start end_)
      as [tr|e] eqn:Htr.
    + right. right. eexists start, end_, _. split; [reflexivity|].
      split; [by apply on_add_annotation_no_text|]. simpl. auto.
    + right. left. exists e.
      unfold on_add_annotation, bind, gets, lift. cbn [fst snd].
      rewrite Hsel. cbn [fst snd]. by rewrite Htr.
  - left. split; [reflexivity|].
    unfold on_add_annotation, bind, gets. cbn [fst snd].
    by rewrite Hsel.
Qed.

Lemma on_delete_annotation_none self st :
  current_annotation self = None ->
  on_delete_annotation (self, st)
  = (Ok tt, (self, add_log_entry "No annotation selected to delete" st)).
Proof.
  intros Hcur. unfold on_delete_annotation, bind, gets. cbn [fst snd].
  rewrite Hcur. reflexivity.
Qed.

Lemma ids_snoc (pre : list Annotation) (a : Annotation) :
  map a_id pre = seq 1 (length pre) -> a_id a = (length pre + 1)%nat ->
  map a_id (pre ++ [a]) = seq 1 (length (pre ++ [a])).
Proof.
  intros Hpre Ha.
  rewrite map_app, length_app, Hpre. simpl.
  rewrite seq_app. simpl. by rewrite Ha, Nat.add_comm.
Qed.

Lemma annotations_inv_call c self st :
  annotations_inv self -> annotations_inv (fst (snd (run_call c (self, st)))).
Proof.
  intros Hinv. pose proof Hinv as (Hids & Htxt & Hsel & Hcur).
  destruct c; cbn [run_call fst snd].
  - destruct (on_add_annotation_cases now self st Htxt)
      as [[_ ->]|[[e ->]|(start & end_ & a & _ & -> & Hid & _)]];
      cbn [fst snd]; try exact Hinv.
    split; [|auto]. by apply ids_snoc.
  - rewrite (on_delete_annotation_none self st Hcur). exact Hinv.
  - unfold on_export_annotations. destruct (annotations self); exact Hinv.
Qed.

(** X18: On the instance the code builds ([__init__] ran, [build] stopped
    before the two texts), through any session on the annotations tab (Add,
    Delete and Export in any order, with any changes of the module state in
    between, calls that raise included): the annotation ids are 1, 2, ..., n
    in list order, so no two annotations share an id; no annotation ever
    becomes the current one; and Delete removes nothing, it returns with the
    entry 'No annotation selected to delete'. *)
Theorem annotation_ids_consecutive (st : State)
    (steps : list ((State -> State) * annotation_call)) :
  let w := run_session (init, st) steps in
  map a_id (annotations (fst w)) = seq 1 (length (annotations (fst w))) /\
  NoDup (map a_id (annotations (fst w))) /\
  current_annotation (fst w) = None /\
  forall st',
    on_delete_annotation (fst w, st')
    = (Ok tt, (fst w, add_log_entry "No annotation selected to delete" st')).
Proof.
  cbv zeta.
  assert (H : annotations_inv (fst (run_session (init, st) steps))).
  { assert (H0 : annotations_inv (fst (init, st)))
      by (repeat split; reflexivity).
    revert H0. generalize (init, st).
    induction steps as [|[env c] steps IH]; intros [self s0] H0; simpl; [exact H0|].
    apply IH. by apply annotations_inv_call. }
  pose proof H as (Hids & _ & _ & Hcur).
  split; [exact Hids|]. split; [rewrite Hids; apply NoDup_seq|].
  split; [exact Hcur|].
  intros st'. by apply on_delete_annotation_none.
Qed.

(** X19: On a tab without the list text (every instance the code builds),
    for a selection whose label lookup is defined, [on_add_annotation]
    appends the annotation (id: previous number plus one, the selected range,
    'General', empty comment) and then raises AttributeError from
    [update_annotations_display]: the annotation is not made the current one
    and nothing is logged. A Delete right after finds no current annotation
    and leaves the new annotation in the list. *)
Theorem on_add_annotation_raises_after_append (now : string)
    (self : AnnotationsTab) (st st' : State) (start end_ : Z) :
  annotations_text self = None ->
  selected_range st = Some (start, end_) ->
  label_lookup_defined st start end_ ->
  exists a,
    on_add_annotation now (self, st)
    = (Raise no_annotations_text, (append_annotation a self, st)) /\
    a_id a = (length (annotations self) + 1)%nat /\
    a_range a = (start, end_) /\
    a_classification a = "General" /\ a_comment a = "" /\
    (current_annotation self = None ->
     on_delete_annotation (append_annotation a self, st')
     = (Ok tt, (append_annotation a self,
                add_log_entry "No annotation selected to delete" st'))).
Proof.
  intros Htxt Hsel Hdef.
  destruct (annotation_time_range_defined st start end_ Hdef) as [tr Htr].
  eexists. split; [by apply (on_add_annotation_no_text now self st start end_ tr)|].
  repeat split.
  intros Hcur. by apply on_delete_annotation_none.
Qed.

Lemma on_add_annotation_raises_after_append_witness :
  exists a,
    on_add_annotation "2024-01-01 00:00:00" (init, labelled_selection)
    = (Raise no_annotations_text, (append_annotation a init, labelled_selection)) /\
    a_id a = (length (annotations init) + 1)%nat /\
    a_range a = (1%Z, 2%Z) /\
    a_classification a = "General" /\ a_comment a = "" /\
    (current_annotation init = None ->
     on_delete_annotation (append_annotation a init, nothing_selected)
     = (Ok tt, (append_annotation a init,
                add_log_entry "No annotation selected to delete" nothing_selected))).
Proof.
  apply (on_add_annotation_raises_after_append "2024-01-01 00:00:00" init
           labelled_selection nothing_selected 1 2).
  - reflexivity.
  - reflexivity.
  - unfold label_lookup_defined; simpl; lia.
Defined.

End AnnotationSessions.

(** ** state.py: reset, save, load, metadata *)

Section ResetMore.
Import ResetState ResetProps.

Lemma last_global_assign_default decl body name old :
  last_global_assign decl body name old
  = match last_global_assign decl body name None with
    | Some v => Some v
    | None => old
    end.
Proof.
  revert old. induction body as [|[n v] body IH]; intros old; simpl; [reflexivity|].
  set (c := declared_global decl n && String.eqb n name).
  rewrite (IH (if c then Some v else old)), (IH (if c then Some v else None)).
  destruct (last_global_assign decl body name None); [reflexivity|].
  destruct c; reflexivity.
Qed.

Lemma last_global_assign_untouched decl body name old :
  ~ In name (filter (fun n => declared_global decl n) (map fst body)) ->
  last_global_assign decl body name old = old.
Proof.
  revert old. induction body as [|[n v] body IH]; intros old Hnot; simpl;
    [reflexivity|].
  simpl in Hnot. rewrite filter_cons in Hnot.
  destruct (decide (declared_global decl n)) as [Hd|Hd].
  - apply not_in_cons in Hnot as [Hne Hnot]. rewrite IH by exact Hnot.
    destruct (String.eqb_spec n name); [congruence|].
    by rewrite andb_false_r.
  - rewrite IH by exact Hnot.
    apply Is_true_false in Hd. by rewrite Hd.
Qed.

(** X20: [reset_state] writes the variables it declares [global] and assigns, and
    nothing else: every other name of the module namespace (the seven
    assigned without declaration, the axes and widget references, the audio
    stream, buffer and position, the tab manager) has the value it had
    before the call. *)
Theorem reset_state_writes_only_declared (g : namespace) (name : string) :
  ~ In name reset_names -> reset_state g !! name = g !! name.
Proof.
  intros Hnot. rewrite reset_state_lookup.
  by apply last_global_assign_untouched.
Qed.

Lemma reset_state_writes_only_declared_witness :
  reset_state (<["audio_stream" := VObj "OutputStream"]> used_namespace)
    !! "audio_stream"
  = (<["audio_stream" := VObj "OutputStream"]> used_namespace) !! "audio_stream".
Proof.
  apply reset_state_writes_only_declared.
  vm_compute. intuition discriminate.
Defined.

(** X21: Resetting twice is the same as resetting once, from any namespace. *)
Theorem reset_state_idempotent (g : namespace) :
  reset_state (reset_state g) = reset_state g.
Proof.
  apply map_eq. intros name. rewrite !reset_state_lookup.
  rewrite (last_global_assign_default _ _ name
             (last_global_assign _ _ name (g !! name))).
  rewrite (last_global_assign_default _ _ name (g !! name)).
  destruct (last_global_assign reset_state_globals reset_state_body name None);
    reflexivity.
Qed.

End ResetMore.

Section ProjectMore.
Import Project.
Context `{E : Env}.

(** X22: [save_project] writes no module variable, and [load_project] writes
    neither a module variable nor a file: the dictionary it returns is not
    applied to the state. *)
Theorem save_load_leave_variables (filepath : string) (w : World) :
  vars (snd (save_project filepath w)) = vars w /\
  vars (snd (load_project filepath w)) = vars w /\
  fs (snd (load_project filepath w)) = fs w.
Proof.
  split; [|split].
  - unfold save_project, save_body.
    destruct (state_dict (vars w)); [|reflexivity].
    destruct (fs_open_wb filepath (fs w)) as [[[]|e] fs1]; [|reflexivity].
    destruct (pickle_dumps _); [|reflexivity].
    destruct (fs_write _ _ _) as [[[]|e] fs2]; reflexivity.
  - unfold load_project. destruct (load_body filepath w); reflexivity.
  - unfold load_project. destruct (load_body filepath w); reflexivity.
Qed.

(** X23: The dictionary is built before the file is opened: when building it
    raises (a click line without any point), [save_project] returns False
    with the files untouched. When the file was opened and pickling raises,
    [save_project] returns False and the file is left as [open(path, 'wb')]
    made it. *)
Theorem save_project_failures (filepath : string) (w : World) :
  (forall e, state_dict (vars w) = Raise e ->
     save_project filepath w
     = (Ok false, log_record ERROR ("Error saving project: " +:+ exn_str e) w)) /\
  (forall d fs1 e,
     state_dict (vars w) = Ok d ->
     fs_open_wb filepath (fs w) = (Ok tt, fs1) ->
     pickle_dumps (VDict d) = Raise e ->
     save_project filepath w
     = (Ok false,
        log_record ERROR ("Error saving project: " +:+ exn_str e) (set_fs fs1 w))).
Proof.
  split.
  - intros e He. unfold save_project, save_body. by rewrite He.
  - intros d fs1 e Hd Ho Hp. unfold save_project, save_body.
    by rewrite Hd, Ho, Hp.
Qed.

Lemma click_index_empty ln :
  xdata ln = [] -> click_index ln = Raise (IndexError "index out of range").
Proof. intros H. unfold click_index. by rewrite H. Qed.

End ProjectMore.

Section ProjectMoreRuns.
Import Project ResetProps.

Lemma save_project_failures_witness :
  save_project "dive.proj"
    {| vars := empty_click_vars; fs := (∅ : FS (Env := Reference.ref_env));
       logging := [] |}
  = (Ok false,
     log_record ERROR ("Error saving project: " +:+ "index out of range")
       {| vars := empty_click_vars; fs := (∅ : FS (Env := Reference.ref_env));
          logging := [] |}).
Proof.
  apply (proj1 (save_project_failures (E := Reference.ref_env) "dive.proj"
                  {| vars := empty_click_vars; fs := ∅; logging := [] |})
               (IndexError "index out of range")).
  reflexivity.
Defined.

End ProjectMoreRuns.

Section MetadataProperties.
Import Project Metadata.

Lemma lookup_length_last (l : list Q) (x : Q) :
  (x :: l) !! length l = Some (List.last l x).
Proof.
  induction l as [|z l _] using rev_ind; [reflexivity|].
  rewrite List.last_last, length_app. simpl. rewrite Nat.add_1_r.
  change ((x :: l ++ [z]) !! S (length l)) with ((l ++ [z]) !! length l).
  by apply list_lookup_middle.
Qed.

Lemma py_index_first_last (l : list Q) (x : Q) :
  py_index (x :: l) 0 = Ok x /\ py_index (x :: l) (-1) = Ok (List.last l x).
Proof.
  split; [reflexivity|].
  unfold py_index.
  replace (-1 <? 0)%Z with true by reflexivity.
  set (n := Z.of_nat (length (x :: l))).
  assert (Hn : (n = Z.of_nat (length l) + 1)%Z) by (subst n; simpl length; lia).
  replace ((0 <=? -1 + n)%Z && (-1 + n <? n)%Z) with true
    by (symmetry; apply andb_true_iff; split; [apply Z.leb_le|apply Z.ltb_lt]; lia).
  replace (Z.to_nat (-1 + n)) with (length l) by lia.
  by rewrite lookup_length_last.
Qed.

(** X24: [get_project_metadata] always returns. Its 'timezone' entry is the name
    [save_project] stores under 'current_timezone'; without timestamps there
    is no 'start_time', 'end_time' or 'duration' entry; with timestamps these
    are the first one, the last one and their difference (0 for a single
    timestamp). *)
Theorem get_project_metadata_entries (v : MetaVars) :
  exists d,
    get_project_metadata v = Ok d /\
    dict_get d "file_count" = Some (VInt (Z.of_nat (length (file_paths (base v))))) /\
    (forall d', state_dict (base v) = Ok d' ->
       dict_get d "timezone" = dict_get d' "current_timezone") /\
    (timestamp_all v = [] ->
       dict_get d "start_time" = None /\ dict_get d "end_time" = None /\
       dict_get d "duration" = None) /\
    (forall first rest, timestamp_all v = first :: rest ->
       dict_get d "start_time" = Some (VFloat first) /\
       dict_get d "end_time" = Some (VFloat (List.last rest first)) /\
       dict_get d "duration" = Some (VFloat (List.last rest first - first))) /\
    (forall only, timestamp_all v = [only] ->
       exists q, dict_get d "duration" = Some (VFloat q) /\ (q == 0)%Q).
Proof.
  unfold get_project_metadata.
  destruct (timestamp_all v) as [|first rest] eqn:Hts.
  - eexists. split; [reflexivity|]. split; [reflexivity|]. split.
    + intros d' Hd'. destruct (state_dict_entries _ _ Hd') as (_ & _ & -> & _).
      reflexivity.
    + repeat split; try reflexivity; intros; discriminate.
  - destruct (py_index_first_last rest first) as [-> ->].
    eexists. split; [reflexivity|]. split; [reflexivity|]. split.
    + intros d' Hd'. destruct (state_dict_entries _ _ Hd') as (_ & _ & -> & _).
      reflexivity.
    + split; [discriminate|]. split.
      * intros f r [= <- <-]. repeat split; reflexivity.
      * intros only [= -> ->]. eexists. split; [reflexivity|]. simpl. ring.
Qed.

End MetadataProperties.

Section MetadataRuns.
Import Project Metadata.

Lemma get_project_metadata_entries_witness :
  exists d,
    get_project_metadata Samples.meta_sample = Ok d /\
    dict_get d "file_count" = Some (VInt 1) /\
    dict_get d "timezone" = Some (VStr "UTC") /\
    dict_get d "start_time" = Some (VFloat 100) /\
    dict_get d "end_time" = Some (VFloat (207 # 2)) /\
    dict_get d "duration" = Some (VFloat ((207 # 2) - 100)%Q).
Proof.
  destruct (get_project_metadata_entries Samples.meta_sample)
    as (d & Hd & Hcount & _ & _ & Htimes & _).
  destruct (Htimes 100%Q [101; 207 # 2]%Q eq_refl) as (Hs & He & Hdur).
  exists d. split; [exact Hd|]. split; [exact Hcount|].
  split; [|split; [exact Hs|split; [exact He|exact Hdur]]].
  vm_compute in Hd. injection Hd as <-. reflexivity.
Defined.

End MetadataRuns.

Section RangeRepair.
Import Analysis.
Context {P : PlotLib}.

(** X8: From any range at all (for instance one that [on_auto_y] or [on_show]
    copied from the module state), one call of [adjust_fft_min] or of
    [adjust_fft_max] puts the maximum at least 10 above the minimum again;
    [adjust_fft_min] leaves the minimum at -20 or above exactly when the
    maximum is at least -10. The range meant is the one the tab holds after
    the call, whether the call returned or raised. *)
Theorem adjust_fft_restores_gap (delta : Z) (w : AnalysisTab * State) :
  (fft_min_val (fst (snd (adjust_fft_min delta w))) + 10
   <= fft_max_val (fst (snd (adjust_fft_min delta w))))%Z /\
  (fft_min_val (fst (snd (adjust_fft_max delta w))) + 10
   <= fft_max_val (fst (snd (adjust_fft_max delta w))))%Z /\
  ((-20 <= fft_min_val (fst (snd (adjust_fft_min delta w))))%Z
   <-> (-10 <= fft_max_val (fst w))%Z).
Proof.
  destruct w as [self st].
  destruct (adjust_fft_min_fields delta self st) as [-> ->].
  destruct (adjust_fft_max_fields delta self st) as [-> ->].
  simpl. repeat split; lia.
Qed.

End RangeRepair.
